(** * CashByKing: the balance and state core of database.js and server.js

    A shallow embedding of the SQLite-backed data layer (database.js) and of
    the Express route handlers that drive it (server.js).  Every table is a
    field of the record [Db]; every prepared statement is a function on [Db];
    JavaScript exceptions and the state that survives them are carried by the
    monad [M].

    Modelling conventions.
    - REAL amounts are whole rupees, modelled as [Z].
    - The clock reading of a request is an explicit argument [now], in
      milliseconds since the epoch; one reading serves the whole handler.
      daily_checkin.claimed_at is what SQLite's CURRENT_TIMESTAMP stores, a
      UTC text in whole seconds, and is read back the way [new Date(text)]
      reads it, as local time.  users.ban_expiry_date is a time in
      milliseconds, compared with the reading; the other DATETIME columns
      are only written and hold the reading itself.
    - [Math.random()] is an explicit argument of type [Q], a binary64 value;
      the arithmetic done on it is rounded as binary64 does.
    - Strings are ASCII, where [toUpperCase] and [String.length] are what
      String.prototype.toUpperCase and .length give.
    - INTEGER flags (banned, upi_locked, ...) keep their 0/1 encoding in [Z];
      JavaScript truthiness is [truthy].
    - better-sqlite3 enforces foreign keys (the source relies on it: see the
      comment in taskDb.delete), so an INSERT whose parent row is missing
      throws. *)

From Stdlib Require Import ZArith QArith Qround Qabs Qpower Lqa Ascii String Lia.
From stdpp Require Import gmap strings list fin_maps pretty.

Open Scope Z_scope.

(** ** Column types *)

(** pending_tasks.status and withdrawals.status *)
Inductive status := pending | approved | rejected.

(** transactions.type *)
Inductive txn_type :=
  | task_reward | referral | daily_checkin | telegram_join
  | admin_credit | admin_debit | withdrawal.

#[global] Instance status_eq_dec : EqDecision status.
Proof. solve_decision. Defined.
#[global] Instance txn_type_eq_dec : EqDecision txn_type.
Proof. solve_decision. Defined.

(** JavaScript truthiness of a number, and of a string. *)
Definition truthy (n : Z) : bool := negb (n =? 0).
Definition nonempty (s : string) : bool := negb (String.eqb s "").

(** [a || b] on strings. *)
Definition or_default (a b : string) : string := if nonempty a then a else b.

(** ** Rows *)

Module User.
Record t := mk {
  username : string;
  name : string;
  email : string;
  phone : string;
  upi : string;
  password : string;
  balance : Z;
  telegram_joined : Z;
  telegram_reward_claimed : Z;
  referrer_id : option Z;
  first_task_completed : Z;
  upi_locked : Z;
  registered_upi : string;
  banned : Z;
  banned_reason : string;
  ban_type : string;
  ban_expiry_date : option Z;
  referral_code : option string
}.

Definition add_balance (d : Z) (u : t) : t :=
  mk (username u) (name u) (email u) (phone u) (upi u) (password u)
     (balance u + d) (telegram_joined u) (telegram_reward_claimed u)
     (referrer_id u) (first_task_completed u) (upi_locked u)
     (registered_upi u) (banned u) (banned_reason u) (ban_type u)
     (ban_expiry_date u) (referral_code u).

Definition set_referrer_id (r : Z) (u : t) : t :=
  mk (username u) (name u) (email u) (phone u) (upi u) (password u)
     (balance u) (telegram_joined u) (telegram_reward_claimed u)
     (Some r) (first_task_completed u) (upi_locked u)
     (registered_upi u) (banned u) (banned_reason u) (ban_type u)
     (ban_expiry_date u) (referral_code u).

Definition set_first_task_completed (v : Z) (u : t) : t :=
  mk (username u) (name u) (email u) (phone u) (upi u) (password u)
     (balance u) (telegram_joined u) (telegram_reward_claimed u)
     (referrer_id u) v (upi_locked u)
     (registered_upi u) (banned u) (banned_reason u) (ban_type u)
     (ban_expiry_date u) (referral_code u).

Definition lock_upi (upiId : string) (u : t) : t :=
  mk (username u) (name u) (email u) (phone u) upiId (password u)
     (balance u) (telegram_joined u) (telegram_reward_claimed u)
     (referrer_id u) (first_task_completed u) 1
     upiId (banned u) (banned_reason u) (ban_type u)
     (ban_expiry_date u) (referral_code u).

Definition set_telegram (joined claimed : Z) (u : t) : t :=
  mk (username u) (name u) (email u) (phone u) (upi u) (password u)
     (balance u) joined claimed
     (referrer_id u) (first_task_completed u) (upi_locked u)
     (registered_upi u) (banned u) (banned_reason u) (ban_type u)
     (ban_expiry_date u) (referral_code u).

Definition set_ban (b : Z) (reason type : string) (expiry : option Z) (u : t) : t :=
  mk (username u) (name u) (email u) (phone u) (upi u) (password u)
     (balance u) (telegram_joined u) (telegram_reward_claimed u)
     (referrer_id u) (first_task_completed u) (upi_locked u)
     (registered_upi u) b reason type expiry (referral_code u).

(** The column defaults of CREATE TABLE users. *)
Definition fresh (username name email phone upi password code : string) : t :=
  mk username name email phone upi password 0 0 0 None 0 0 "" 0 ""
     "permanent" None (Some code).
End User.

Module Task.
Record t := mk { title : string; price : Z; enabled : Z }.
End Task.

Module PendingTask.
Record t := mk {
  user_id : Z;
  task_id : Z;
  status_ : status;
  custom_reason : string;
  submitted_at : Z;
  reviewed_at : option Z
}.
End PendingTask.

Module Transaction.
Record t := mk { user_id : Z; type : txn_type; amount : Z; reason : string }.
End Transaction.

(** [claimed_at] is the text 'YYYY-MM-DD HH:MM:SS' that CURRENT_TIMESTAMP
    stores, as the number of seconds from the epoch to that date and time
    taken as UTC. *)
Module Checkin.
Record t := mk { user_id : Z; day : Z; amount : Z; claimed_at : Z }.
End Checkin.

Module Referral.
Record t := mk { referrer_id : Z; referred_id : Z; reward_amount : Z }.
End Referral.

Module Withdrawal.
Record t := mk {
  user_id : Z;
  amount : Z;
  payment_method : string;
  payment_details : string;
  status_ : status;
  request_date : Z;
  process_date : option Z;
  admin_notes : string
}.
End Withdrawal.

(** ** The database *)

(** Tables with an INTEGER PRIMARY KEY AUTOINCREMENT that the code reads by id
    are maps from the id to the row, next to the sqlite_sequence counter of
    the table; tables that are only appended to and scanned are lists in
    rowid order. *)
Record Db := mkDb {
  users : gmap Z User.t;
  users_seq : Z;
  tasks : gmap Z Task.t;
  pending_tasks : gmap Z PendingTask.t;
  pending_tasks_seq : Z;
  completed_tasks : list (Z * Z);
  transactions : list Transaction.t;
  checkins : list Checkin.t;   (* table daily_checkin *)
  referrals : list Referral.t;
  withdrawals : gmap Z Withdrawal.t;
  withdrawals_seq : Z
}.

Definition empty_db : Db := mkDb ∅ 0 ∅ ∅ 0 [] [] [] [] ∅ 0.

Definition with_users (f : gmap Z User.t → gmap Z User.t) (s : Db) : Db :=
  mkDb (f (users s)) (users_seq s) (tasks s) (pending_tasks s)
       (pending_tasks_seq s) (completed_tasks s) (transactions s)
       (checkins s) (referrals s) (withdrawals s) (withdrawals_seq s).

Definition with_pending_tasks (f : gmap Z PendingTask.t → gmap Z PendingTask.t)
    (s : Db) : Db :=
  mkDb (users s) (users_seq s) (tasks s) (f (pending_tasks s))
       (pending_tasks_seq s) (completed_tasks s) (transactions s)
       (checkins s) (referrals s) (withdrawals s) (withdrawals_seq s).

Definition with_completed_tasks (f : list (Z * Z) → list (Z * Z)) (s : Db) : Db :=
  mkDb (users s) (users_seq s) (tasks s) (pending_tasks s)
       (pending_tasks_seq s) (f (completed_tasks s)) (transactions s)
       (checkins s) (referrals s) (withdrawals s) (withdrawals_seq s).

Definition with_transactions (f : list Transaction.t → list Transaction.t)
    (s : Db) : Db :=
  mkDb (users s) (users_seq s) (tasks s) (pending_tasks s)
       (pending_tasks_seq s) (completed_tasks s) (f (transactions s))
       (checkins s) (referrals s) (withdrawals s) (withdrawals_seq s).

Definition with_checkins (f : list Checkin.t → list Checkin.t) (s : Db) : Db :=
  mkDb (users s) (users_seq s) (tasks s) (pending_tasks s)
       (pending_tasks_seq s) (completed_tasks s) (transactions s)
       (f (checkins s)) (referrals s) (withdrawals s) (withdrawals_seq s).

Definition with_referrals (f : list Referral.t → list Referral.t) (s : Db) : Db :=
  mkDb (users s) (users_seq s) (tasks s) (pending_tasks s)
       (pending_tasks_seq s) (completed_tasks s) (transactions s)
       (checkins s) (f (referrals s)) (withdrawals s) (withdrawals_seq s).

Definition with_withdrawals (f : gmap Z Withdrawal.t → gmap Z Withdrawal.t)
    (s : Db) : Db :=
  mkDb (users s) (users_seq s) (tasks s) (pending_tasks s)
       (pending_tasks_seq s) (completed_tasks s) (transactions s)
       (checkins s) (referrals s) (f (withdrawals s)) (withdrawals_seq s).

(** ** Exceptions and the statement monad *)

Inductive sqlite_code := FOREIGN_KEY | UNIQUE | CHECK | NOT_NULL.

(** What a statement or a [throw new Error(...)] raises. *)
Inductive exn :=
  | SqliteError (code : sqlite_code)
  | Error (message : string).

(** A computation runs on the database and leaves a database behind whether
    it returns or throws: statements run in autocommit mode, there is no
    transaction around any of the operations below. *)
Definition M (A : Type) : Type := Db → Db * (exn + A).

Definition ret {A} (a : A) : M A := λ s, (s, inr a).
Definition throw {A} (e : exn) : M A := λ s, (s, inl e).
Definition bind {A B} (m : M A) (k : A → M B) : M B :=
  λ s, match m s with
       | (s', inr a) => k a s'
       | (s', inl e) => (s', inl e)
       end.
(** A statement that cannot fail. *)
Definition exec (f : Db → Db) : M unit := λ s, (f s, inr tt).
(** A query. *)
Definition query {A} (f : Db → A) : M A := λ s, (s, inr (f s)).

Notation "'let*' x ':=' m 'in' k" := (bind m (λ x, k))
  (at level 10, x name, m at level 200, k at level 200).
Notation "m ';;;' k" := (bind m (λ _, k))
  (at level 100, k at level 200, right associativity).

(** AUTOINCREMENT: one more than the largest rowid that ever existed. *)
Definition max_key {V} (m : gmap Z V) : Z := foldr Z.max 0 (map_to_list m).*1.
Definition next_id {V} (m : gmap Z V) (seq : Z) : Z := 1 + Z.max seq (max_key m).

(** SELECT ... WHERE <unique column> = ? .get(): the first matching row. *)
Definition select_first {V} (p : V → bool) (m : gmap Z V) : option (Z * V) :=
  head (filter (λ kv, p kv.2 = true) (map_to_list m)).

(** A FOREIGN KEY ... REFERENCES users(id) check on a child row. *)
Definition user_exists (userId : Z) (s : Db) : bool :=
  bool_decide (is_Some (users s !! userId)).
Definition task_exists (taskId : Z) (s : Db) : bool :=
  bool_decide (is_Some (tasks s !! taskId)).

(** ** database.js: userDb *)

Module userDb.

Definition findById (id : Z) (s : Db) : option User.t := users s !! id.

Definition findByEmail (email : string) (s : Db) : option (Z * User.t) :=
  select_first (λ u, String.eqb (User.email u) email) (users s).

Definition findByPhone (phone : string) (s : Db) : option (Z * User.t) :=
  select_first (λ u, String.eqb (User.phone u) phone) (users s).

Definition findByUsername (username : string) (s : Db) : option (Z * User.t) :=
  select_first (λ u, String.eqb (User.username u) username) (users s).

Definition findByReferralCode (code : string) (s : Db) : option (Z * User.t) :=
  select_first (λ u, bool_decide (User.referral_code u = Some code)) (users s).

(** The retry loop of [create]: [gen i] is the result of the i-th call of
    generateReferralCode(); at most 10 further draws. *)
Fixpoint pick_code (gen : nat → string) (i : nat) (fuel : nat) (s : Db) : string :=
  match fuel with
  | O => gen i
  | S fuel' =>
      match findByReferralCode (gen i) s with
      | None => gen i
      | Some _ => pick_code gen (S i) fuel' s
      end
  end.

(** The UNIQUE columns of users. *)
Definition unique_clash (u : User.t) (s : Db) : bool :=
  bool_decide (is_Some (findByUsername (User.username u) s))
  || bool_decide (is_Some (findByEmail (User.email u) s))
  || bool_decide (is_Some (findByPhone (User.phone u) s))
  || match User.referral_code u with
     | Some c => bool_decide (is_Some (findByReferralCode c s))
     | None => false
     end.

(** INSERT INTO users; the result is lastInsertRowid. *)
Definition insert (u : User.t) : M Z := λ s,
  if unique_clash u s then (s, inl (SqliteError UNIQUE))
  else
    let id := next_id (users s) (users_seq s) in
    (mkDb (<[id := u]> (users s)) id (tasks s) (pending_tasks s)
          (pending_tasks_seq s) (completed_tasks s) (transactions s)
          (checkins s) (referrals s) (withdrawals s) (withdrawals_seq s),
     inr id).

(** [hashSync] is bcrypt.hashSync(_, 10); [gen] the successive results of
    generateReferralCode(). *)
Definition create (hashSync : string → string) (gen : nat → string)
    (username name email phone upi password : string) : M Z := λ s,
  let referralCode := pick_code gen 0 10 s in
  insert (User.fresh username name email phone upi (hashSync password)
                     referralCode) s.

(** INSERT INTO transactions: user_id REFERENCES users(id). *)
Definition insert_transaction (t : Transaction.t) : M unit := λ s,
  if user_exists (Transaction.user_id t) s
  then (with_transactions (λ l, l ++ [t]) s, inr tt)
  else (s, inl (SqliteError FOREIGN_KEY)).

Definition updateBalance (userId amount : Z) (type : txn_type)
    (reason : string) : M unit :=
  exec (with_users (alter (User.add_balance amount) userId)) ;;;
  (* Add transaction *)
  insert_transaction (Transaction.mk userId type (Z.abs amount) reason).

Definition banUser (userId banned : Z) (reason banType : string)
    (expiryDate : option Z) : M unit :=
  exec (with_users (alter
    (User.set_ban banned reason (or_default banType "permanent") expiryDate)
    userId)).

Definition ban_expired (now : Z) (u : User.t) : bool :=
  (User.banned u =? 1) && String.eqb (User.ban_type u) "temporary"
  && match User.ban_expiry_date u with
     | Some d => d <=? now
     | None => false
     end.

Definition checkAndLiftExpiredBans (now : Z) : M unit :=
  exec (with_users (fmap (λ u,
    if ban_expired now u then User.set_ban 0 "" "permanent" None u else u))).

(** Rows come out in rowid order. *)
Fixpoint insert_id (k : Z) (l : list Z) : list Z :=
  match l with
  | [] => [k]
  | x :: l' => if k <=? x then k :: l else x :: insert_id k l'
  end.

Definition by_rowid (l : list Z) : list Z := foldr insert_id [] l.

(** SELECT id FROM users WHERE banned = 0 *)
Definition unbanned_ids (s : Db) : list Z :=
  by_rowid (filter (λ kv, User.banned kv.2 = 0) (map_to_list (users s))).*1.

Fixpoint bulk_loop (ids : list Z) (amount : Z) (reason : string) : M unit :=
  match ids with
  | [] => ret tt
  | id :: ids' =>
      exec (with_users (alter (User.add_balance amount) id)) ;;;
      insert_transaction (Transaction.mk id admin_credit (Z.abs amount) reason) ;;;
      bulk_loop ids' amount reason
  end.

Definition addBulkBonus (amount : Z) (reason : string) : M nat := λ s,
  let ids := unbanned_ids s in
  (bulk_loop ids amount reason ;;; ret (length ids)) s.

Definition setTelegramJoined (userId joined rewardClaimed : Z) : M unit :=
  exec (with_users (alter (User.set_telegram joined rewardClaimed) userId)).

Definition lockUpi (userId : Z) (upiId : string) : M unit :=
  exec (with_users (alter (User.lock_upi upiId) userId)).

End userDb.

(** ** database.js: pendingTaskDb *)

Module pendingTaskDb.

(** INSERT INTO pending_tasks (user_id, task_id): both are foreign keys. *)
Definition create (now userId taskId : Z) : M Z := λ s,
  if user_exists userId s && task_exists taskId s then
    let id := next_id (pending_tasks s) (pending_tasks_seq s) in
    (mkDb (users s) (users_seq s) (tasks s)
          (<[id := PendingTask.mk userId taskId pending "" now None]>
             (pending_tasks s))
          id (completed_tasks s) (transactions s)
          (checkins s) (referrals s) (withdrawals s) (withdrawals_seq s),
     inr id)
  else (s, inl (SqliteError FOREIGN_KEY)).

Definition set_approved (now : Z) (p : PendingTask.t) : PendingTask.t :=
  PendingTask.mk (PendingTask.user_id p) (PendingTask.task_id p) approved
    (PendingTask.custom_reason p) (PendingTask.submitted_at p) (Some now).

Definition set_rejected (now : Z) (reason : string) (p : PendingTask.t)
    : PendingTask.t :=
  PendingTask.mk (PendingTask.user_id p) (PendingTask.task_id p) rejected
    reason (PendingTask.submitted_at p) (Some now).

(** INSERT OR IGNORE INTO completed_tasks: a row that clashes with
    UNIQUE(user_id, task_id) is skipped; a row with a missing parent is a
    foreign key error, which OR IGNORE does not cover. *)
Definition insert_completed (userId taskId : Z) : M unit := λ s,
  if bool_decide ((userId, taskId) ∈ completed_tasks s) then (s, inr tt)
  else if user_exists userId s && task_exists taskId s
  then (with_completed_tasks (λ l, l ++ [(userId, taskId)]) s, inr tt)
  else (s, inl (SqliteError FOREIGN_KEY)).

(** UPDATE referrals SET reward_amount = reward_amount + ?
    WHERE referrer_id = ? AND referred_id = ? *)
Definition add_reward (reward referrerId referredId : Z) (r : Referral.t)
    : Referral.t :=
  if (Referral.referrer_id r =? referrerId) && (Referral.referred_id r =? referredId)
  then Referral.mk (Referral.referrer_id r) (Referral.referred_id r)
                   (Referral.reward_amount r + reward)
  else r.

(** The test [user && user.referrer_id && user.first_task_completed === 0];
    when it passes, the referrer's id. *)
Definition first_task_referrer (userId : Z) (s : Db) : option Z :=
  match users s !! userId with
  | Some user =>
      match User.referrer_id user with
      | Some r =>
          if truthy r && (User.first_task_completed user =? 0)
          then Some r else None
      | None => None
      end
  | None => None
  end.

Definition approve (now pendingId userId taskId price : Z) : M unit :=
  (* Update pending task status *)
  exec (with_pending_tasks (alter (set_approved now) pendingId)) ;;;
  (* Add to completed tasks *)
  insert_completed userId taskId ;;;
  (* Add balance to user *)
  userDb.updateBalance userId price task_reward "Task completed and approved" ;;;
  (* Check if this is user's first task completion *)
  let* referrer := query (first_task_referrer userId) in
  match referrer with
  | Some referrer_id =>
      (* Mark first task as completed *)
      exec (with_users (alter (User.set_first_task_completed 1) userId)) ;;;
      (* Give additional 15 to referrer *)
      let additionalReward := 15 in
      userDb.updateBalance referrer_id additionalReward referral
        "Referral bonus (first task completed by referred user)" ;;;
      (* Update referral record *)
      exec (with_referrals (map (add_reward additionalReward referrer_id userId)))
  | None => ret tt
  end.

Definition reject (now pendingId : Z) (reason : string) : M unit :=
  exec (with_pending_tasks (alter (set_rejected now reason) pendingId)).

End pendingTaskDb.

(** ** database.js: checkinDb *)

Module checkinDb.

(** SELECT * FROM daily_checkin WHERE user_id = ? ORDER BY claimed_at DESC
    LIMIT 1.  Among rows with the same claimed_at the earlier row is kept. *)
Definition later (best : option Checkin.t) (c : Checkin.t) : option Checkin.t :=
  match best with
  | None => Some c
  | Some b => if Checkin.claimed_at b <? Checkin.claimed_at c then Some c else Some b
  end.

Definition getLastCheckin (userId : Z) (s : Db) : option Checkin.t :=
  foldl later None (filter (λ c, Checkin.user_id c = userId) (checkins s)).

(** INSERT INTO daily_checkin: user_id REFERENCES users(id). *)
Definition insert_checkin (c : Checkin.t) : M unit := λ s,
  if user_exists (Checkin.user_id c) s
  then (with_checkins (λ l, l ++ [c]) s, inr tt)
  else (s, inl (SqliteError FOREIGN_KEY)).

(** claimed_at takes its default, CURRENT_TIMESTAMP: the clock reading in
    UTC, cut to whole seconds. *)
Definition claim (now userId day amount : Z) : M unit :=
  insert_checkin (Checkin.mk userId day amount (now / 1000)) ;;;
  (* Add balance *)
  userDb.updateBalance userId amount daily_checkin
    ("Day " +:+ pretty day +:+ " daily check-in").

End checkinDb.

(** ** database.js: referralDb *)

Module referralDb.

(** INSERT INTO referrals: both ids REFERENCE users(id). *)
Definition insert_referral (r : Referral.t) : M unit := λ s,
  if user_exists (Referral.referrer_id r) s && user_exists (Referral.referred_id r) s
  then (with_referrals (λ l, l ++ [r]) s, inr tt)
  else (s, inl (SqliteError FOREIGN_KEY)).

Definition create (referrerId referredId rewardAmount : Z) : M unit :=
  insert_referral (Referral.mk referrerId referredId rewardAmount) ;;;
  (* Save referrer_id in referred user's record *)
  exec (with_users (alter (User.set_referrer_id referrerId) referredId)) ;;;
  (* Add reward to referrer *)
  if 0 <? rewardAmount
  then userDb.updateBalance referrerId rewardAmount referral
         "Referral bonus (instant ₹5)"
  else ret tt.

End referralDb.

(** ** database.js: withdrawalDb *)

Module withdrawalDb.

(** INSERT INTO withdrawals: CHECK(amount > 0), user_id REFERENCES
    users(id); status 'pending', request_date now. *)
Definition create (now userId amount : Z) (paymentMethod paymentDetails : string)
    : M Z := λ s,
  if negb (0 <? amount) then (s, inl (SqliteError CHECK))
  else if negb (user_exists userId s) then (s, inl (SqliteError FOREIGN_KEY))
  else
    let id := next_id (withdrawals s) (withdrawals_seq s) in
    (mkDb (users s) (users_seq s) (tasks s) (pending_tasks s)
          (pending_tasks_seq s) (completed_tasks s) (transactions s)
          (checkins s) (referrals s)
          (<[id := Withdrawal.mk userId amount paymentMethod paymentDetails
                     pending now None ""]> (withdrawals s))
          id,
     inr id).

Definition process (st : status) (now : Z) (notes : string) (w : Withdrawal.t)
    : Withdrawal.t :=
  Withdrawal.mk (Withdrawal.user_id w) (Withdrawal.amount w)
    (Withdrawal.payment_method w) (Withdrawal.payment_details w)
    st (Withdrawal.request_date w) (Some now) notes.

(** UPDATE withdrawals SET status = ?, process_date = CURRENT_TIMESTAMP,
    admin_notes = ? WHERE id = ? AND status = 'pending'; the result is
    [changes]. *)
Definition update_pending (st : status) (now : Z) (notes : string)
    (withdrawalId : Z) : M Z := λ s,
  match withdrawals s !! withdrawalId with
  | Some w =>
      if bool_decide (Withdrawal.status_ w = pending)
      then (with_withdrawals (<[withdrawalId := process st now notes w]>) s, inr 1)
      else (s, inr 0)
  | None => (s, inr 0)
  end.

Definition approve (now withdrawalId : Z) (adminNotes : string) : M unit :=
  let* found := query (λ s, withdrawals s !! withdrawalId) in
  match found with
  | None => throw (Error "Withdrawal request not found")
  | Some w =>
      if negb (bool_decide (Withdrawal.status_ w = pending))
      then throw (Error "Withdrawal already processed")
      else
        let* changes :=
          update_pending approved now
            (or_default adminNotes "Approved by admin") withdrawalId in
        if changes =? 0 then throw (Error "Failed to approve withdrawal")
        else
          userDb.updateBalance (Withdrawal.user_id w) (- Withdrawal.amount w)
            withdrawal "Withdrawal approved" ;;;
          (* Lock UPI after first successful withdrawal *)
          let* user := query (userDb.findById (Withdrawal.user_id w)) in
          match user with
          | Some u =>
              if negb (truthy (User.upi_locked u))
              then userDb.lockUpi (Withdrawal.user_id w)
                     (Withdrawal.payment_details w)
              else ret tt
          | None => ret tt
          end
  end.

Definition reject (now withdrawalId : Z) (adminNotes : string) : M unit :=
  let* found := query (λ s, withdrawals s !! withdrawalId) in
  match found with
  | None => throw (Error "Withdrawal request not found")
  | Some w =>
      if negb (bool_decide (Withdrawal.status_ w = pending))
      then throw (Error "Can only reject pending withdrawals")
      else
        let* changes :=
          update_pending rejected now
            (or_default adminNotes "Rejected by admin") withdrawalId in
        if changes =? 0 then throw (Error "Failed to reject withdrawal")
        else ret tt
  end.

(** SELECT COALESCE(SUM(amount), 0) FROM withdrawals
    WHERE user_id = ? AND status = 'pending' *)
Definition getPendingTotalByUser (userId : Z) (s : Db) : Z :=
  foldr Z.add 0
    (Withdrawal.amount <$>
       filter (λ w, Withdrawal.user_id w = userId ∧ Withdrawal.status_ w = pending)
              (map_to_list (withdrawals s)).*2).

End withdrawalDb.

(** ** server.js: responses and middleware *)

(** What a handler sends back. *)
Inductive reply :=
  | Status (code : Z) (message : string)  (* res.status(code).json({ success: false, message }) *)
  | Fail (message : string)               (* res.json({ success: false, message }) *)
  | Ok (message : string)                 (* res.json({ success: true, message }) *)
  | OkSignup (message : string) (userId : Z) (referralCode : option string)
  | OkCheckin (message : string) (amount day : Z)
  | OkBulk (message : string) (affectedUsers : nat).

(** [error.message]; for SQLite errors the constraint kind, without the
    column list that SQLite appends. *)
Definition error_message (e : exn) : string :=
  match e with
  | SqliteError FOREIGN_KEY => "FOREIGN KEY constraint failed"
  | SqliteError UNIQUE => "UNIQUE constraint failed"
  | SqliteError CHECK => "CHECK constraint failed"
  | SqliteError NOT_NULL => "NOT NULL constraint failed"
  | Error m => m
  end.

(** try { m; ok } catch (error) { failed + error.message } *)
Definition try_catch {A} (m : M A) (ok : A → reply) (failed : string)
    : Db → Db * reply := λ s,
  match m s with
  | (s', inr a) => (s', ok a)
  | (s', inl e) => (s', Fail (failed +:+ error_message e))
  end.

Definition requireAuth (sessionUserId : option Z)
    (next : Z → User.t → Db → Db * reply) : Db → Db * reply := λ s,
  match sessionUserId with
  | None => (s, Status 401 "Not authenticated")
  | Some userId =>
      if negb (truthy userId) then (s, Status 401 "Not authenticated")
      else match userDb.findById userId s with
           | None => (s, Status 401 "User not found")
           | Some user =>
               if truthy (User.banned user)
               then (s, Status 403 (or_default (User.banned_reason user) "Account banned"))
               else next userId user s
           end
  end.

(** ** server.js: POST /api/auth/signup *)

Definition upper_ascii (c : ascii) : ascii :=
  let n := nat_of_ascii c in
  if (97 <=? n)%nat && (n <=? 122)%nat then ascii_of_nat (n - 32) else c.

(** String.prototype.toUpperCase on ASCII text. *)
Fixpoint toUpperCase (s : string) : string :=
  match s with
  | EmptyString => EmptyString
  | String c s' => String (upper_ascii c) (toUpperCase s')
  end.

(** email.split('@')[0] *)
Fixpoint before_at (s : string) : string :=
  match s with
  | EmptyString => EmptyString
  | String c s' => if Ascii.eqb c "@" then EmptyString else String c (before_at s')
  end.

Record signup_body := {
  sb_name : string;
  sb_email : string;
  sb_phone : string;
  sb_password : string;
  sb_inviteCode : string;
  sb_username : string;
  sb_upi : string
}.

(** The loop that looks for a free username: [rnd i] is the i-th value of
    Math.floor(Math.random() * 100000).  The result is the username and the
    final value of [attempt]. *)
Fixpoint username_loop (rnd : nat → Z) (baseUsername username : string)
    (attempt fuel : nat) (s : Db) : string * nat :=
  match fuel with
  | O => (username, attempt)
  | S fuel' =>
      match userDb.findByUsername username s with
      | Some _ =>
          username_loop rnd baseUsername (baseUsername +:+ pretty (rnd attempt))
                        (S attempt) fuel' s
      | None => (username, attempt)
      end
  end.

(** Auto-apply referral if invite code exists (the block after the session is
    saved). *)
Definition apply_invite (inviteCode : string) (newUserId : Z) : M unit :=
  if nonempty inviteCode then
    let* referrer := query (userDb.findByReferralCode (toUpperCase inviteCode)) in
    match referrer with
    | Some (referrer_id, referrer) =>
        if negb (referrer_id =? newUserId) && negb (truthy (User.banned referrer))
        then
          (* Give instant 5 to referrer (15 more when invited user completes first task) *)
          let instantReward := 5 in
          referralDb.create referrer_id newUserId instantReward
        else ret tt
    | None => ret tt
    end
  else ret tt.

Section Signup.
(** bcrypt.hashSync(_, 10), the successive results of
    generateReferralCode(), and the successive random username suffixes. *)
Variable hashSync : string → string.
Variable gen : nat → string.
Variable rnd : nat → Z.

(** The body of the try block. *)
Definition signup_try (b : signup_body) (username upi : string)
    : M (Z * option string) :=
  let* newUserId :=
    userDb.create hashSync gen username (sb_name b) (sb_email b) (sb_phone b)
                  upi (sb_password b) in
  apply_invite (sb_inviteCode b) newUserId ;;;
  (* Verify referral code was generated *)
  let* newUser := query (userDb.findById newUserId) in
  ret (newUserId, newUser ≫= User.referral_code).

Definition signup (b : signup_body) : Db → Db * reply := λ s,
  if negb (nonempty (sb_name b)) || negb (nonempty (sb_email b))
     || negb (nonempty (sb_phone b)) || negb (nonempty (sb_password b))
  then (s, Fail "All fields are required")
  else if (String.length (sb_phone b) <? 8)%nat
  then (s, Fail "Invalid phone number")
  else
    let '(username, attempt) :=
      if nonempty (sb_username b) then (sb_username b, O)
      else username_loop rnd (before_at (sb_email b)) (before_at (sb_email b))
                         0 100 s in
    if (100 <=? attempt)%nat
    then (s, Fail "Failed to generate unique username. Please try again.")
    else
      let upi := or_default (sb_upi b) "pending" in
      if bool_decide (is_Some (userDb.findByEmail (sb_email b) s))
      then (s, Fail "This email is already registered. Please login instead.")
      else if bool_decide (is_Some (userDb.findByPhone (sb_phone b) s))
      then (s, Fail "This phone number is already registered. One account per person only!")
      else
        try_catch (signup_try b username upi)
          (λ r, OkSignup "Account created successfully! Welcome to CashByKing 🎉"
                         r.1 r.2)
          "Signup failed: " s.
End Signup.

(** ** server.js: user routes *)

(** POST /api/tasks/submit *)
Definition tasks_submit (now taskId : Z) (userId : Z) (user : User.t)
    : Db → Db * reply := λ s,
  if negb (truthy taskId) then (s, Fail "Task ID required")
  else try_catch (pendingTaskDb.create now userId taskId)
         (λ _, Ok "Task submitted for review! You will be notified once approved.")
         "Submission failed: " s.

(** ** IEEE 754 binary64, the Number type *)

Definition pow2 (e : Z) : Q := (2 ^ e)%Q.

(** The nearest integer, ties to the even one. *)
Definition nearest_even (x : Q) : Z :=
  let f := Qfloor x in
  match (x - inject_Z f ?= 1 # 2)%Q with
  | Lt => f
  | Gt => f + 1
  | Eq => if Z.even f then f else f + 1
  end.

(** The exponent of the unit in the last place at [x]: 52 below the
    exponent of [x], and -1074 in the subnormal range. *)
Definition ulp_exponent (x : Q) : Z :=
  Z.max (Z.log2 (Qfloor (Qabs x * pow2 1074)) - 1074 - 52) (-1074).

(** Round to nearest, ties to even, at 53 significant bits; for results
    below 2^1024, where binary64 does not overflow. *)
Definition round64 (x : Q) : Q :=
  let p := ulp_exponent x in
  (inject_Z (nearest_even (x / pow2 p)) * pow2 p)%Q.

(** a * b and a / b on Numbers. *)
Definition double_mul (a b : Q) : Q := round64 (a * b).
Definition double_div (a b : Q) : Q := round64 (a / b).

(** [x] is a value of the Number type. *)
Definition is_double (x : Q) : Prop := (round64 x == x)%Q.

(** new Date(text) for a text 'YYYY-MM-DD HH:MM:SS': the date and time are
    taken as local time.  [seconds] is the text read as UTC and [tzOffset]
    the offset of the server's zone at that local time, local minus UTC, in
    milliseconds (0 on a server that runs in UTC). *)
Definition parse_local (tzOffset seconds : Z) : Z := seconds * 1000 - tzOffset.

(** (now - lastClaimDate) / (1000 * 60 * 60): the difference of two Dates is
    an integer, the quotient a Number. *)
Definition hoursDiff (now lastClaimDate : Z) : Q :=
  double_div (inject_Z (now - lastClaimDate)) (inject_Z (1000 * 60 * 60)).

(** POST /api/checkin/claim; [random] is the value of Math.random() and
    [tzOffset] the zone offset that new Date applies. *)
Definition checkin_claim (now tzOffset : Z) (random : Q) (userId : Z)
    (user : User.t) : Db → Db * reply := λ s,
  let lastCheckin := checkinDb.getLastCheckin userId s in
  let too_soon :=
    match lastCheckin with
    | Some c =>
        let lastClaimDate := parse_local tzOffset (Checkin.claimed_at c) in
        negb (Qle_bool 24 (hoursDiff now lastClaimDate))
    | None => false
    end in
  if too_soon then (s, Fail "You can claim again after 24 hours!")
  else
    let nextDay :=
      match lastCheckin with
      | Some c => if 7 <=? Checkin.day c then 1 else Checkin.day c + 1
      | None => 1
      end in
    (* Random amount between 1 and 10 *)
    let amount := Qfloor (double_mul random 10) + 1 in
    try_catch (checkinDb.claim now userId nextDay amount)
      (λ _, OkCheckin ("Congratulations! You earned ₹" +:+ pretty amount +:+ " 🎉")
                      amount nextDay)
      "Claim failed: " s.

(** POST /api/wallet/withdraw; [amount] is the JSON number of the body. *)
Definition wallet_withdraw (now amount : Z) (paymentMethod paymentDetails : string)
    (userId : Z) (user : User.t) : Db → Db * reply := λ s,
  if negb (truthy amount) || negb (nonempty paymentMethod)
     || negb (nonempty paymentDetails)
  then (s, Fail "All fields are required")
  else
    let withdrawAmount := amount in
    if withdrawAmount <? 50
    then (s, Fail "Minimum withdrawal amount is ₹50")
    else
      let pendingTotal := withdrawalDb.getPendingTotalByUser userId s in
      let availableBalance := User.balance user - pendingTotal in
      if availableBalance <? withdrawAmount
      then (s, Fail ("Insufficient available balance. You have ₹"
                     +:+ pretty pendingTotal +:+ ".00 in pending withdrawals."))
      else
        try_catch
          (withdrawalDb.create now userId withdrawAmount paymentMethod paymentDetails)
          (λ _, Ok "Withdrawal request submitted! Admin will process it soon.")
          "Request failed: " s.

(** ** server.js: admin routes (behind requireAdmin) *)

(** POST /api/admin/user/balance *)
Definition admin_user_balance (userId amount : Z) (reason : string)
    : Db → Db * reply := λ s,
  if negb (truthy userId) then (s, Fail "User ID and amount required")
  else
    let type := if 0 <? amount then admin_credit else admin_debit in
    try_catch
      (userDb.updateBalance userId amount type (or_default reason "Admin adjustment"))
      (λ _, Ok "Balance updated successfully") "Update failed: " s.

(** POST /api/admin/bulk-bonus *)
Definition admin_bulk_bonus (amount : Z) (reason : string) : Db → Db * reply := λ s,
  if negb (truthy amount) || (amount =? 0) then (s, Fail "Amount is required")
  else
    try_catch (userDb.addBulkBonus amount (or_default reason "Bulk bonus from admin"))
      (λ count, OkBulk ("Successfully added ₹" +:+ pretty amount +:+ " to "
                        +:+ pretty count +:+ " users!") count)
      "Bulk bonus failed: " s.

(** POST /api/admin/verify-telegram *)
Definition admin_verify_telegram (userId : Z) : Db → Db * reply := λ s,
  match userDb.findById userId s with
  | None => (s, Fail "User not found")
  | Some user =>
      if truthy (User.telegram_reward_claimed user)
      then (s, Fail "Reward already claimed")
      else
        try_catch
          (userDb.updateBalance userId 5 telegram_join "Telegram join reward" ;;;
           userDb.setTelegramJoined userId 1 1)
          (λ _, Ok "Telegram join verified and ₹5 added!")
          "Verification failed: " s
  end.

(** POST /api/admin/pending-tasks/approve *)
Definition admin_pending_approve (now pendingId userId taskId price : Z)
    : Db → Db * reply :=
  try_catch (pendingTaskDb.approve now pendingId userId taskId price)
    (λ _, Ok "Task approved and payment credited!") "Approval failed: ".

(** POST /api/admin/pending-tasks/reject *)
Definition admin_pending_reject (now pendingId : Z) (reason : string)
    : Db → Db * reply :=
  try_catch (pendingTaskDb.reject now pendingId (or_default reason "Task rejected"))
    (λ _, Ok "Task rejected") "Rejection failed: ".

(** POST /api/admin/withdrawals/approve *)
Definition admin_withdrawals_approve (now withdrawalId : Z) (adminNotes : string)
    : Db → Db * reply := λ s,
  if negb (truthy withdrawalId) then (s, Fail "Withdrawal ID required")
  else
    try_catch (withdrawalDb.approve now withdrawalId adminNotes)
      (λ _, Ok "Withdrawal approved and processed!") "Approval failed: " s.

(** POST /api/admin/withdrawals/reject *)
Definition admin_withdrawals_reject (now withdrawalId : Z) (adminNotes : string)
    : Db → Db * reply :=
  try_catch (withdrawalDb.reject now withdrawalId adminNotes)
    (λ _, Ok "Withdrawal rejected") "Rejection failed: ".

(** ** The ledger read back *)

(** The categories that getStats counts as earnings are credits; admin_debit
    and withdrawal are debits. *)
Definition is_credit (t : txn_type) : bool :=
  match t with
  | task_reward | referral | daily_checkin | telegram_join | admin_credit => true
  | admin_debit | withdrawal => false
  end.

Definition signedAmount (t : Transaction.t) : Z :=
  if is_credit (Transaction.type t) then Transaction.amount t
  else - Transaction.amount t.

(** The signed sum of a user's transaction records. *)
Definition ledger_sum (userId : Z) (s : Db) : Z :=
  foldr Z.add 0
    (signedAmount <$> filter (λ t, Transaction.user_id t = userId) (transactions s)).

Definition balance_of (userId : Z) (s : Db) : option Z :=
  User.balance <$> users s !! userId.

(** ** Requests and runs *)

(** The modelled routes with their inputs.  Admin routes are taken behind a
    passed requireAdmin; the first argument of a user route is
    req.session.userId. *)
Inductive request :=
  | POST_auth_signup (hashSync : string → string) (gen : nat → string)
                     (rnd : nat → Z) (body : signup_body)
  | POST_tasks_submit (session : option Z) (taskId : Z)
  | POST_checkin_claim (session : option Z) (random : Q) (tzOffset : Z)
  | POST_wallet_withdraw (session : option Z) (amount : Z)
                         (paymentMethod paymentDetails : string)
  | POST_admin_user_balance (userId amount : Z) (reason : string)
  | POST_admin_bulk_bonus (amount : Z) (reason : string)
  | POST_admin_verify_telegram (userId : Z)
  | POST_admin_pending_approve (pendingId userId taskId price : Z)
  | POST_admin_pending_reject (pendingId : Z) (reason : string)
  | POST_admin_withdrawals_approve (withdrawalId : Z) (adminNotes : string)
  | POST_admin_withdrawals_reject (withdrawalId : Z) (adminNotes : string).

(** One request at clock reading [now]: the ban sweep that runs on every
    request, then the route. *)
Definition handle (now : Z) (r : request) (s : Db) : Db * reply :=
  let s := (userDb.checkAndLiftExpiredBans now s).1 in
  match r with
  | POST_auth_signup hashSync gen rnd body => signup hashSync gen rnd body s
  | POST_tasks_submit session taskId =>
      requireAuth session (tasks_submit now taskId) s
  | POST_checkin_claim session random tzOffset =>
      requireAuth session (checkin_claim now tzOffset random) s
  | POST_wallet_withdraw session amount paymentMethod paymentDetails =>
      requireAuth session (wallet_withdraw now amount paymentMethod paymentDetails) s
  | POST_admin_user_balance userId amount reason =>
      admin_user_balance userId amount reason s
  | POST_admin_bulk_bonus amount reason => admin_bulk_bonus amount reason s
  | POST_admin_verify_telegram userId => admin_verify_telegram userId s
  | POST_admin_pending_approve pendingId userId taskId price =>
      admin_pending_approve now pendingId userId taskId price s
  | POST_admin_pending_reject pendingId reason =>
      admin_pending_reject now pendingId reason s
  | POST_admin_withdrawals_approve withdrawalId adminNotes =>
      admin_withdrawals_approve now withdrawalId adminNotes s
  | POST_admin_withdrawals_reject withdrawalId adminNotes =>
      admin_withdrawals_reject now withdrawalId adminNotes s
  end.

(** A sequence of requests, each with its clock reading. *)
Definition run (reqs : list (Z * request)) (s : Db) : Db :=
  foldl (λ s r, (handle r.1 r.2 s).1) s reqs.

(** The states the server can be in. *)
Definition reachable (s : Db) : Prop := ∃ reqs, s = run reqs empty_db.

(** One call of the task approval route. *)
Record task_approval := {
  ta_now : Z; ta_pendingId : Z; ta_userId : Z; ta_taskId : Z; ta_price : Z
}.

Definition approve_task (a : task_approval) (s : Db) : Db :=
  (admin_pending_approve (ta_now a) (ta_pendingId a) (ta_userId a)
                         (ta_taskId a) (ta_price a) s).1.

Definition approve_tasks (l : list task_approval) (s : Db) : Db :=
  foldl (λ s a, approve_task a s) s l.

(** The ledger entries that the approvals made for [userId] appended, in
    order. *)
Fixpoint appended_for (userId : Z) (l : list task_approval) (s : Db)
    : list Transaction.t :=
  match l with
  | [] => []
  | a :: l' =>
      (if ta_userId a =? userId
       then drop (length (transactions s)) (transactions (approve_task a s))
       else [])
      ++ appended_for userId l' (approve_task a s)
  end.

(** One call of the withdrawal approval route. *)
Record withdrawal_approval := {
  wa_now : Z; wa_withdrawalId : Z; wa_adminNotes : string
}.

Definition approve_withdrawals (l : list withdrawal_approval) (s : Db) : Db :=
  foldl (λ s a, (admin_withdrawals_approve (wa_now a) (wa_withdrawalId a)
                                            (wa_adminNotes a) s).1) s l.

(** ** Sample data *)

Definition sample_user (n : string) (bal : Z) : User.t :=
  User.mk n n (n +:+ "@mail.in") ("98765" +:+ n) "pending" "hash" bal 0 0
          None 0 0 "" 0 "" "permanent" None (Some (toUpperCase n)).

Definition sample_referred (n : string) (referrer : Z) : User.t :=
  User.set_referrer_id referrer (sample_user n 0).

(** Users 1 (balance 100, UPI locked by an earlier withdrawal), 2 (referred
    by 1, no task approved yet) and 3 (balance 80, one task approved); task 1;
    one pending and one approved submission; two pending withdrawals and an
    approved one. *)
Definition sample_db : Db :=
  mkDb {[ 1 := User.lock_upi "old@upi" (sample_user "asha" 100);
          2 := sample_referred "ravi" 1;
          3 := sample_user "meena" 80 ]} 3
       {[ 1 := Task.mk "Install app" 20 1 ]}
       {[ 1 := PendingTask.mk 2 1 pending "" 1000 None;
          2 := PendingTask.mk 3 1 approved "" 1000 (Some 2000) ]} 2
       [(3, 1)]
       [Transaction.mk 1 referral 5 "Referral bonus (instant ₹5)";
        Transaction.mk 1 admin_credit 145 "Admin adjustment";
        Transaction.mk 3 task_reward 20 "Task completed and approved";
        Transaction.mk 3 admin_credit 60 "Admin adjustment";
        Transaction.mk 1 withdrawal 50 "Withdrawal approved"]
       []
       [Referral.mk 1 2 5]
       {[ 1 := Withdrawal.mk 1 60 "upi" "asha@upi" pending 3000 None "";
          2 := Withdrawal.mk 1 50 "upi" "old@upi" approved 1500 (Some 1600)
                             "Approved by admin";
          3 := Withdrawal.mk 3 50 "upi" "meena@upi" pending 3100 None "" ]} 3.

Definition sample_body (n invite : string) : signup_body :=
  {| sb_name := n; sb_email := n +:+ "@mail.in"; sb_phone := "98765" +:+ n;
     sb_password := "secret"; sb_inviteCode := invite; sb_username := "";
     sb_upi := "" |}.

Definition sample_hash (p : string) : string := "$2a$10$" +:+ p.
Definition sample_gen (i : nat) : string := "CODE" +:+ pretty i.
Definition sample_rnd (i : nat) : Z := Z.of_nat i.

(** The state after the three statements of a successful approval, before
    the UPI lock. *)
Definition approved_state (now withdrawalId : Z) (adminNotes : string)
    (w : Withdrawal.t) (s : Db) : Db :=
  with_transactions
    (λ l, l ++ [Transaction.mk (Withdrawal.user_id w) withdrawal
                  (Z.abs (- Withdrawal.amount w)) "Withdrawal approved"])
    (with_users (alter (User.add_balance (- Withdrawal.amount w)) (Withdrawal.user_id w))
       (with_withdrawals
          (<[withdrawalId := withdrawalDb.process approved now
                               (or_default adminNotes "Approved by admin") w]>) s)).


(** A user signs up, is credited 100 by the admin, requests a withdrawal of
    60 (which passes the availability check) and is then debited 50 by the
    admin. *)
Definition overdraft_requests : list (Z * request) :=
  [ (1000, POST_auth_signup sample_hash sample_gen sample_rnd (sample_body "asha" ""));
    (2000, POST_admin_user_balance 1 100 "");
    (3000, POST_wallet_withdraw (Some 1) 60 "upi" "asha@upi");
    (4000, POST_admin_user_balance 1 (-50) "Penalty") ].

(** Two check-in claims of user 3, 19 hours apart, on a server whose zone is
    UTC+05:30 (offset 19800000 ms). *)
Definition early_checkin_first : Z * request :=
  (1700000000000, POST_checkin_claim (Some 3) (1 # 4) 19800000).
Definition early_checkin_second : Z * request :=
  (1700068400000, POST_checkin_claim (Some 3) (1 # 4) 19800000).

(** Two check-in claims of user 3, 23 h 59 min 59.2 s apart, on a server in
    UTC. *)
Definition utc_checkin_first : Z * request :=
  (1700000000900, POST_checkin_claim (Some 3) (1 # 4) 0).
Definition utc_checkin_second : Z * request :=
  (1700086400100, POST_checkin_claim (Some 3) (1 # 4) 0).

(** [sample_db] after user 3 claimed day 7 at second 1000. *)
Definition sample_db_day7 : Db :=
  with_checkins (λ _, [Checkin.mk 3 6 4 500; Checkin.mk 3 7 9 1000]) sample_db.

(** The same request body with another invite code. *)
Definition with_inviteCode (code : string) (b : signup_body) : signup_body :=
  {| sb_name := sb_name b; sb_email := sb_email b; sb_phone := sb_phone b;
     sb_password := sb_password b; sb_inviteCode := code;
     sb_username := sb_username b; sb_upi := sb_upi b |}.

(** ** Task approval, statement by statement *)

(** INSERT OR IGNORE INTO completed_tasks goes through: the pair is there
    already or both parents exist. *)
Definition completes (a : task_approval) (s : Db) : bool :=
  bool_decide ((ta_userId a, ta_taskId a) ∈ completed_tasks s)
  || (user_exists (ta_userId a) s && task_exists (ta_taskId a) s).

(** The state after the status update and the completed_tasks insert. *)
Definition after_complete (a : task_approval) (s : Db) : Db :=
  let s0 := with_pending_tasks
              (alter (pendingTaskDb.set_approved (ta_now a)) (ta_pendingId a)) s in
  if bool_decide ((ta_userId a, ta_taskId a) ∈ completed_tasks s) then s0
  else if user_exists (ta_userId a) s && task_exists (ta_taskId a) s
  then with_completed_tasks (λ l, l ++ [(ta_userId a, ta_taskId a)]) s0
  else s0.

(** ... and after the task reward. *)
Definition after_reward (a : task_approval) (s : Db) : Db :=
  with_transactions
    (λ l, l ++ [Transaction.mk (ta_userId a) task_reward (Z.abs (ta_price a))
                  "Task completed and approved"])
    (with_users (alter (User.add_balance (ta_price a)) (ta_userId a))
       (after_complete a s)).

(** ... and after the first-task bonus to [referrer_id]. *)
Definition after_bonus (a : task_approval) (referrer_id : Z) (s : Db) : Db :=
  with_referrals (map (pendingTaskDb.add_reward 15 referrer_id (ta_userId a)))
    (with_transactions
       (λ l, l ++ [Transaction.mk referrer_id referral 15
                     "Referral bonus (first task completed by referred user)"])
       (with_users (alter (User.add_balance 15) referrer_id)
          (with_users (alter (User.set_first_task_completed 1) (ta_userId a))
             (after_reward a s)))).

(** The reward amounts of the referral records of the pair. *)
Definition referral_rewards (referrerId referredId : Z) (s : Db) : list Z :=
  Referral.reward_amount <$>
    filter (λ r, Referral.referrer_id r = referrerId
                 ∧ Referral.referred_id r = referredId) (referrals s).

(** The first-task bonus records of a list of ledger entries. *)
Definition referral_entries (l : list Transaction.t) : list Transaction.t :=
  filter (λ t, Transaction.type t = referral) l.

(** first_task_completed and referrer_id of a user, when the user exists. *)
Definition flag_of (userId : Z) (s : Db) : option Z :=
  User.first_task_completed <$> users s !! userId.
Definition referrer_of (userId : Z) (s : Db) : option (option Z) :=
  User.referrer_id <$> users s !! userId.

(** How many of the approvals changed first_task_completed of [userId]. *)
Fixpoint flips (userId : Z) (l : list task_approval) (s : Db) : nat :=
  match l with
  | [] => 0
  | a :: l' =>
      ((if decide (flag_of userId (approve_task a s) = flag_of userId s)
        then 0 else 1)
       + flips userId l' (approve_task a s))%nat
  end.

(** By how much the approvals made for [userId] moved the stored balance of
    [referrerId], in total. *)
Fixpoint credited_for (referrerId userId : Z) (l : list task_approval) (s : Db)
    : Z :=
  match l with
  | [] => 0
  | a :: l' =>
      (if ta_userId a =? userId
       then default 0 (balance_of referrerId (approve_task a s))
            - default 0 (balance_of referrerId s)
       else 0)
      + credited_for referrerId userId l' (approve_task a s)
  end.

(** A re-approval for user 3, then two approvals for user 2. *)
Definition sample_approvals : list task_approval :=
  [ {| ta_now := 5000; ta_pendingId := 2; ta_userId := 3; ta_taskId := 1; ta_price := 20 |};
    {| ta_now := 6000; ta_pendingId := 1; ta_userId := 2; ta_taskId := 1; ta_price := 20 |};
    {| ta_now := 7000; ta_pendingId := 1; ta_userId := 2; ta_taskId := 1; ta_price := 20 |} ].

(** A signup followed by a bulk bonus of -10. *)
Definition negative_bonus_requests : list (Z * request) :=
  [ (1000, POST_auth_signup sample_hash sample_gen sample_rnd (sample_body "asha" ""));
    (2000, POST_admin_bulk_bonus (-10) "Correction") ].


(** * More of database.js and server.js *)

Open Scope Z_scope.

(** ** Withdrawal requests in sequence *)



(** User 3 asks for 20 (under the minimum), then for 60 (more than what is
    available), user 2 asks for 50 without balance, user 1 asks for 40 more. *)
Definition sample_withdraw_requests : list (Z * request) :=
  [ (7000, POST_wallet_withdraw (Some 3) 20 "upi" "meena@upi");
    (7100, POST_wallet_withdraw (Some 3) 60 "upi" "meena@upi");
    (7200, POST_wallet_withdraw (Some 2) 50 "upi" "ravi@upi");
    (7300, POST_wallet_withdraw (Some 1) 40 "upi" "old@upi") ].

(** [sample_db] with user 2 banned for a week at time 0 and user 3 banned
    permanently. *)
Definition sample_db_banned : Db :=
  with_users
    (λ m, alter (User.set_ban 1 "spam" "temporary" (Some 604800000)) 2
            (alter (User.set_ban 1 "fraud" "permanent" None) 3 m))
    sample_db.

(** ** database.js: taskDb, on the columns of [Task.t] *)

Definition with_tasks (f : gmap Z Task.t → gmap Z Task.t) (s : Db) : Db :=
  mkDb (users s) (users_seq s) (f (tasks s)) (pending_tasks s)
       (pending_tasks_seq s) (completed_tasks s) (transactions s)
       (checkins s) (referrals s) (withdrawals s) (withdrawals_seq s).

Module taskDb.

Definition getById (id : Z) (s : Db) : option Task.t := tasks s !! id.

(** SELECT * FROM tasks WHERE enabled = 1: the rows selected (tasks carries
    no created_at here, the ORDER BY is not represented). *)
Definition getAll (s : Db) : gmap Z Task.t :=
  filter (λ kv, Task.enabled kv.2 = 1) (tasks s).

Definition set_enabled (enabled : Z) (t : Task.t) : Task.t :=
  Task.mk (Task.title t) (Task.price t) enabled.

Definition setEnabled (taskId enabled : Z) : M unit :=
  exec (with_tasks (alter (set_enabled enabled) taskId)).

(** SELECT t.* FROM tasks t WHERE t.enabled = 1 AND t.id NOT IN
    (SELECT task_id FROM completed_tasks WHERE user_id = ?): the rows
    selected. *)
Definition getAvailableForUser (userId : Z) (s : Db) : gmap Z Task.t :=
  filter (λ kv, Task.enabled kv.2 = 1 ∧ (userId, kv.1) ∉ completed_tasks s)
         (tasks s).

End taskDb.

(** POST /api/admin/tasks/toggle *)
Definition admin_tasks_toggle (taskId : Z) (enabled : bool) : Db → Db * reply :=
  try_catch (taskDb.setEnabled taskId (if enabled then 1 else 0))
    (λ _, Ok (if enabled then "Task enabled" else "Task disabled"))
    "Update failed: ".

(** Calls of the approval and toggle routes, in any order. *)
Inductive task_admin_call :=
  | Approve (a : task_approval)
  | Toggle (taskId : Z) (enabled : bool).

Definition task_admin_step (s : Db) (c : task_admin_call) : Db :=
  match c with
  | Approve a => approve_task a s
  | Toggle taskId enabled => (admin_tasks_toggle taskId enabled s).1
  end.

(** The first approval of [sample_approvals] for user 2. *)
Definition sample_approval : task_approval :=
  {| ta_now := 6000; ta_pendingId := 1; ta_userId := 2; ta_taskId := 1;
     ta_price := 20 |}.

(** ** Check-in history and status *)

(** ORDER BY day ASC: [c] goes before the first row of its day or of a later
    one. *)
Fixpoint insert_by_day (c : Checkin.t) (l : list Checkin.t) : list Checkin.t :=
  match l with
  | [] => [c]
  | x :: l' =>
      if Checkin.day c <=? Checkin.day x then c :: l
      else x :: insert_by_day c l'
  end.

(** SELECT * FROM daily_checkin WHERE user_id = ? ORDER BY day ASC; rows of
    the same day stay in rowid order. *)
Definition getCheckinHistory (userId : Z) (s : Db) : list Checkin.t :=
  foldr insert_by_day [] (filter (λ c, Checkin.user_id c = userId) (checkins s)).

(** The body of the reply of GET /api/checkin/status. *)
Record checkin_status := {
  canClaim : bool;
  nextDay : Z;
  history : list Checkin.t;
  lastCheckin : option Checkin.t
}.

(** GET /api/checkin/status; [tzOffset] as in [checkin_claim]. *)
Definition checkin_status_route (now tzOffset userId : Z) (s : Db)
    : checkin_status :=
  let lastCheckin := checkinDb.getLastCheckin userId s in
  let history := getCheckinHistory userId s in
  match lastCheckin with
  | Some c =>
      let lastClaimDate := parse_local tzOffset (Checkin.claimed_at c) in
      {| canClaim := Qle_bool 24 (hoursDiff now lastClaimDate);
         nextDay := if 7 <=? Checkin.day c then 1 else Checkin.day c + 1;
         history := history;
         lastCheckin := lastCheckin |}
  | None =>
      {| canClaim := true; nextDay := 1; history := history;
         lastCheckin := lastCheckin |}
  end.

(** ** database.js: generateReferralCode *)

Definition chars : string := "ABCDEFGHJKLMNPQRSTUVWXYZ23456789".

(** String.prototype.charAt: the empty string outside the string. *)
Definition charAt (s : string) (i : Z) : string :=
  if i <? 0 then ""
  else match String.get (Z.to_nat i) s with
       | Some c => String c EmptyString
       | None => ""
       end.

(** The loop of generateReferralCode from [code], with [n] rounds to go;
    [rand j] is the value of the j-th call of Math.random().  The product
    with chars.length, 32, is exact on Numbers. *)
Fixpoint generate_loop (rand : nat → Q) (j n : nat) (code : string) : string :=
  match n with
  | O => code
  | S n' =>
      generate_loop rand (S j) n'
        (code +:+ charAt chars
                    (Qfloor (rand j * inject_Z (Z.of_nat (String.length chars)))))
  end.

Definition generateReferralCode (rand : nat → Q) : string :=
  generate_loop rand 0 8 "".

(** Every character of [s] occurs in [chars]. *)
Fixpoint over_chars (s : string) : Prop :=
  match s with
  | EmptyString => True
  | String c s' => In c (list_ascii_of_string chars) ∧ over_chars s'
  end.

(** ** server.js: the notification store *)

(** cleanupOldNotifications on global.userNotifications, a map from the
    user id to the list of the user's notifications (oldest first):
    lists longer than 50 are cut to slice(-50). *)
Definition cleanupOldNotifications {N} (store : gmap Z (list N)) : gmap Z (list N) :=
  (λ l, if (50 <? length l)%nat then drop (length l - 50) l else l) <$> store.

(** GET /api/user/notifications: global.userNotifications[id] || [] *)
Definition user_notifications {N} (userId : Z) (store : gmap Z (list N)) : list N :=
  default [] (store !! userId).

(** A sample of Math.random(): 0, 1/8, 2/8, ..., 7/8, 0, ... *)
Definition sample_random (j : nat) : Q := (Z.of_nat (j mod 8) # 8).

(** ** The ledger audit along a run *)

(** Stored balance less the signed sum of the records, for one user id (a
    user that does not exist counts with balance 0). *)
Definition audit_diff (k : Z) (s : Db) : Z :=
  default 0 (balance_of k s) - ledger_sum k s.

(** Every stored balance is the signed sum of the user's records. *)
Definition audit_ok (s : Db) : Prop := ∀ k, audit_diff k s = 0.

(** CHECK(amount > 0) holds of every withdrawal row. *)
Definition positive_withdrawals (s : Db) : Prop :=
  ∀ id w, withdrawals s !! id = Some w → 0 < Withdrawal.amount w.

(** The requests the audit speaks of.  Math.random() gives a Number in
    [0, 1); the amounts of the bodies are integers of magnitude at most 2^53,
    which are Numbers; a bulk bonus and an approved price are not negative,
    as their ledger category, a credit, says. *)
Definition well_signed (r : request) : Prop :=
  match r with
  | POST_checkin_claim _ random _ =>
      is_double random ∧ (0 <= random)%Q ∧ (random < 1)%Q
  | POST_wallet_withdraw _ amount _ _ => Z.abs amount ≤ 2 ^ 53
  | POST_admin_user_balance _ amount _ => Z.abs amount ≤ 2 ^ 53
  | POST_admin_bulk_bonus amount _ => 0 ≤ amount ≤ 2 ^ 53
  | POST_admin_pending_approve _ _ _ price => 0 ≤ price ≤ 2 ^ 53
  | _ => True
  end.

(** Every stored balance is within 2^53 in magnitude.  As long as this holds
    the additions that SQLite does on the REAL column, on Numbers with
    integer values, are exact. *)
Definition balances_exact (s : Db) : Prop :=
  ∀ k u, users s !! k = Some u → Z.abs (User.balance u) ≤ 2 ^ 53.

(** a + b on Numbers. *)
Definition double_add (a b : Q) : Q := round64 (a + b).

(** From [s] to [s'] no audit difference moved, and the withdrawal amounts
    stayed positive if they were. *)
Definition audit_step (s s' : Db) : Prop :=
  (∀ k, audit_diff k s' = audit_diff k s)
  ∧ (positive_withdrawals s → positive_withdrawals s').

(** A run through every money flow: signup, bulk bonus, check-in, balance
    credit, withdrawal request and its approval. *)
Definition audited_requests : list (Z * request) :=
  [ (1000, POST_auth_signup sample_hash sample_gen sample_rnd (sample_body "asha" ""));
    (2000, POST_admin_bulk_bonus 20 "Festival");
    (3000, POST_checkin_claim (Some 1) (1 # 2) 0);
    (4000, POST_admin_user_balance 1 100 "");
    (5000, POST_wallet_withdraw (Some 1) 60 "upi" "asha@upi");
    (6000, POST_admin_withdrawals_approve 1 "paid") ].

(** ** What no request undoes *)

(** From [s] to [s'] every user row is still there with its email and phone,
    and every withdrawal that was processed is as it was. *)
Definition persists (s s' : Db) : Prop :=
  (∀ k u, users s !! k = Some u →
          ∃ u', users s' !! k = Some u'
                ∧ User.email u' = User.email u ∧ User.phone u' = User.phone u)
  ∧ (∀ id w, withdrawals s !! id = Some w → Withdrawal.status_ w ≠ pending →
             withdrawals s' !! id = Some w).
(** * Properties *)

(** ** Reading the state after a statement *)

(** Projections of an updated database. *)
Ltac db_simpl :=
  cbn [users users_seq tasks pending_tasks pending_tasks_seq completed_tasks
       transactions checkins referrals withdrawals withdrawals_seq
       with_users with_pending_tasks with_completed_tasks with_transactions
       with_checkins with_referrals with_withdrawals] in *.

Lemma db_eta (s : Db) :
  mkDb (users s) (users_seq s) (tasks s) (pending_tasks s) (pending_tasks_seq s)
       (completed_tasks s) (transactions s) (checkins s) (referrals s)
       (withdrawals s) (withdrawals_seq s) = s.
Proof. by destruct s. Qed.

Lemma with_users_id (f : gmap Z User.t → gmap Z User.t) (s : Db) :
  f (users s) = users s → with_users f s = s.
Proof. intros E. unfold with_users. rewrite E. apply db_eta. Qed.

Lemma user_exists_true (userId : Z) (s : Db) (u : User.t) :
  users s !! userId = Some u → user_exists userId s = true.
Proof. intros E. unfold user_exists. apply bool_decide_eq_true. by rewrite E. Qed.

Lemma user_exists_false (userId : Z) (s : Db) :
  users s !! userId = None → user_exists userId s = false.
Proof.
  intros E. unfold user_exists. apply bool_decide_eq_false.
  rewrite E. by intros [? ?].
Qed.

Lemma user_exists_alter (f : User.t → User.t) (k userId : Z) (s : Db) :
  user_exists userId (with_users (alter f k) s) = user_exists userId s.
Proof.
  unfold user_exists. apply bool_decide_ext. simpl.
  apply lookup_alter_is_Some.
Qed.

(** updateBalance on an existing user: the balance moves by [amount] and one
    record with the magnitude is appended. *)
Lemma updateBalance_ok (s : Db) (userId amount : Z) (type : txn_type)
    (reason : string) (u : User.t) :
  users s !! userId = Some u →
  userDb.updateBalance userId amount type reason s =
    (with_transactions (λ l, l ++ [Transaction.mk userId type (Z.abs amount) reason])
       (with_users (alter (User.add_balance amount) userId) s), inr tt).
Proof.
  intros E. unfold userDb.updateBalance, bind, exec, userDb.insert_transaction.
  simpl Transaction.user_id.
  by rewrite user_exists_alter, (user_exists_true _ _ _ E).
Qed.

(** ** C7 *)

(** C7. A ledger credit or debit for a user that does not exist fails, with
    SQLite's foreign key error on the transaction record (the code's signal
    that the referenced user is absent), and leaves the database exactly as
    it was: no balance is changed and no transaction record is appended. *)
Theorem C7_updateBalance_unknown_user (s : Db) (userId amount : Z)
    (type : txn_type) (reason : string) :
  userDb.findById userId s = None →
  userDb.updateBalance userId amount type reason s
    = (s, inl (SqliteError FOREIGN_KEY)).
Proof.
  unfold userDb.findById. intros E.
  unfold userDb.updateBalance, bind, exec, userDb.insert_transaction.
  simpl Transaction.user_id.
  rewrite user_exists_alter, (user_exists_false _ _ E).
  f_equal. apply with_users_id. by apply alter_id'.
Qed.

Lemma C7_witness :
  userDb.updateBalance 9 25 admin_credit "Admin adjustment" sample_db
    = (sample_db, inl (SqliteError FOREIGN_KEY)).
Proof. apply C7_updateBalance_unknown_user. reflexivity. Defined.

(** ** Withdrawal approval *)

Lemma approve_not_found (s : Db) (now withdrawalId : Z) (adminNotes : string) :
  withdrawals s !! withdrawalId = None →
  withdrawalDb.approve now withdrawalId adminNotes s
    = (s, inl (Error "Withdrawal request not found")).
Proof. intros E. unfold withdrawalDb.approve, bind, query. by rewrite E. Qed.

Lemma approve_processed (s : Db) (now withdrawalId : Z) (adminNotes : string)
    (w : Withdrawal.t) :
  withdrawals s !! withdrawalId = Some w →
  Withdrawal.status_ w ≠ pending →
  withdrawalDb.approve now withdrawalId adminNotes s
    = (s, inl (Error "Withdrawal already processed")).
Proof.
  intros E Hst. unfold withdrawalDb.approve, bind, query. rewrite E.
  by rewrite bool_decide_eq_false_2.
Qed.

Lemma approve_pending (s : Db) (now withdrawalId : Z) (adminNotes : string)
    (w : Withdrawal.t) (u : User.t) :
  withdrawals s !! withdrawalId = Some w →
  Withdrawal.status_ w = pending →
  users s !! Withdrawal.user_id w = Some u →
  withdrawalDb.approve now withdrawalId adminNotes s
    = (if truthy (User.upi_locked u)
       then approved_state now withdrawalId adminNotes w s
       else with_users (alter (User.lock_upi (Withdrawal.payment_details w))
                              (Withdrawal.user_id w))
              (approved_state now withdrawalId adminNotes w s),
       inr tt).
Proof.
  intros E Hst Hu. unfold withdrawalDb.approve, bind, query. rewrite E.
  rewrite bool_decide_eq_true_2 by done. cbn [negb]. cbv beta iota.
  unfold withdrawalDb.update_pending. rewrite E.
  rewrite bool_decide_eq_true_2 by done.
  change (1 =? 0) with false. cbv beta iota.
  rewrite (updateBalance_ok _ _ _ _ _ u) by done.
  unfold userDb.findById, userDb.lockUpi, exec, ret, approved_state. db_simpl.
  rewrite lookup_alter_eq, Hu. simpl.
  by destruct (truthy (User.upi_locked u)).
Qed.

(** Whether it returns or throws, updateBalance leaves the users table with
    the one balance moved (no row moves when the id is absent). *)
Lemma updateBalance_users (s : Db) (userId amount : Z) (type : txn_type)
    (reason : string) :
  users (userDb.updateBalance userId amount type reason s).1
    = alter (User.add_balance amount) userId (users s).
Proof.
  unfold userDb.updateBalance, bind, exec, userDb.insert_transaction.
  simpl Transaction.user_id.
  by destruct (user_exists _ _).
Qed.

(** ** C4 *)

(** C4. Approving a withdrawal that does not exist, or whose status is no
    longer pending, throws (not found / already processed) and leaves the
    database unchanged; approving a pending withdrawal stamps it approved
    with the process date, debits the amount from its user and appends one
    ledger record of category withdrawal. *)
Theorem C4_withdrawal_approve (s : Db) (now withdrawalId : Z) (adminNotes : string) :
  (withdrawals s !! withdrawalId = None →
     withdrawalDb.approve now withdrawalId adminNotes s
       = (s, inl (Error "Withdrawal request not found")))
  ∧ (∀ w, withdrawals s !! withdrawalId = Some w →
       Withdrawal.status_ w ≠ pending →
       withdrawalDb.approve now withdrawalId adminNotes s
         = (s, inl (Error "Withdrawal already processed")))
  ∧ (∀ w u, withdrawals s !! withdrawalId = Some w →
       Withdrawal.status_ w = pending →
       users s !! Withdrawal.user_id w = Some u →
       ∃ s' w',
         withdrawalDb.approve now withdrawalId adminNotes s = (s', inr tt)
         ∧ withdrawals s' = <[withdrawalId := w']> (withdrawals s)
         ∧ Withdrawal.status_ w' = approved
         ∧ Withdrawal.process_date w' = Some now
         ∧ Withdrawal.user_id w' = Withdrawal.user_id w
         ∧ Withdrawal.amount w' = Withdrawal.amount w
         ∧ balance_of (Withdrawal.user_id w) s'
             = Some (User.balance u - Withdrawal.amount w)
         ∧ (∀ k, k ≠ Withdrawal.user_id w → users s' !! k = users s !! k)
         ∧ transactions s'
             = transactions s
               ++ [Transaction.mk (Withdrawal.user_id w) withdrawal
                     (Z.abs (Withdrawal.amount w)) "Withdrawal approved"]).
Proof.
  split; [apply approve_not_found|].
  split; [intros w; apply approve_processed|].
  intros w u E Hst Hu.
  rewrite (approve_pending _ _ _ _ w u) by done.
  eexists _, (withdrawalDb.process approved now
                (or_default adminNotes "Approved by admin") w).
  split; [reflexivity|].
  unfold balance_of, approved_state.
  destruct (truthy (User.upi_locked u)); db_simpl;
    rewrite ?Z.abs_opp; repeat split; try done.
  - by rewrite lookup_alter_eq, Hu.
  - intros k Hk. by rewrite lookup_alter_ne.
  - by rewrite !lookup_alter_eq, Hu.
  - intros k Hk. by rewrite !lookup_alter_ne.
Qed.

Lemma C4_witness :
  withdrawalDb.approve 5000 2 "" sample_db
    = (sample_db, inl (Error "Withdrawal already processed"))
  ∧ withdrawalDb.approve 5000 7 "" sample_db
    = (sample_db, inl (Error "Withdrawal request not found"))
  ∧ ∃ s' w',
      withdrawalDb.approve 5000 3 "" sample_db = (s', inr tt)
      ∧ withdrawals s' = <[3 := w']> (withdrawals sample_db)
      ∧ Withdrawal.status_ w' = approved
      ∧ Withdrawal.process_date w' = Some 5000
      ∧ Withdrawal.user_id w' = 3
      ∧ Withdrawal.amount w' = 50
      ∧ balance_of 3 s' = Some 30
      ∧ (∀ k, k ≠ 3 → users s' !! k = users sample_db !! k)
      ∧ transactions s'
          = transactions sample_db
            ++ [Transaction.mk 3 withdrawal 50 "Withdrawal approved"].
Proof.
  destruct (C4_withdrawal_approve sample_db 5000 2 "") as (_ & Hdone & _).
  destruct (C4_withdrawal_approve sample_db 5000 7 "") as (Hnone & _ & _).
  destruct (C4_withdrawal_approve sample_db 5000 3 "") as (_ & _ & Hpend).
  split; [|split].
  - apply (Hdone (Withdrawal.mk 1 50 "upi" "old@upi" approved 1500 (Some 1600)
                                "Approved by admin")); [reflexivity|discriminate].
  - apply Hnone. reflexivity.
  - apply (Hpend (Withdrawal.mk 3 50 "upi" "meena@upi" pending 3100 None "")
                 (sample_user "meena" 80)); reflexivity.
Defined.

(** ** C5 *)

(** One call of the approval route keeps every locked user's lock and
    registered UPI, whatever the call does. *)
Lemma approve_route_keeps_lock (s : Db) (now withdrawalId : Z)
    (adminNotes : string) (k : Z) (u : User.t) :
  users s !! k = Some u →
  truthy (User.upi_locked u) = true →
  ∃ u', users (admin_withdrawals_approve now withdrawalId adminNotes s).1 !! k
          = Some u'
        ∧ User.upi_locked u' = User.upi_locked u
        ∧ User.registered_upi u' = User.registered_upi u.
Proof.
  intros Hk Hlocked. unfold admin_withdrawals_approve.
  destruct (negb (truthy withdrawalId)); [by exists u|].
  unfold try_catch.
  destruct (withdrawals s !! withdrawalId) as [w|] eqn:E;
    [|rewrite approve_not_found by done; by exists u].
  destruct (decide (Withdrawal.status_ w = pending)) as [Hst|Hst];
    [|rewrite (approve_processed _ _ _ _ w) by done; by exists u].
  destruct (users s !! Withdrawal.user_id w) as [u0|] eqn:Hu0.
  - rewrite (approve_pending _ _ _ _ w u0) by done.
    unfold approved_state.
    destruct (decide (Withdrawal.user_id w = k)) as [Heq|Hne].
    + rewrite Heq in *.
      assert (u0 = u) as -> by congruence. rewrite Hlocked. cbn [fst]. db_simpl.
      rewrite lookup_alter_eq, Hk. by eexists.
    + destruct (truthy (User.upi_locked u0)); cbn [fst]; db_simpl;
        rewrite !lookup_alter_ne by done; by exists u.
  - (* no such user: the debit throws after the status update *)
    assert (Withdrawal.user_id w ≠ k) as Hne by congruence.
    unfold withdrawalDb.approve, bind, query. rewrite E.
    rewrite bool_decide_eq_true_2 by done. cbn [negb]. cbv beta iota.
    unfold withdrawalDb.update_pending. rewrite E.
    rewrite bool_decide_eq_true_2 by done.
    change (1 =? 0) with false. cbv beta iota.
    match goal with
    | |- context [userDb.updateBalance ?a ?b ?c ?d ?st] =>
        pose proof (updateBalance_users st a b c d) as Hub;
        destruct (userDb.updateBalance a b c d st) as [s1 [e|[]]]
    end; simpl in Hub; db_simpl.
    + cbn [fst]. rewrite Hub, lookup_alter_ne by done. eauto.
    + unfold userDb.findById. rewrite Hub, lookup_alter_eq, Hu0.
      cbn [fmap option_fmap option_map ret fst].
      rewrite Hub, lookup_alter_ne by done. eauto.
Qed.

(** C5. The approval of a pending withdrawal of a user whose UPI is not
    locked yet locks it: upi_locked becomes 1 and both registered_upi and the
    active upi become the payment details of that withdrawal.  And over any
    sequence of calls of the approval route, a user whose UPI is locked
    keeps upi_locked and registered_upi unchanged. *)
Theorem C5_upi_lock :
  (∀ (s : Db) (now withdrawalId : Z) (adminNotes : string) w u,
     withdrawals s !! withdrawalId = Some w →
     Withdrawal.status_ w = pending →
     users s !! Withdrawal.user_id w = Some u →
     truthy (User.upi_locked u) = false →
     ∃ s' u',
       withdrawalDb.approve now withdrawalId adminNotes s = (s', inr tt)
       ∧ users s' !! Withdrawal.user_id w = Some u'
       ∧ User.upi_locked u' = 1
       ∧ User.registered_upi u' = Withdrawal.payment_details w
       ∧ User.upi u' = Withdrawal.payment_details w)
  ∧ (∀ (l : list withdrawal_approval) (s : Db) (k : Z) (u : User.t),
       users s !! k = Some u →
       truthy (User.upi_locked u) = true →
       ∃ u', users (approve_withdrawals l s) !! k = Some u'
             ∧ User.upi_locked u' = User.upi_locked u
             ∧ User.registered_upi u' = User.registered_upi u).
Proof.
  split.
  - intros s now withdrawalId adminNotes w u E Hst Hu Hfree.
    rewrite (approve_pending _ _ _ _ w u) by done. rewrite Hfree.
    eexists _, _. split; [reflexivity|].
    unfold approved_state. db_simpl.
    rewrite !lookup_alter_eq, Hu. by simpl.
  - induction l as [|a l IH]; intros s k u Hk Hlocked.
    + by exists u.
    + unfold approve_withdrawals. simpl.
      destruct (approve_route_keeps_lock s (wa_now a) (wa_withdrawalId a)
                  (wa_adminNotes a) k u Hk Hlocked) as (u1 & Hk1 & Hl1 & Hr1).
      destruct (IH _ k u1 Hk1) as (u2 & Hk2 & Hl2 & Hr2);
        [by rewrite Hl1|].
      exists u2. split; [exact Hk2|]. split; congruence.
Qed.

Lemma C5_witness :
  (∃ s' u',
     withdrawalDb.approve 5000 3 "" sample_db = (s', inr tt)
     ∧ users s' !! 3 = Some u'
     ∧ User.upi_locked u' = 1
     ∧ User.registered_upi u' = "meena@upi"
     ∧ User.upi u' = "meena@upi")
  ∧ (∃ u', users (approve_withdrawals
                    [{| wa_now := 5000; wa_withdrawalId := 1; wa_adminNotes := "" |};
                     {| wa_now := 6000; wa_withdrawalId := 3; wa_adminNotes := "ok" |}]
                    sample_db) !! 1 = Some u'
           ∧ User.upi_locked u' = 1
           ∧ User.registered_upi u' = "old@upi").
Proof.
  destruct C5_upi_lock as [Hfirst Hkeep]. split.
  - apply (Hfirst sample_db 5000 3 ""
             (Withdrawal.mk 3 50 "upi" "meena@upi" pending 3100 None "")
             (sample_user "meena" 80)); reflexivity.
  - apply (Hkeep _ sample_db 1 (User.lock_upi "old@upi" (sample_user "asha" 100)));
      reflexivity.
Defined.

(** ** C10 *)

(** C10. Approving a pending withdrawal debits the full amount whatever the
    user's balance is at that time, and there is a reachable state (the
    request passed its availability check, then an admin debit lowered the
    balance) in which the approval succeeds and leaves the stored balance
    negative. *)
Theorem C10_approval_does_not_recheck_balance :
  (∀ (s : Db) (now withdrawalId : Z) (adminNotes : string) w u,
     withdrawals s !! withdrawalId = Some w →
     Withdrawal.status_ w = pending →
     users s !! Withdrawal.user_id w = Some u →
     ∃ s', withdrawalDb.approve now withdrawalId adminNotes s = (s', inr tt)
           ∧ balance_of (Withdrawal.user_id w) s'
               = Some (User.balance u - Withdrawal.amount w))
  ∧ (∃ (s : Db) (now withdrawalId : Z) (adminNotes : string) w s' b,
       reachable s
       ∧ withdrawals s !! withdrawalId = Some w
       ∧ Withdrawal.status_ w = pending
       ∧ withdrawalDb.approve now withdrawalId adminNotes s = (s', inr tt)
       ∧ balance_of (Withdrawal.user_id w) s' = Some b
       ∧ b < 0).
Proof.
  split.
  - intros s now withdrawalId adminNotes w u E Hst Hu.
    rewrite (approve_pending _ _ _ _ w u) by done.
    eexists. split; [reflexivity|].
    unfold balance_of, approved_state.
    destruct (truthy (User.upi_locked u)); db_simpl;
      by rewrite !lookup_alter_eq, Hu.
  - exists (run overdraft_requests empty_db), 5000, 1, "",
           (Withdrawal.mk 1 60 "upi" "asha@upi" pending 3000 None ""),
           (withdrawalDb.approve 5000 1 "" (run overdraft_requests empty_db)).1,
           (-10).
    split; [by exists overdraft_requests|].
    split; [vm_compute; reflexivity|].
    split; [reflexivity|].
    split; [vm_compute; reflexivity|].
    split; [vm_compute; reflexivity|].
    reflexivity.
Qed.

Lemma C10_witness :
  ∃ s', withdrawalDb.approve 5000 1 "" sample_db = (s', inr tt)
        ∧ balance_of 1 s' = Some (100 - 60).
Proof.
  destruct C10_approval_does_not_recheck_balance as [Hdebit _].
  apply (Hdebit sample_db 5000 1 ""
           (Withdrawal.mk 1 60 "upi" "asha@upi" pending 3000 None "")
           (User.lock_upi "old@upi" (sample_user "asha" 100))); reflexivity.
Defined.

(** ** AUTOINCREMENT ids are fresh *)

Lemma foldr_max_ge (l : list Z) (k : Z) : k ∈ l → k ≤ foldr Z.max 0 l.
Proof.
  induction l as [|x l IH]; intros Hin.
  - by apply elem_of_nil in Hin.
  - apply elem_of_cons in Hin as [->|Hin]; simpl; [lia|].
    specialize (IH Hin). lia.
Qed.

Lemma max_key_ge {V} (m : gmap Z V) (k : Z) (v : V) :
  m !! k = Some v → k ≤ max_key m.
Proof.
  intros E. apply foldr_max_ge.
  apply list_elem_of_fmap. exists (k, v). split; [done|].
  by apply elem_of_map_to_list.
Qed.

Lemma next_id_fresh {V} (m : gmap Z V) (seq : Z) : m !! next_id m seq = None.
Proof.
  destruct (m !! next_id m seq) as [v|] eqn:E; [|done].
  apply max_key_ge in E. unfold next_id in E. lia.
Qed.

(** ** C6 *)




(** ** C9 *)

(** *** Rounding to a Number *)

Lemma pow2_pos (e : Z) : (0 < pow2 e)%Q.
Proof. apply Qpower_0_lt. reflexivity. Qed.

Lemma pow2_plus (a b : Z) : (pow2 (a + b) == pow2 a * pow2 b)%Q.
Proof. apply Qpower_plus. discriminate. Qed.

Lemma pow2_Z (e : Z) : 0 ≤ e → (pow2 e == inject_Z (2 ^ e))%Q.
Proof. intros He. unfold pow2. by rewrite Zpower_Qpower. Qed.

Lemma nearest_even_bounds (x : Q) :
  (x - (1 # 2) <= inject_Z (nearest_even x))%Q
  ∧ (inject_Z (nearest_even x) <= x + (1 # 2))%Q.
Proof.
  unfold nearest_even.
  pose proof (Qfloor_le x) as Hlo. pose proof (Qlt_floor x) as Hhi.
  rewrite inject_Z_plus in Hhi. change (inject_Z 1) with 1%Q in Hhi.
  destruct (x - inject_Z (Qfloor x) ?= 1 # 2)%Q eqn:E.
  - apply Qeq_alt in E. destruct (Z.even (Qfloor x));
      rewrite ?inject_Z_plus; change (inject_Z 1) with 1%Q; split; lra.
  - apply Qlt_alt in E. split; lra.
  - apply Qgt_alt in E. rewrite inject_Z_plus. change (inject_Z 1) with 1%Q.
    split; lra.
Qed.

Lemma ulp_exponent_lt (x : Q) (k : Z) :
  (0 <= x)%Q → -1074 ≤ k → (x < pow2 k)%Q →
  ulp_exponent x ≤ Z.max (k - 53) (-1074).
Proof.
  intros H0 Hk Hx. unfold ulp_exponent. rewrite (Qabs_pos x H0).
  set (m := Qfloor (x * pow2 1074)).
  destruct (Z.le_gt_cases m 0) as [Hm|Hm].
  { rewrite (Z.log2_nonpos m Hm). lia. }
  assert (m < 2 ^ (k + 1074)) as Hlt.
  { rewrite Zlt_Qlt. rewrite <- pow2_Z by lia. rewrite pow2_plus.
    eapply Qle_lt_trans; [apply Qfloor_le|].
    apply Qmult_lt_compat_r; [apply pow2_pos|done]. }
  apply Z.log2_lt_pow2 in Hlt; lia.
Qed.

Lemma nearest_even_nonneg (x : Q) : (0 <= x)%Q → 0 ≤ nearest_even x.
Proof.
  intros Hx. destruct (nearest_even_bounds x) as [Hlo _].
  assert (inject_Z (-1) < inject_Z (nearest_even x))%Q as H.
  { change (inject_Z (-1)) with (-1)%Q. lra. }
  rewrite <- Zlt_Qlt in H. lia.
Qed.

Lemma nearest_even_lt (x : Q) (n : Z) :
  (x + (1 # 2) < inject_Z n)%Q → nearest_even x < n.
Proof.
  intros Hx. destruct (nearest_even_bounds x) as [_ Hhi].
  rewrite Zlt_Qlt. lra.
Qed.

Lemma round64_nonneg (x : Q) : (0 <= x)%Q → (0 <= round64 x)%Q.
Proof.
  intros Hx. unfold round64.
  apply Qmult_le_0_compat; [|apply Qlt_le_weak, pow2_pos].
  change 0%Q with (inject_Z 0). rewrite <- Zle_Qle.
  apply nearest_even_nonneg.
  apply Qle_shift_div_l; [apply pow2_pos|]. lra.
Qed.

(** A Number below 1 is at most 1 - 2^-53. *)
Lemma double_below_1 (r : Q) :
  is_double r → (0 <= r)%Q → (r < 1)%Q → (r <= 1 - pow2 (-53))%Q.
Proof.
  intros Hd H0 H1. unfold is_double, round64 in Hd.
  pose proof (ulp_exponent_lt r 0 H0 ltac:(lia) H1) as Hp.
  set (p := ulp_exponent r) in *.
  assert (-1074 ≤ p) as Hp' by (subst p; unfold ulp_exponent; lia).
  destruct (decide (p = -53)) as [Hp53|Hne].
  - rewrite Hp53 in Hd. set (k := nearest_even (r / pow2 (-53))) in *.
    assert (k < 2 ^ 53) as Hk.
    { rewrite Zlt_Qlt, <- pow2_Z by lia.
      apply Qmult_lt_r with (z := pow2 (-53)); [apply pow2_pos|].
      rewrite Hd, <- pow2_plus. exact H1. }
    assert (inject_Z k <= inject_Z (2 ^ 53 - 1))%Q as Hk' by (rewrite <- Zle_Qle; lia).
    assert (1 - pow2 (-53) == inject_Z (2 ^ 53 - 1) * pow2 (-53))%Q as ->
      by reflexivity.
    rewrite <- Hd.
    apply Qmult_le_compat_r; [exact Hk'|apply Qlt_le_weak, pow2_pos].
  - (* a smaller binade: r < 1/2 *)
    assert (p < -53) as Hlt by lia.
    subst p. unfold ulp_exponent in Hlt. rewrite (Qabs_pos r H0) in Hlt.
    set (m := Qfloor (r * pow2 1074)) in *.
    assert (m < 2 ^ 1073) as Hm.
    { destruct (Z.le_gt_cases m 0) as [Hm|Hm]; [pose proof (Z.pow_pos_nonneg 2 1073); lia|].
      apply Z.log2_lt_pow2; lia. }
    assert (r * pow2 1074 < pow2 1073)%Q as Hr.
    { rewrite (pow2_Z 1073) by lia.
      eapply Qlt_le_trans; [apply Qlt_floor|]. fold m.
      rewrite <- Zle_Qle. lia. }
    assert (r < pow2 (-1))%Q as Hhalf.
    { apply Qmult_lt_r with (z := pow2 1074); [apply pow2_pos|].
      rewrite <- pow2_plus. exact Hr. }
    assert (pow2 (-53) <= pow2 (-1))%Q.
    { unfold pow2. apply Qpower_le_compat_l; [lia|]. discriminate. }
    assert (pow2 (-1) + pow2 (-1) == 1)%Q by reflexivity.
    lra.
Qed.

Lemma pow2_inv (p : Z) (x : Q) : (x / pow2 p == x * pow2 (- p))%Q.
Proof.
  unfold Qdiv. apply Qmult_comp; [reflexivity|].
  unfold pow2. rewrite Qpower_opp. reflexivity.
Qed.

Lemma pow2_le (a b : Z) : a ≤ b → (pow2 a <= pow2 b)%Q.
Proof. intros H. unfold pow2. apply Qpower_le_compat_l; [lia|]. discriminate. Qed.

(** Math.floor(Math.random() * 10) + 1 lies in 1..10, the product being
    rounded to a Number. *)
Lemma checkin_amount_range (random : Q) :
  is_double random → (0 <= random)%Q → (random < 1)%Q →
  1 ≤ Qfloor (double_mul random 10) + 1 ≤ 10.
Proof.
  intros Hd H0 H1. unfold double_mul.
  pose proof (double_below_1 random Hd H0 H1) as Hmax.
  set (x := (random * 10)%Q) in *.
  assert (0 <= x)%Q as Hx0 by (subst x; lra).
  assert (x <= 10 - 10 * pow2 (-53))%Q as Hx1 by (subst x; lra).
  assert (round64 x < 10)%Q as Hlt.
  { assert (x < pow2 4)%Q as Hx16.
    { pose proof (pow2_pos (-53)). change (pow2 4) with 16%Q. lra. }
    pose proof (ulp_exponent_lt x 4 Hx0 ltac:(lia) Hx16) as Hp.
    unfold round64. set (p := ulp_exponent x) in *.
    assert (p ≤ -49) as Hp49 by lia. clear Hp.
    set (y := (x / pow2 p)%Q).
    assert (inject_Z (10 * 2 ^ (- p)) == 10 * pow2 (- p))%Q as HN.
    { rewrite inject_Z_mult, <- pow2_Z by lia. reflexivity. }
    assert (nearest_even y < 10 * 2 ^ (- p)) as Hne.
    { apply nearest_even_lt. rewrite HN. subst y. rewrite pow2_inv.
      assert (x * pow2 (- p) <= (10 - 10 * pow2 (-53)) * pow2 (- p))%Q as Hy
        by (apply Qmult_le_compat_r; [done|apply Qlt_le_weak, pow2_pos]).
      assert (pow2 (-4) <= pow2 (-53 + - p))%Q as Hs by (apply pow2_le; lia).
      rewrite pow2_plus in Hs. change (pow2 (-4)) with (1 # 16)%Q in Hs.
      lra. }
    assert (inject_Z (nearest_even y) <= inject_Z (10 * 2 ^ (- p) - 1))%Q as Hle
      by (rewrite <- Zle_Qle; lia).
    eapply Qle_lt_trans;
      [apply Qmult_le_compat_r; [exact Hle|apply Qlt_le_weak, pow2_pos]|].
    unfold Z.sub. rewrite inject_Z_plus, HN. change (inject_Z (-1)) with (-1)%Q.
    pose proof (pow2_pos p) as Hpos.
    assert (pow2 (- p) * pow2 p == 1)%Q as Hone.
    { rewrite <- pow2_plus. replace (- p + p) with 0 by lia. reflexivity. }
    assert ((10 * pow2 (- p) + -1) * pow2 p
            == 10 * (pow2 (- p) * pow2 p) - pow2 p)%Q as -> by ring.
    rewrite Hone. lra. }
  pose proof (round64_nonneg x Hx0) as Hge.
  apply Qfloor_resp_le in Hge. change (Qfloor 0) with 0 in Hge.
  pose proof (Qfloor_le (round64 x)) as Hfl.
  assert (inject_Z (Qfloor (round64 x)) < inject_Z 10)%Q as Hf10
    by (change (inject_Z 10) with 10%Q; lra).
  rewrite <- Zlt_Qlt in Hf10. lia.
Qed.

(** *** The check-in routes *)

Lemma nearest_even_ge (x : Q) (n : Z) :
  (inject_Z n <= x)%Q → n ≤ nearest_even x.
Proof.
  intros Hx. destruct (nearest_even_bounds x) as [Hlo _].
  assert (inject_Z (n - 1) < inject_Z (nearest_even x))%Q as H.
  { replace (n - 1) with (n + -1) by lia.
    rewrite inject_Z_plus. change (inject_Z (-1)) with (-1)%Q. lra. }
  rewrite <- Zlt_Qlt in H. lia.
Qed.

Lemma round64_nonpos (x : Q) : (x <= 0)%Q → (round64 x <= 0)%Q.
Proof.
  intros Hx. unfold round64.
  pose proof (pow2_pos (ulp_exponent x)) as Hp.
  set (p := ulp_exponent x) in *.
  assert (nearest_even (x / pow2 p) < 1) as Hn.
  { apply nearest_even_lt. change (inject_Z 1) with 1%Q.
    assert (x / pow2 p <= 0)%Q.
    { apply Qle_shift_div_r; [done|]. lra. }
    lra. }
  assert (inject_Z (nearest_even (x / pow2 p)) <= 0)%Q as Hn'.
  { change 0%Q with (inject_Z 0). rewrite <- Zle_Qle. lia. }
  assert (inject_Z (nearest_even (x / pow2 p)) * pow2 p <= 0 * pow2 p)%Q
    by (apply Qmult_le_compat_r; [done|lra]).
  lra.
Qed.

(** Rounding the quotient to a Number does not take it across 24. *)
Lemma hoursDiff_24 (now lastClaimDate : Z) :
  Qle_bool 24 (hoursDiff now lastClaimDate) = true
  ↔ 86400000 ≤ now - lastClaimDate.
Proof.
  rewrite Qle_bool_iff. unfold hoursDiff, double_div.
  set (d := now - lastClaimDate).
  set (q := (inject_Z d / inject_Z (1000 * 60 * 60))%Q).
  assert (Hq : (q * 3600000 == inject_Z d)%Q).
  { subst q. change (inject_Z (1000 * 60 * 60)) with 3600000%Q. field. }
  split.
  - (* below 24 the rounded quotient stays below 24 *)
    intros Hr. destruct (Z.le_gt_cases 86400000 d) as [|Hd]; [done|]. exfalso.
    apply (Qle_not_lt _ _ Hr). clear Hr.
    assert (inject_Z d <= inject_Z 86399999)%Q as Hd' by (rewrite <- Zle_Qle; lia).
    change (inject_Z 86399999) with 86399999%Q in Hd'.
    destruct (Qlt_le_dec q 0) as [Hneg|Hpos].
    { pose proof (round64_nonpos q ltac:(lra)). lra. }
    assert (q < pow2 5)%Q as Hq32 by (change (pow2 5) with 32%Q; lra).
    pose proof (ulp_exponent_lt q 5 Hpos ltac:(lia) Hq32) as Hp.
    unfold round64. set (p := ulp_exponent q) in *.
    assert (p ≤ -48) as Hp48 by lia. clear Hp.
    set (y := (q / pow2 p)%Q).
    assert (inject_Z (24 * 2 ^ (- p)) == 24 * pow2 (- p))%Q as HN.
    { rewrite inject_Z_mult, <- pow2_Z by lia. reflexivity. }
    assert (nearest_even y < 24 * 2 ^ (- p)) as Hne.
    { apply nearest_even_lt. rewrite HN. subst y. rewrite pow2_inv.
      pose proof (pow2_pos (- p)) as Hpp.
      assert (pow2 48 <= pow2 (- p))%Q as Hs by (apply pow2_le; lia).
      change (pow2 48) with 281474976710656%Q in Hs.
      assert ((24 - q) * 3600000 >= 1)%Q as Hgap by lra.
      assert (q * pow2 (- p) + (1 # 2) < 24 * pow2 (- p))%Q; [|done].
      assert ((24 - q) * pow2 (- p) > 1 # 2)%Q; [|lra].
      assert ((24 - q) >= 1 # 3600000)%Q as Hg by lra.
      assert ((1 # 3600000) * pow2 (- p) <= (24 - q) * pow2 (- p))%Q
        by (apply Qmult_le_compat_r; lra).
      lra. }
    assert (inject_Z (nearest_even y) <= inject_Z (24 * 2 ^ (- p) - 1))%Q as Hle
      by (rewrite <- Zle_Qle; lia).
    eapply Qle_lt_trans;
      [apply Qmult_le_compat_r; [exact Hle|apply Qlt_le_weak, pow2_pos]|].
    replace (24 * 2 ^ (- p) - 1) with (24 * 2 ^ (- p) + -1) by lia.
    rewrite inject_Z_plus, HN. change (inject_Z (-1)) with (-1)%Q.
    pose proof (pow2_pos p) as Hpos'.
    assert (pow2 (- p) * pow2 p == 1)%Q as Hone.
    { rewrite <- pow2_plus. replace (- p + p) with 0 by lia. reflexivity. }
    assert ((24 * pow2 (- p) + -1) * pow2 p
            == 24 * (pow2 (- p) * pow2 p) - pow2 p)%Q as -> by ring.
    rewrite Hone. lra.
  - (* from 24 on the rounded quotient is at least 24 *)
    intros Hd.
    assert (inject_Z 86400000 <= inject_Z d)%Q as Hd' by (rewrite <- Zle_Qle; lia).
    change (inject_Z 86400000) with 86400000%Q in Hd'.
    assert (24 <= q)%Q as Hq24 by lra.
    unfold round64. set (p := ulp_exponent q).
    pose proof (pow2_pos p) as Hpp.
    destruct (Z.le_gt_cases p 3) as [Hp|Hp].
    + assert (inject_Z (3 * 2 ^ (3 - p)) == 24 * pow2 (- p))%Q as HN.
      { rewrite inject_Z_mult, <- pow2_Z by lia.
        replace (3 - p) with (3 + - p) by lia. rewrite pow2_plus.
        change (pow2 3) with 8%Q. change (inject_Z 3) with 3%Q. ring. }
      assert (3 * 2 ^ (3 - p) ≤ nearest_even (q / pow2 p)) as Hne.
      { apply nearest_even_ge. rewrite HN, pow2_inv.
        apply Qmult_le_compat_r; [done|apply Qlt_le_weak, pow2_pos]. }
      rewrite Zle_Qle, HN in Hne.
      assert (24 * pow2 (- p) * pow2 p
              <= inject_Z (nearest_even (q / pow2 p)) * pow2 p)%Q as Hm
        by (apply Qmult_le_compat_r; [done|lra]).
      assert (pow2 (- p) * pow2 p == 1)%Q as Hone.
      { rewrite <- pow2_plus. replace (- p + p) with 0 by lia. reflexivity. }
      assert (24 * pow2 (- p) * pow2 p == 24 * (pow2 (- p) * pow2 p))%Q as Hr by ring.
      rewrite Hr, Hone in Hm. lra.
    + (* a quotient of 2^56 or more *)
      subst p. unfold ulp_exponent in *.
      rewrite (Qabs_pos q) in * by lra.
      set (m := Qfloor (q * pow2 1074)) in *.
      assert (0 < m) as Hm.
      { destruct (Z.le_gt_cases m 0) as [Hm0|]; [|done].
        rewrite (Z.log2_nonpos m Hm0) in Hp. lia. }
      set (p := Z.log2 m - 1074 - 52) in *.
      replace (p `max` (-1074)) with p in * by lia.
      pose proof (Z.log2_spec m Hm) as [Hlog _].
      assert (pow2 (p + 52 + 1074) <= q * pow2 1074)%Q as Hlow.
      { rewrite pow2_Z by lia. replace (p + 52 + 1074) with (Z.log2 m) by lia.
        eapply Qle_trans; [|apply Qfloor_le]. fold m. by rewrite <- Zle_Qle. }
      rewrite pow2_plus in Hlow.
      assert (pow2 (p + 52) <= q)%Q as Hlow'.
      { apply Qmult_le_r with (z := pow2 1074); [apply pow2_pos|done]. }
      assert (2 ^ 52 ≤ nearest_even (q / pow2 p)) as Hne.
      { apply nearest_even_ge. rewrite <- pow2_Z by lia.
        apply Qle_shift_div_l; [done|]. rewrite <- pow2_plus.
        by replace (52 + p) with (p + 52) by lia. }
      rewrite Zle_Qle, <- pow2_Z in Hne by lia.
      assert (pow2 52 * pow2 p <= inject_Z (nearest_even (q / pow2 p)) * pow2 p)%Q
        as Hmul by (apply Qmult_le_compat_r; [done|lra]).
      rewrite <- pow2_plus in Hmul.
      assert (pow2 5 <= pow2 (52 + p))%Q as H32 by (apply pow2_le; lia).
      change (pow2 5) with 32%Q in H32. lra.
Qed.

(** getLastCheckin picks a row of the user with the greatest claimed_at, and
    finds none exactly when the user has no row. *)
Lemma foldl_later_spec (rows : list Checkin.t) (best : option Checkin.t) :
  match foldl checkinDb.later best rows with
  | None => best = None ∧ rows = []
  | Some c =>
      (best = Some c ∨ c ∈ rows)
      ∧ (∀ b, best = Some b → Checkin.claimed_at b ≤ Checkin.claimed_at c)
      ∧ (∀ c', c' ∈ rows → Checkin.claimed_at c' ≤ Checkin.claimed_at c)
  end.
Proof.
  revert best. induction rows as [|r rows IH]; intros best; simpl.
  - destruct best as [b|]; [|done].
    split; [by left|]. split; [intros ? [= <-]; lia|].
    intros c' Hc'. by apply elem_of_nil in Hc'.
  - specialize (IH (checkinDb.later best r)).
    destruct (foldl checkinDb.later (checkinDb.later best r) rows) as [c|].
    + destruct IH as (Hin & Hbest & Hrows).
      unfold checkinDb.later in Hin, Hbest.
      destruct best as [b|].
      * destruct (Z.ltb_spec (Checkin.claimed_at b) (Checkin.claimed_at r)).
        -- split; [destruct Hin as [[= <-]|Hin]; right; set_solver|].
           split; [intros ? [= <-]; specialize (Hbest r eq_refl); lia|].
           intros c' [->|Hc']%elem_of_cons; [by apply Hbest|by apply Hrows].
        -- split; [destruct Hin as [[= <-]|Hin]; [by left|right; set_solver]|].
           split; [intros ? [= <-]; by apply Hbest|].
           intros c' [->|Hc']%elem_of_cons; [|by apply Hrows].
           specialize (Hbest b eq_refl). lia.
      * split; [destruct Hin as [[= <-]|Hin]; right; set_solver|].
        split; [done|].
        intros c' [->|Hc']%elem_of_cons; [by apply Hbest|by apply Hrows].
    + destruct IH as [Hbest _]. unfold checkinDb.later in Hbest.
      destruct best as [b|]; [|done].
      by destruct (Checkin.claimed_at b <? Checkin.claimed_at r).
Qed.

Lemma getLastCheckin_spec (userId : Z) (s : Db) :
  match checkinDb.getLastCheckin userId s with
  | None => ∀ c, c ∈ checkins s → Checkin.user_id c ≠ userId
  | Some c =>
      c ∈ checkins s ∧ Checkin.user_id c = userId
      ∧ ∀ c', c' ∈ checkins s → Checkin.user_id c' = userId →
              Checkin.claimed_at c' ≤ Checkin.claimed_at c
  end.
Proof.
  unfold checkinDb.getLastCheckin.
  pose proof (foldl_later_spec
    (filter (λ c, Checkin.user_id c = userId) (checkins s)) None) as H.
  destruct (foldl checkinDb.later None _) as [c|].
  - destruct H as ([?|Hin] & _ & Hmax); [done|].
    apply list_elem_of_filter in Hin as [Hid Hin].
    split; [done|]. split; [done|].
    intros c' Hc' Hid'. apply Hmax. by apply list_elem_of_filter.
  - destruct H as [_ Hnil]. intros c Hc Hid.
    assert (c ∈ filter (λ c, Checkin.user_id c = userId) (checkins s)) as Hin
      by by apply list_elem_of_filter.
    rewrite Hnil in Hin. by apply elem_of_nil in Hin.
Qed.

(** C9, at two failing inputs.  User 3 of the sample database claims
    twice.  On a server whose zone is UTC+05:30 the second claim, 19 hours
    after the first, is accepted: the stored UTC text of the first claim is
    read back as local time, which puts it 5 h 30 min earlier than it was.
    On a server in UTC the second claim is accepted 800 ms before the 24
    hours are over, the stored text having lost the milliseconds.  Either
    time the user is paid again, with a second record. *)
Theorem C9_cooldown_shorter_than_24_hours :
  (let s1 := run [early_checkin_first] sample_db in
   let s2 := run [early_checkin_first; early_checkin_second] sample_db in
   (early_checkin_second.1 - early_checkin_first.1 < 86400000
    ∧ checkinDb.getLastCheckin 3 s1 = Some (Checkin.mk 3 1 3 1700000000)
    ∧ (handle early_checkin_second.1 early_checkin_second.2 s1).2
        = OkCheckin "Congratulations! You earned ₹3 🎉" 3 2
    ∧ checkins s2 = [Checkin.mk 3 1 3 1700000000; Checkin.mk 3 2 3 1700068400]
    ∧ balance_of 3 sample_db = Some 80 ∧ balance_of 3 s2 = Some 86))
  ∧ (let s1 := run [utc_checkin_first] sample_db in
     let s2 := run [utc_checkin_first; utc_checkin_second] sample_db in
     (utc_checkin_second.1 - utc_checkin_first.1 < 86400000
      ∧ checkinDb.getLastCheckin 3 s1 = Some (Checkin.mk 3 1 3 1700000000)
      ∧ (handle utc_checkin_second.1 utc_checkin_second.2 s1).2
          = OkCheckin "Congratulations! You earned ₹3 🎉" 3 2
      ∧ checkins s2 = [Checkin.mk 3 1 3 1700000000; Checkin.mk 3 2 3 1700086400]
      ∧ balance_of 3 s2 = Some 86)).
Proof.
  cbv zeta. split.
  - split; [vm_compute; reflexivity|]. split; [vm_compute; reflexivity|].
    split; [vm_compute; reflexivity|]. split; [vm_compute; reflexivity|].
    split; vm_compute; reflexivity.
  - split; [vm_compute; reflexivity|]. split; [vm_compute; reflexivity|].
    split; [vm_compute; reflexivity|]. split; vm_compute; reflexivity.
Qed.

(** ** C8 *)

Lemma select_first_Some {V} (p : V → bool) (m : gmap Z V) (k : Z) (v : V) :
  select_first p m = Some (k, v) → m !! k = Some v ∧ p v = true.
Proof.
  unfold select_first. intros H. apply head_Some_elem_of in H.
  apply list_elem_of_filter in H as [Hp Hin].
  by apply elem_of_map_to_list in Hin.
Qed.

(** The state after INSERT INTO users. *)
Lemma create_inv (hashSync : string → string) (gen : nat → string)
    (username name email phone upi password : string) (s s1 : Db) (id : Z) :
  userDb.create hashSync gen username name email phone upi password s
    = (s1, inr id) →
  ∃ newUser,
    users s !! id = None
    ∧ users s1 = <[id := newUser]> (users s)
    ∧ User.referrer_id newUser = None
    ∧ User.balance newUser = 0
    ∧ referrals s1 = referrals s
    ∧ transactions s1 = transactions s.
Proof.
  unfold userDb.create, userDb.insert.
  destruct (userDb.unique_clash _ s); [done|].
  intros [= <- <-]. eexists. db_simpl.
  split; [apply next_id_fresh|done].
Qed.

(** The referral block when the code finds an eligible referrer. *)
Lemma apply_invite_referral (inviteCode : string) (newUserId rid : Z)
    (referrer newUser : User.t) (s1 : Db) :
  nonempty inviteCode = true →
  userDb.findByReferralCode (toUpperCase inviteCode) s1 = Some (rid, referrer) →
  rid ≠ newUserId →
  User.banned referrer = 0 →
  users s1 !! newUserId = Some newUser →
  apply_invite inviteCode newUserId s1
    = (with_transactions
         (λ l, l ++ [Transaction.mk rid referral 5 "Referral bonus (instant ₹5)"])
         (with_users (alter (User.add_balance 5) rid)
            (with_users (alter (User.set_referrer_id rid) newUserId)
               (with_referrals (λ l, l ++ [Referral.mk rid newUserId 5]) s1))),
       inr tt).
Proof.
  intros Hcode Hfind Hne Hban Hnew.
  pose proof Hfind as Hrid. unfold userDb.findByReferralCode in Hrid.
  apply select_first_Some in Hrid as [Hrid _].
  unfold apply_invite. rewrite Hcode. unfold bind at 1. unfold query. rewrite Hfind.
  assert ((rid =? newUserId) = false) as -> by by apply Z.eqb_neq.
  unfold truthy. rewrite Hban. cbn [Z.eqb negb andb].
  unfold referralDb.create, bind at 1, referralDb.insert_referral.
  cbn [Referral.referrer_id Referral.referred_id].
  rewrite (user_exists_true _ _ _ Hrid), (user_exists_true _ _ _ Hnew).
  cbn [andb]. unfold bind at 1, exec.
  change (0 <? 5) with true. cbv iota.
  rewrite (updateBalance_ok _ _ _ _ _ referrer); [done|].
  db_simpl. by rewrite lookup_alter_ne.
Qed.

(** A signup without invite code that succeeds got through the checks to the
    try block, and the same signup with any invite code gets there too. *)
Lemma signup_created (hashSync : string → string) (gen : nat → string)
    (rnd : nat → Z) (b : signup_body) (s s1 : Db) (m : string) (id : Z)
    (rc : option string) :
  signup hashSync gen rnd (with_inviteCode "" b) s = (s1, OkSignup m id rc) →
  ∃ username upi,
    userDb.create hashSync gen username (sb_name b) (sb_email b) (sb_phone b)
                  upi (sb_password b) s = (s1, inr id)
    ∧ m = "Account created successfully! Welcome to CashByKing 🎉"
    ∧ rc = users s1 !! id ≫= User.referral_code
    ∧ ∀ code,
        signup hashSync gen rnd (with_inviteCode code b) s
          = try_catch (signup_try hashSync gen (with_inviteCode code b) username upi)
              (λ r, OkSignup "Account created successfully! Welcome to CashByKing 🎉"
                             r.1 r.2)
              "Signup failed: " s.
Proof.
  unfold signup. cbn [with_inviteCode sb_name sb_email sb_phone sb_password
                      sb_username sb_upi sb_inviteCode].
  destruct (negb (nonempty (sb_name b)) || negb (nonempty (sb_email b))
            || negb (nonempty (sb_phone b)) || negb (nonempty (sb_password b)));
    [done|].
  destruct (String.length (sb_phone b) <? 8)%nat; [done|].
  destruct (if nonempty (sb_username b) then (sb_username b, 0%nat)
            else username_loop rnd (before_at (sb_email b))
                   (before_at (sb_email b)) 0 100 s) as [username attempt].
  destruct (100 <=? attempt)%nat; [done|].
  destruct (bool_decide (is_Some (userDb.findByEmail (sb_email b) s))); [done|].
  destruct (bool_decide (is_Some (userDb.findByPhone (sb_phone b) s))); [done|].
  intros H. exists username, (or_default (sb_upi b) "pending").
  unfold try_catch, signup_try, bind in H.
  cbn [with_inviteCode sb_name sb_email sb_phone sb_password
       sb_username sb_upi sb_inviteCode] in H.
  destruct (userDb.create hashSync gen username (sb_name b) (sb_email b)
              (sb_phone b) (or_default (sb_upi b) "pending") (sb_password b) s)
    as [s' [e|id']]; [done|].
  unfold apply_invite, nonempty, ret, query in H. simpl in H.
  injection H as <- <- <- <-. done.
Qed.

(** C8. Take a signup that succeeds without invite code, creating user
    [newUserId] and leaving state [s1], and the same signup with a non-empty
    invite code.  If the code (upper-cased) is the referral code of a user
    other than the new one who is not banned, the signup succeeds with the
    same reply, appends exactly one referral record (referrer, new user, 5),
    sets the new user's referrer_id, credits the referrer 5 and appends one
    ledger record of category referral.  If the code finds nobody, or finds
    the new user itself, or a banned user, the signup succeeds exactly as
    without code: no referral record, no ledger record, no balance change. *)
Theorem C8_signup_referral (hashSync : string → string) (gen : nat → string)
    (rnd : nat → Z) (b : signup_body) (code : string) (s s1 : Db)
    (m : string) (newUserId : Z) (rc : option string) :
  signup hashSync gen rnd (with_inviteCode "" b) s
    = (s1, OkSignup m newUserId rc) →
  nonempty code = true →
  let result := signup hashSync gen rnd (with_inviteCode code b) s in
  let found := userDb.findByReferralCode (toUpperCase code) s1 in
  (∀ rid referrer,
     found = Some (rid, referrer) → rid ≠ newUserId → User.banned referrer = 0 →
     ∃ s2 newUser,
       result = (s2, OkSignup m newUserId rc)
       ∧ users s !! rid = Some referrer
       ∧ referrals s2 = referrals s ++ [Referral.mk rid newUserId 5]
       ∧ users s2 !! newUserId = Some newUser
       ∧ User.referrer_id newUser = Some rid
       ∧ balance_of rid s2 = Some (User.balance referrer + 5)
       ∧ (∀ k, k ≠ rid → k ≠ newUserId → users s2 !! k = users s !! k)
       ∧ transactions s2
           = transactions s
             ++ [Transaction.mk rid referral 5 "Referral bonus (instant ₹5)"])
  ∧ ((found = None
      ∨ ∃ rid referrer, found = Some (rid, referrer)
                        ∧ (rid = newUserId ∨ User.banned referrer ≠ 0)) →
     result = (s1, OkSignup m newUserId rc)
     ∧ referrals s1 = referrals s
     ∧ transactions s1 = transactions s
     ∧ (∀ k, k ≠ newUserId → users s1 !! k = users s !! k)).
Proof.
  intros Hplain Hcode result found.
  destruct (signup_created _ _ _ _ _ _ _ _ _ Hplain)
    as (username & upi & Hcreate & -> & -> & Hall).
  destruct (create_inv _ _ _ _ _ _ _ _ _ _ _ Hcreate)
    as (newUser & Hfresh & Husers & Hnoref & Hbal0 & Hrefs & Htxns).
  assert (users s1 !! newUserId = Some newUser) as Hnew
    by (rewrite Husers; apply lookup_insert_eq).
  subst result. rewrite Hall. unfold try_catch, signup_try, bind.
  cbn [with_inviteCode sb_name sb_email sb_phone sb_password sb_inviteCode].
  rewrite Hcreate. split.
  - intros rid referrer Hfound Hne Hban.
    rewrite (apply_invite_referral _ _ rid referrer newUser) by done.
    pose proof Hfound as Hrid. apply select_first_Some in Hrid as [Hrid _].
    unfold query, ret, userDb.findById, balance_of. db_simpl.
    rewrite lookup_alter_ne, lookup_alter_eq, Hnew by done.
    cbn [fmap option_fmap option_map mbind option_bind fst snd].
    eexists _, _. split; [reflexivity|]. db_simpl.
    rewrite Husers, lookup_insert_ne in Hrid by done.
    split; [exact Hrid|]. split; [by rewrite Hrefs|].
    rewrite lookup_alter_ne, lookup_alter_eq, Hnew by done.
    split; [reflexivity|]. split; [reflexivity|].
    rewrite lookup_alter_eq, lookup_alter_ne by done.
    rewrite Husers, lookup_insert_ne, Hrid by done.
    split; [reflexivity|]. split; [|by rewrite Htxns].
    intros k Hk1 Hk2. rewrite !lookup_alter_ne by done.
    by rewrite lookup_insert_ne.
  - intros Hskip.
    assert (apply_invite code newUserId s1 = (s1, inr tt)) as ->.
    { unfold apply_invite. rewrite Hcode. unfold bind, query. fold found.
      destruct Hskip as [->|(rid & referrer & -> & [->|Hban])]; [done| |].
      - by rewrite Z.eqb_refl.
      - unfold truthy. rewrite (proj2 (Z.eqb_neq _ _) Hban).
        by rewrite andb_false_r. }
    unfold query, ret, userDb.findById. cbn [fst snd].
    split; [done|]. split; [done|]. split; [done|].
    intros k Hk. by rewrite Husers, lookup_insert_ne.
Qed.

Lemma C8_witness :
  (∃ s2 newUser,
     signup sample_hash sample_gen sample_rnd
            (with_inviteCode "asha" (sample_body "kiran" "")) sample_db
       = (s2, OkSignup "Account created successfully! Welcome to CashByKing 🎉"
                       4 (Some "CODE0"))
     ∧ referrals s2 = referrals sample_db ++ [Referral.mk 1 4 5]
     ∧ users s2 !! 4 = Some newUser
     ∧ User.referrer_id newUser = Some 1
     ∧ balance_of 1 s2 = Some 105
     ∧ transactions s2
         = transactions sample_db
           ++ [Transaction.mk 1 referral 5 "Referral bonus (instant ₹5)"])
  ∧ (∃ s1,
       signup sample_hash sample_gen sample_rnd
              (with_inviteCode "nobody" (sample_body "kiran" "")) sample_db
         = (s1, OkSignup "Account created successfully! Welcome to CashByKing 🎉"
                         4 (Some "CODE0"))
       ∧ referrals s1 = referrals sample_db
       ∧ transactions s1 = transactions sample_db).
Proof.
  pose (s1 := (signup sample_hash sample_gen sample_rnd
                      (with_inviteCode "" (sample_body "kiran" "")) sample_db).1).
  split.
  - destruct (C8_signup_referral sample_hash sample_gen sample_rnd
                (sample_body "kiran" "") "asha" sample_db s1
                "Account created successfully! Welcome to CashByKing 🎉"
                4 (Some "CODE0")) as [Href _];
      [vm_compute; reflexivity|reflexivity|].
    destruct (Href 1 (User.lock_upi "old@upi" (sample_user "asha" 100)))
      as (s2 & newUser & Hrun & _ & Hrefs & Hnew & Hrid & Hbal & _ & Htxns);
      [vm_compute; reflexivity|lia|reflexivity|].
    exists s2, newUser. repeat (split; [assumption|]). assumption.
  - destruct (C8_signup_referral sample_hash sample_gen sample_rnd
                (sample_body "kiran" "") "nobody" sample_db s1
                "Account created successfully! Welcome to CashByKing 🎉"
                4 (Some "CODE0")) as [_ Hskip];
      [vm_compute; reflexivity|reflexivity|].
    destruct Hskip as (Hrun & Hrefs & Htxns & _);
      [left; vm_compute; reflexivity|].
    exists s1. repeat (split; [assumption|]). assumption.
Defined.

(** ** Task approval *)

Lemma user_exists_frame (userId : Z) (s s' : Db) :
  users s' = users s → user_exists userId s' = user_exists userId s.
Proof. intros E. unfold user_exists. by rewrite E. Qed.

(** updateBalance, whether the user exists or not. *)
Lemma updateBalance_eq (s : Db) (userId amount : Z) (type : txn_type)
    (reason : string) :
  userDb.updateBalance userId amount type reason s =
    if user_exists userId s
    then (with_transactions
            (λ l, l ++ [Transaction.mk userId type (Z.abs amount) reason])
            (with_users (alter (User.add_balance amount) userId) s), inr tt)
    else (with_users (alter (User.add_balance amount) userId) s,
          inl (SqliteError FOREIGN_KEY)).
Proof.
  unfold userDb.updateBalance, bind, exec, userDb.insert_transaction.
  simpl Transaction.user_id. by rewrite user_exists_alter.
Qed.

(** The statements of approve after the completed_tasks insert. *)
Lemma approve_rest (a : task_approval) (s1 : Db) :
  ((userDb.updateBalance (ta_userId a) (ta_price a) task_reward
      "Task completed and approved" ;;;
    let* referrer := query (pendingTaskDb.first_task_referrer (ta_userId a)) in
    match referrer with
    | Some referrer_id =>
        exec (with_users (alter (User.set_first_task_completed 1) (ta_userId a))) ;;;
        userDb.updateBalance referrer_id 15 referral
          "Referral bonus (first task completed by referred user)" ;;;
        exec (with_referrals
                (map (pendingTaskDb.add_reward 15 referrer_id (ta_userId a))))
    | None => ret tt
    end) s1).1 =
  let s2 :=
    with_transactions
      (λ l, l ++ [Transaction.mk (ta_userId a) task_reward (Z.abs (ta_price a))
                    "Task completed and approved"])
      (with_users (alter (User.add_balance (ta_price a)) (ta_userId a)) s1) in
  if negb (user_exists (ta_userId a) s1)
  then with_users (alter (User.add_balance (ta_price a)) (ta_userId a)) s1
  else match pendingTaskDb.first_task_referrer (ta_userId a) s2 with
       | None => s2
       | Some r =>
           let s3 :=
             with_users (alter (User.set_first_task_completed 1) (ta_userId a)) s2 in
           if user_exists r s1
           then with_referrals
                  (map (pendingTaskDb.add_reward 15 r (ta_userId a)))
                  (with_transactions
                     (λ l, l ++ [Transaction.mk r referral 15
                       "Referral bonus (first task completed by referred user)"])
                     (with_users (alter (User.add_balance 15) r) s3))
           else with_users (alter (User.add_balance 15) r) s3
       end.
Proof.
  unfold bind at 1. rewrite updateBalance_eq.
  destruct (user_exists (ta_userId a) s1); cbn [negb]; [|done].
  unfold bind at 1. unfold query.
  destruct (pendingTaskDb.first_task_referrer _ _) as [r|]; [|done].
  unfold bind at 1. unfold exec at 1.
  unfold bind at 1. rewrite updateBalance_eq.
  rewrite user_exists_alter.
  rewrite (user_exists_frame r (with_users (alter (User.add_balance (ta_price a))
                                             (ta_userId a)) s1)) by done.
  rewrite user_exists_alter.
  by destruct (user_exists r s1).
Qed.

(** What one call of the approval route leaves behind, by the statement at
    which it stops. *)
Lemma approve_task_eq (a : task_approval) (s : Db) :
  approve_task a s =
    if negb (completes a s) then after_complete a s
    else if negb (user_exists (ta_userId a) s)
    then with_users (alter (User.add_balance (ta_price a)) (ta_userId a))
           (after_complete a s)
    else match pendingTaskDb.first_task_referrer (ta_userId a) (after_reward a s) with
         | None => after_reward a s
         | Some r =>
             if user_exists r s then after_bonus a r s
             else with_users (alter (User.add_balance 15) r)
                    (with_users (alter (User.set_first_task_completed 1) (ta_userId a))
                       (after_reward a s))
         end.
Proof.
  unfold approve_task, admin_pending_approve, try_catch, pendingTaskDb.approve.
  unfold bind at 1. unfold exec at 1.
  unfold bind at 1. unfold pendingTaskDb.insert_completed.
  unfold completes, after_bonus, after_reward, after_complete.
  rewrite !(user_exists_frame _ s (with_pending_tasks _ s)) by done.
  unfold task_exists at 1 3. db_simpl. fold (task_exists (ta_taskId a) s).
  set (s0 := with_pending_tasks _ s).
  assert (∀ (m : M unit) (s1 : Db),
            (let (s', r) := m s1 in
             match r with
             | inl e => (s', Fail ("Approval failed: " +:+ error_message e))
             | inr _ => (s', Ok "Task approved and payment credited!")
             end).1 = (m s1).1) as Hfst
    by (intros m s1; by destruct (m s1) as [? [?|?]]).
  destruct (bool_decide ((ta_userId a, ta_taskId a) ∈ completed_tasks s)) eqn:Hdone;
    cbn [orb negb].
  - rewrite Hfst, approve_rest. cbv zeta.
    by rewrite !(user_exists_frame _ s0 s).
  - destruct (user_exists (ta_userId a) s && task_exists (ta_taskId a) s) eqn:Hfk;
      cbn [negb]; [|done].
    rewrite Hfst, approve_rest. cbv zeta.
    by rewrite !(user_exists_frame _ s
                   (with_completed_tasks (λ l, l ++ [(ta_userId a, ta_taskId a)]) s0)).
Qed.


Lemma after_complete_users (a : task_approval) (s : Db) :
  users (after_complete a s) = users s.
Proof.
  unfold after_complete.
  destruct (bool_decide _); [done|]. by destruct (_ && _).
Qed.

Lemma after_complete_transactions (a : task_approval) (s : Db) :
  transactions (after_complete a s) = transactions s.
Proof.
  unfold after_complete.
  destruct (bool_decide _); [done|]. by destruct (_ && _).
Qed.

Lemma after_complete_referrals (a : task_approval) (s : Db) :
  referrals (after_complete a s) = referrals s.
Proof.
  unfold after_complete.
  destruct (bool_decide _); [done|]. by destruct (_ && _).
Qed.

Lemma after_complete_tasks (a : task_approval) (s : Db) :
  tasks (after_complete a s) = tasks s.
Proof.
  unfold after_complete.
  destruct (bool_decide _); [done|]. by destruct (_ && _).
Qed.

(** The referrer test reads only the user's own row. *)
Lemma first_task_referrer_Some (userId r : Z) (s : Db) :
  pendingTaskDb.first_task_referrer userId s = Some r ↔
  ∃ x, users s !! userId = Some x ∧ User.referrer_id x = Some r
       ∧ truthy r = true ∧ User.first_task_completed x = 0.
Proof.
  unfold pendingTaskDb.first_task_referrer. split.
  - destruct (users s !! userId) as [x|]; [|done].
    destruct (User.referrer_id x) as [r'|] eqn:Hr; [|done].
    destruct (truthy r') eqn:Ht; [|done].
    destruct (Z.eqb_spec (User.first_task_completed x) 0) as [Hf|]; [|done].
    intros [= <-]. by exists x.
  - intros (x & Hx & Hr & Ht & Hf). by rewrite Hx, Hr, Ht, Hf.
Qed.

Lemma first_task_referrer_after_reward (a : task_approval) (s : Db) :
  pendingTaskDb.first_task_referrer (ta_userId a) (after_reward a s)
    = pendingTaskDb.first_task_referrer (ta_userId a) s.
Proof.
  unfold pendingTaskDb.first_task_referrer, after_reward. db_simpl.
  rewrite lookup_alter_eq, after_complete_users.
  by destruct (users s !! ta_userId a).
Qed.

(** No approval changes the tasks table or the set of users. *)
Lemma approve_task_frame (a : task_approval) (s : Db) :
  tasks (approve_task a s) = tasks s
  ∧ ∀ k, user_exists k (approve_task a s) = user_exists k s.
Proof.
  rewrite approve_task_eq.
  destruct (completes a s); cbn [negb];
    [destruct (user_exists (ta_userId a) s); cbn [negb];
     [destruct (pendingTaskDb.first_task_referrer _ _) as [r|];
      [destruct (user_exists r s)|]|]|];
    unfold after_bonus, after_reward; db_simpl;
    (split; [apply after_complete_tasks|]); intros k;
    unfold user_exists; apply bool_decide_ext; db_simpl;
    by rewrite ?lookup_alter_is_Some, after_complete_users.
Qed.

(** The reward update touches exactly the records of its own pair. *)
Lemma add_reward_ids (reward r v : Z) (x : Referral.t) :
  Referral.referrer_id (pendingTaskDb.add_reward reward r v x)
    = Referral.referrer_id x
  ∧ Referral.referred_id (pendingTaskDb.add_reward reward r v x)
    = Referral.referred_id x.
Proof. unfold pendingTaskDb.add_reward. by destruct (_ && _). Qed.

Lemma add_reward_miss (reward r v : Z) (x : Referral.t) :
  Referral.referred_id x ≠ v → pendingTaskDb.add_reward reward r v x = x.
Proof.
  intros Hne. unfold pendingTaskDb.add_reward.
  rewrite (proj2 (Z.eqb_neq _ _) Hne). by rewrite andb_false_r.
Qed.

Lemma add_reward_hit (reward r v : Z) (x : Referral.t) :
  Referral.referrer_id x = r → Referral.referred_id x = v →
  Referral.reward_amount (pendingTaskDb.add_reward reward r v x)
    = Referral.reward_amount x + reward.
Proof.
  intros <- <-. unfold pendingTaskDb.add_reward. by rewrite !Z.eqb_refl.
Qed.

Lemma add_reward_other (reward r u r' v : Z) (l : list Referral.t) :
  v ≠ u →
  Referral.reward_amount <$>
    filter (λ x, Referral.referrer_id x = r ∧ Referral.referred_id x = u)
           (map (pendingTaskDb.add_reward reward r' v) l)
  = Referral.reward_amount <$>
      filter (λ x, Referral.referrer_id x = r ∧ Referral.referred_id x = u) l.
Proof.
  intros Hne. induction l as [|x l IH]; [done|].
  cbn [map]. rewrite !filter_cons.
  destruct (add_reward_ids reward r' v x) as [-> ->].
  destruct (decide (Referral.referrer_id x = r ∧ Referral.referred_id x = u))
    as [[Hr Hu]|Hno]; [|exact IH].
  rewrite !fmap_cons, IH. f_equal.
  rewrite add_reward_miss; [done|congruence].
Qed.

Lemma add_reward_same (reward r u : Z) (l : list Referral.t) :
  Referral.reward_amount <$>
    filter (λ x, Referral.referrer_id x = r ∧ Referral.referred_id x = u)
           (map (pendingTaskDb.add_reward reward r u) l)
  = (λ v, v + reward) <$>
      (Referral.reward_amount <$>
         filter (λ x, Referral.referrer_id x = r ∧ Referral.referred_id x = u) l).
Proof.
  induction l as [|x l IH]; [done|].
  cbn [map]. rewrite !filter_cons.
  destruct (add_reward_ids reward r u x) as [-> ->].
  destruct (decide (Referral.referrer_id x = r ∧ Referral.referred_id x = u))
    as [[Hr Hu]|Hno]; [|exact IH].
  rewrite !fmap_cons, IH. f_equal. by apply add_reward_hit.
Qed.

(** An approval made for another user leaves the flag, the referrer and the
    referral records of [u] alone. *)
Lemma approve_task_other (a : task_approval) (s : Db) (u : Z) :
  ta_userId a ≠ u →
  flag_of u (approve_task a s) = flag_of u s
  ∧ referrer_of u (approve_task a s) = referrer_of u s
  ∧ ∀ r, referral_rewards r u (approve_task a s) = referral_rewards r u s.
Proof.
  intros Hne. rewrite approve_task_eq. unfold flag_of, referrer_of, referral_rewards.
  destruct (completes a s); cbn [negb];
    [destruct (user_exists (ta_userId a) s); cbn [negb];
     [destruct (pendingTaskDb.first_task_referrer _ _) as [r'|];
      [destruct (user_exists r' s)|]|]|];
    unfold after_bonus, after_reward; db_simpl;
    rewrite ?after_complete_referrals;
    (split; [|split; [|intros r; by rewrite ?add_reward_other]]);
    rewrite ?lookup_alter; repeat case_decide; try congruence;
    rewrite ?after_complete_users; try done;
    subst; by destruct (users s !! u).
Qed.

Lemma first_task_referrer_flag (userId : Z) (s : Db) :
  pendingTaskDb.first_task_referrer userId s =
    match referrer_of userId s, flag_of userId s with
    | Some (Some r), Some f => if truthy r && (f =? 0) then Some r else None
    | _, _ => None
    end.
Proof.
  unfold pendingTaskDb.first_task_referrer, referrer_of, flag_of.
  destruct (users s !! userId) as [x|]; [|done]. cbn.
  by destruct (User.referrer_id x).
Qed.

Lemma flag_of_exists (userId f : Z) (s : Db) :
  flag_of userId s = Some f → user_exists userId s = true.
Proof.
  unfold flag_of. destruct (users s !! userId) as [x|] eqn:E; [|done].
  intros _. by eapply user_exists_true.
Qed.

(** An approval that stops at the completed_tasks insert changes neither
    users nor ledger nor referrals. *)
Lemma approve_task_stopped (a : task_approval) (s : Db) :
  completes a s = false →
  users (approve_task a s) = users s
  ∧ transactions (approve_task a s) = transactions s
  ∧ referrals (approve_task a s) = referrals s.
Proof.
  intros Hc. rewrite approve_task_eq, Hc. cbn [negb].
  by rewrite after_complete_users, after_complete_transactions,
             after_complete_referrals.
Qed.

(** An approval for a user whose flag is already set pays the task reward
    at most, and nothing to anybody else. *)
Lemma approve_task_done (a : task_approval) (s : Db) (f : Z) :
  flag_of (ta_userId a) s = Some f → f ≠ 0 →
  flag_of (ta_userId a) (approve_task a s) = flag_of (ta_userId a) s
  ∧ referral_entries (drop (length (transactions s))
                           (transactions (approve_task a s))) = []
  ∧ (∀ r, r ≠ ta_userId a → balance_of r (approve_task a s) = balance_of r s)
  ∧ (∀ r, referral_rewards r (ta_userId a) (approve_task a s)
          = referral_rewards r (ta_userId a) s).
Proof.
  intros Hf Hne.
  destruct (completes a s) eqn:Hc.
  - rewrite approve_task_eq, Hc, (flag_of_exists _ _ _ Hf). cbn [negb].
    rewrite first_task_referrer_after_reward.
    assert (pendingTaskDb.first_task_referrer (ta_userId a) s = None) as ->.
    { rewrite first_task_referrer_flag, Hf.
      destruct (referrer_of _ s) as [[r|]|]; [|done|done].
      by rewrite (proj2 (Z.eqb_neq _ _) Hne), andb_false_r. }
    unfold flag_of, balance_of, referral_rewards, after_reward in *. db_simpl.
    rewrite after_complete_transactions, after_complete_referrals,
            after_complete_users.
    rewrite drop_app_length, lookup_alter_eq.
    split; [by destruct (users s !! ta_userId a)|].
    split; [done|]. split; [|done].
    intros r Hr. by rewrite lookup_alter_ne.
  - destruct (approve_task_stopped a s Hc) as (Hu & Ht & Hr).
    unfold flag_of, balance_of, referral_rewards. rewrite Hu, Ht, Hr.
    by rewrite drop_all.
Qed.

(** The first approval that goes through for a referred user runs the bonus
    branch to its end. *)
Lemma approve_task_fires (a : task_approval) (s : Db) (r : Z) :
  flag_of (ta_userId a) s = Some 0 →
  referrer_of (ta_userId a) s = Some (Some r) →
  truthy r = true →
  user_exists r s = true →
  completes a s = true →
  approve_task a s = after_bonus a r s.
Proof.
  intros Hf Hr Ht Hex Hc.
  rewrite approve_task_eq, Hc, (flag_of_exists _ _ _ Hf). cbn [negb].
  rewrite first_task_referrer_after_reward, first_task_referrer_flag, Hf, Hr, Ht.
  cbn [Z.eqb andb]. by rewrite Hex.
Qed.

Lemma after_bonus_effect (a : task_approval) (s : Db) (r : Z) :
  flag_of (ta_userId a) s = Some 0 →
  referrer_of (ta_userId a) s = Some (Some r) →
  flag_of (ta_userId a) (after_bonus a r s) = Some 1
  ∧ referrer_of (ta_userId a) (after_bonus a r s) = Some (Some r)
  ∧ referral_entries (drop (length (transactions s))
                           (transactions (after_bonus a r s)))
      = [Transaction.mk r referral 15
           "Referral bonus (first task completed by referred user)"]
  ∧ (r ≠ ta_userId a →
       default 0 (balance_of r (after_bonus a r s))
         = default 0 (balance_of r s)
           + (if user_exists r s then 15 else 0))
  ∧ referral_rewards r (ta_userId a) (after_bonus a r s)
      = (λ v, v + 15) <$> referral_rewards r (ta_userId a) s.
Proof.
  intros Hf Hr.
  unfold flag_of, referrer_of, balance_of, referral_rewards, user_exists,
         after_bonus, after_reward in *. db_simpl.
  rewrite after_complete_transactions, after_complete_referrals,
          after_complete_users.
  destruct (users s !! ta_userId a) as [x|] eqn:Hx; [|done].
  cbn in Hf, Hr. injection Hf as Hf. injection Hr as Hr.
  split; [|split; [|split; [|split]]].
  - destruct (decide (r = ta_userId a)) as [->|Hne].
    + by rewrite !lookup_alter_eq, Hx.
    + by rewrite lookup_alter_ne, !lookup_alter_eq, Hx.
  - destruct (decide (r = ta_userId a)) as [->|Hne].
    + rewrite !lookup_alter_eq, Hx. cbn. by rewrite Hr.
    + rewrite lookup_alter_ne, !lookup_alter_eq, Hx by done. cbn. by rewrite Hr.
  - by rewrite <- app_assoc, drop_app_length.
  - intros Hne. rewrite lookup_alter_eq, !lookup_alter_ne by done.
    destruct (users s !! r) as [y|]; cbn; [done|lia].
  - apply add_reward_same.
Qed.

Lemma referral_entries_app (l1 l2 : list Transaction.t) :
  referral_entries (l1 ++ l2) = referral_entries l1 ++ referral_entries l2.
Proof. apply filter_app. Qed.

(** Once the flag is set, no later approval pays a first-task bonus on
    account of the user. *)
Lemma bonus_spent (u r : Z) (l : list task_approval) :
  ∀ (s : Db) (f : Z),
    flag_of u s = Some f → f ≠ 0 →
    flag_of u (approve_tasks l s) = Some f
    ∧ flips u l s = 0%nat
    ∧ referral_entries (appended_for u l s) = []
    ∧ (r ≠ u → credited_for r u l s = 0)
    ∧ referral_rewards r u (approve_tasks l s) = referral_rewards r u s
    ∧ referrer_of u (approve_tasks l s) = referrer_of u s.
Proof.
  induction l as [|a l IH]; intros s f Hf Hne; [done|].
  cbn [approve_tasks foldl flips appended_for credited_for].
  fold (approve_tasks l (approve_task a s)).
  destruct (Z.eqb_spec (ta_userId a) u) as [Hu|Hu].
  - subst u.
    destruct (approve_task_done a s f Hf Hne) as (Hf1 & Hent & Hbal & Hrew).
    destruct (approve_task_frame a s) as [_ Hex].
    assert (referrer_of (ta_userId a) (approve_task a s)
            = referrer_of (ta_userId a) s) as Href.
    { destruct (completes a s) eqn:Hc.
      - rewrite approve_task_eq, Hc, (flag_of_exists _ _ _ Hf). cbn [negb].
        rewrite first_task_referrer_after_reward, first_task_referrer_flag, Hf.
        unfold referrer_of, after_reward.
        destruct (User.referrer_id <$> users s !! ta_userId a) as [[r0|]|] eqn:Hr0;
          rewrite ?(proj2 (Z.eqb_neq _ _) Hne), ?andb_false_r; db_simpl;
          rewrite lookup_alter_eq, after_complete_users;
          destruct (users s !! ta_userId a); done.
      - destruct (approve_task_stopped a s Hc) as (Husers & _).
        unfold referrer_of. by rewrite Husers. }
    rewrite Hf in Hf1.
    destruct (IH _ f Hf1 Hne) as (IHf & IHflips & IHent & IHbal & IHrew & IHref).
    rewrite decide_True by congruence.
    rewrite referral_entries_app, Hent, IHent, IHflips, IHrew, IHref, Hrew, Href.
    repeat split; try done.
    intros Hr. rewrite (Hbal r Hr), (IHbal Hr). lia.
  - destruct (approve_task_other a s u Hu) as (Hf1 & Href & Hrew).
    rewrite Hf in Hf1.
    destruct (IH _ f Hf1 Hne) as (IHf & IHflips & IHent & IHbal & IHrew & IHref).
    rewrite decide_True by congruence. cbn [app].
    rewrite IHent, IHflips, IHrew, IHref, Hrew, Href.
    repeat split; try done.
Qed.

(** While the flag is clear, the first approval for the user that goes
    through pays the bonus, and it is the only one that does. *)
Lemma bonus_once (u r : Z) (l : list task_approval) :
  ∀ s : Db,
    flag_of u s = Some 0 →
    referrer_of u s = Some (Some r) →
    truthy r = true →
    user_exists r s = true →
    (∃ a, a ∈ l ∧ ta_userId a = u ∧ task_exists (ta_taskId a) s = true) →
    flag_of u (approve_tasks l s) = Some 1
    ∧ flips u l s = 1%nat
    ∧ referral_entries (appended_for u l s)
        = [Transaction.mk r referral 15
             "Referral bonus (first task completed by referred user)"]
    ∧ (r ≠ u → credited_for r u l s = 15)
    ∧ referral_rewards r u (approve_tasks l s)
        = (λ v, v + 15) <$> referral_rewards r u s
    ∧ referrer_of u (approve_tasks l s) = Some (Some r).
Proof.
  induction l as [|a l IH]; intros s Hf Href Ht Hex Hsome.
  { destruct Hsome as (a0 & Hin & _). by apply elem_of_nil in Hin. }
  cbn [approve_tasks foldl flips appended_for credited_for].
  fold (approve_tasks l (approve_task a s)).
  destruct (approve_task_frame a s) as [Htasks Hexs].
  destruct (Z.eqb_spec (ta_userId a) u) as [Hu|Hu].
  - subst u. destruct (completes a s) eqn:Hc.
    + (* the bonus is paid here *)
      clear Hsome. rewrite (approve_task_fires a s r Hf Href Ht Hex Hc).
      destruct (after_bonus_effect a s r Hf Href)
        as (Hf1 & Href1 & Hent & Hbal & Hrew).
      destruct (bonus_spent (ta_userId a) r l _ 1 Hf1 ltac:(done))
        as (Lf & Lflips & Lent & Lbal & Lrew & Lref).
      rewrite Hf1, Hf, decide_False by done.
      rewrite referral_entries_app, Hent, Lent, Lflips, Lrew, Lref, Hrew.
      repeat split; try done.
      intros Hr. rewrite (Hbal Hr), (Lbal Hr), Hex. lia.
    + (* stopped at the completed_tasks insert: nothing moved *)
      destruct (approve_task_stopped a s Hc) as (Husers & Htxns & Hrefs).
      assert (flag_of (ta_userId a) (approve_task a s) = Some 0) as Hf1
        by (unfold flag_of in *; by rewrite Husers).
      assert (referrer_of (ta_userId a) (approve_task a s) = Some (Some r)) as Href1
        by (unfold referrer_of in *; by rewrite Husers).
      assert (∃ a1, a1 ∈ l ∧ ta_userId a1 = ta_userId a
                    ∧ task_exists (ta_taskId a1) (approve_task a s) = true) as Hnext.
      { destruct Hsome as (a0 & Hin & Ha0 & Htask).
        apply elem_of_cons in Hin as [->|Hin].
        - unfold completes in Hc. rewrite Htask, (flag_of_exists _ _ _ Hf) in Hc.
          by rewrite orb_true_r in Hc.
        - exists a0. unfold task_exists in *. by rewrite Htasks. }
      destruct (IH _ Hf1 Href1 Ht ltac:(by rewrite Hexs) Hnext)
        as (IHf & IHflips & IHent & IHbal & IHrew & IHref).
      assert (referral_rewards r (ta_userId a) (approve_task a s)
              = referral_rewards r (ta_userId a) s) as Hrew
        by (unfold referral_rewards; by rewrite Hrefs).
      assert (balance_of r (approve_task a s) = balance_of r s) as Hbal
        by (unfold balance_of; by rewrite Husers).
      rewrite Hf1, Hf, decide_True by done.
      rewrite Htxns, drop_all, Hbal, IHflips, IHrew, Hrew.
      repeat split; try done.
      intros Hr. rewrite (IHbal Hr). lia.
  - destruct (approve_task_other a s u Hu) as (Hf1 & Href1 & Hrew).
    rewrite Hf in Hf1. rewrite Href in Href1.
    assert (∃ a1, a1 ∈ l ∧ ta_userId a1 = u
                  ∧ task_exists (ta_taskId a1) (approve_task a s) = true) as Hnext.
    { destruct Hsome as (a0 & Hin & Ha0 & Htask).
      apply elem_of_cons in Hin as [->|Hin]; [done|].
      exists a0. unfold task_exists in *. by rewrite Htasks. }
    destruct (IH _ Hf1 Href1 Ht ltac:(by rewrite Hexs) Hnext)
      as (IHf & IHflips & IHent & IHbal & IHrew & IHref).
    rewrite Hf1, Hf, decide_True by done. cbn [app].
    rewrite IHflips, IHrew, Hrew.
    repeat split; try done.
Qed.

(** ** C2 *)

(** C2. Let user [u] exist with referrer_id [r] (non-null, non-zero),
    first_task_completed 0 and an existing referrer.  Over any sequence of
    calls of the task approval route (for any users) in which at least one
    approval for [u] names an existing task: first_task_completed of [u]
    ends as 1 and changed at exactly one call; the ledger records appended
    by the approvals made for [u] contain exactly one referral credit, of 15
    to [r]; when [r] is another user, those approvals moved the balance of
    [r] by exactly 15 in total; and the reward of every referral record of
    ([r], [u]) grew by exactly 15. *)
Theorem C2_first_task_bonus_once (s : Db) (l : list task_approval) (u r : Z)
    (x : User.t) :
  users s !! u = Some x →
  User.referrer_id x = Some r →
  r ≠ 0 →
  User.first_task_completed x = 0 →
  is_Some (users s !! r) →
  (∃ a, a ∈ l ∧ ta_userId a = u ∧ is_Some (tasks s !! ta_taskId a)) →
  flag_of u (approve_tasks l s) = Some 1
  ∧ flips u l s = 1%nat
  ∧ referral_entries (appended_for u l s)
      = [Transaction.mk r referral 15
           "Referral bonus (first task completed by referred user)"]
  ∧ (r ≠ u → credited_for r u l s = 15)
  ∧ referral_rewards r u (approve_tasks l s)
      = (λ v, v + 15) <$> referral_rewards r u s.
Proof.
  intros Hx Hr Hr0 Hflag [y Hy] (a & Hin & Hau & Htask).
  destruct (bonus_once u r l s) as (H1 & H2 & H3 & H4 & H5 & _).
  - unfold flag_of. by rewrite Hx, <- Hflag.
  - unfold referrer_of. by rewrite Hx, <- Hr.
  - unfold truthy. by rewrite (proj2 (Z.eqb_neq _ _) Hr0).
  - by eapply user_exists_true.
  - exists a. split; [done|]. split; [done|].
    unfold task_exists. by apply bool_decide_eq_true.
  - done.
Qed.

Lemma C2_witness :
  flag_of 2 (approve_tasks sample_approvals sample_db) = Some 1
  ∧ flips 2 sample_approvals sample_db = 1%nat
  ∧ referral_entries (appended_for 2 sample_approvals sample_db)
      = [Transaction.mk 1 referral 15
           "Referral bonus (first task completed by referred user)"]
  ∧ (1 ≠ 2 → credited_for 1 2 sample_approvals sample_db = 15)
  ∧ referral_rewards 1 2 (approve_tasks sample_approvals sample_db)
      = (λ v, v + 15) <$> referral_rewards 1 2 sample_db.
Proof.
  apply (C2_first_task_bonus_once sample_db sample_approvals 2 1
           (sample_referred "ravi" 1)).
  - reflexivity.
  - reflexivity.
  - lia.
  - reflexivity.
  - exists (User.lock_upi "old@upi" (sample_user "asha" 100)). reflexivity.
  - exists {| ta_now := 6000; ta_pendingId := 1; ta_userId := 2;
              ta_taskId := 1; ta_price := 20 |}.
    split; [|split; [reflexivity|]].
    + apply elem_of_cons; right; apply elem_of_cons; by left.
    + exists (Task.mk "Install app" 20 1). reflexivity.
Defined.

(** ** C1 *)

(** C1, at the failing input.  Submission 2 of the sample database is
    already approved.  Approving it again succeeds, appends a second
    task_reward record and raises the balance of user 3 from 80 to 100;
    rejecting it succeeds too and turns the approved submission into a
    rejected one. *)
Theorem C1_terminal_submission_reprocessed :
  PendingTask.status_ <$> pending_tasks sample_db !! 2 = Some approved
  ∧ (admin_pending_approve 9000 2 3 1 20 sample_db).2
      = Ok "Task approved and payment credited!"
  ∧ transactions (admin_pending_approve 9000 2 3 1 20 sample_db).1
      = transactions sample_db
        ++ [Transaction.mk 3 task_reward 20 "Task completed and approved"]
  ∧ balance_of 3 sample_db = Some 80
  ∧ balance_of 3 (admin_pending_approve 9000 2 3 1 20 sample_db).1 = Some 100
  ∧ (admin_pending_reject 9000 2 "" sample_db).2 = Ok "Task rejected"
  ∧ PendingTask.status_
      <$> pending_tasks (admin_pending_reject 9000 2 "" sample_db).1 !! 2
      = Some rejected.
Proof. repeat (split; [vm_compute; reflexivity|]). vm_compute. reflexivity. Qed.

(** ** C3 *)

Lemma ledger_sum_append (k : Z) (t : Transaction.t) (s : Db) :
  ledger_sum k (with_transactions (λ l, l ++ [t]) s)
    = ledger_sum k s
      + (if decide (Transaction.user_id t = k) then signedAmount t else 0).
Proof.
  unfold ledger_sum. db_simpl.
  rewrite filter_app, fmap_app, foldr_app.
  rewrite filter_cons, filter_nil.
  assert (∀ (l : list Z) (z : Z), foldr Z.add z l = foldr Z.add 0 l + z) as Hz.
  { induction l as [|y l IH]; intros z; simpl; [lia|]. rewrite IH. lia. }
  rewrite Hz. case_decide; simpl; lia.
Qed.

(** A ledger operation whose category agrees with the sign of the amount
    keeps, for every user, the stored balance in step with the signed sum of
    the user's records. *)
Lemma updateBalance_audit (s : Db) (userId amount : Z) (type : txn_type)
    (reason : string) (k : Z) :
  (if is_credit type then 0 ≤ amount else amount ≤ 0) →
  let s' := (userDb.updateBalance userId amount type reason s).1 in
  default 0 (balance_of k s') - ledger_sum k s'
    = default 0 (balance_of k s) - ledger_sum k s.
Proof.
  intros Hsign. cbv zeta. rewrite updateBalance_eq. unfold balance_of.
  destruct (users s !! userId) as [u|] eqn:Hu.
  - rewrite (user_exists_true _ _ _ Hu). cbn [fst].
    rewrite ledger_sum_append. db_simpl. cbn [Transaction.user_id].
    unfold signedAmount. cbn [Transaction.type Transaction.amount].
    destruct (decide (userId = k)) as [->|Hne].
    + rewrite lookup_alter_eq, Hu. cbn.
      unfold ledger_sum. db_simpl. destruct (is_credit type); lia.
    + rewrite lookup_alter_ne by done. unfold ledger_sum. db_simpl. lia.
  - rewrite (user_exists_false _ _ Hu). cbn [fst]. db_simpl.
    rewrite alter_id' by done. unfold ledger_sum. by db_simpl.
Qed.

(** C3, at the failing input.  After a signup and a bulk bonus of -10 the
    stored balance of the user is -10, while the one record the bonus
    appended is an admin_credit of 10: the signed sum of the user's records
    is +10.  Before the bonus the two agree. *)
Theorem C3_negative_bulk_bonus_breaks_audit :
  reachable (run negative_bonus_requests empty_db)
  ∧ balance_of 1 (run (take 1 negative_bonus_requests) empty_db) = Some 0
  ∧ ledger_sum 1 (run (take 1 negative_bonus_requests) empty_db) = 0
  ∧ balance_of 1 (run negative_bonus_requests empty_db) = Some (-10)
  ∧ transactions (run negative_bonus_requests empty_db)
      = [Transaction.mk 1 admin_credit 10 "Correction"]
  ∧ ledger_sum 1 (run negative_bonus_requests empty_db) = 10.
Proof.
  split; [by exists negative_bonus_requests|].
  repeat (split; [vm_compute; reflexivity|]). vm_compute. reflexivity.
Qed.


(** * Further properties of the code *)

(** ** withdrawalDb.reject and terminal withdrawals *)

Lemma reject_not_found (s : Db) (now withdrawalId : Z) (adminNotes : string) :
  withdrawals s !! withdrawalId = None →
  withdrawalDb.reject now withdrawalId adminNotes s
    = (s, inl (Error "Withdrawal request not found")).
Proof. intros E. unfold withdrawalDb.reject, bind, query. by rewrite E. Qed.

Lemma reject_processed (s : Db) (now withdrawalId : Z) (adminNotes : string)
    (w : Withdrawal.t) :
  withdrawals s !! withdrawalId = Some w →
  Withdrawal.status_ w ≠ pending →
  withdrawalDb.reject now withdrawalId adminNotes s
    = (s, inl (Error "Can only reject pending withdrawals")).
Proof.
  intros E Hst. unfold withdrawalDb.reject, bind, query. rewrite E.
  by rewrite bool_decide_eq_false_2.
Qed.

Lemma reject_pending (s : Db) (now withdrawalId : Z) (adminNotes : string)
    (w : Withdrawal.t) :
  withdrawals s !! withdrawalId = Some w →
  Withdrawal.status_ w = pending →
  withdrawalDb.reject now withdrawalId adminNotes s
    = (with_withdrawals
         (<[withdrawalId := withdrawalDb.process rejected now
                              (or_default adminNotes "Rejected by admin") w]>) s,
       inr tt).
Proof.
  intros E Hst. unfold withdrawalDb.reject, bind, query. rewrite E.
  rewrite bool_decide_eq_true_2 by done. cbn [negb]. cbv beta iota.
  unfold withdrawalDb.update_pending. rewrite E.
  by rewrite bool_decide_eq_true_2 by done.
Qed.

(** X1. Rejecting a withdrawal that does not exist or is no longer pending
    throws and changes nothing; rejecting a pending one stamps it rejected
    with the process date and the notes (or the default note) and touches
    neither balances nor the ledger. *)
Theorem withdrawal_reject_spec (s : Db) (now withdrawalId : Z) (adminNotes : string) :
  (withdrawals s !! withdrawalId = None →
     withdrawalDb.reject now withdrawalId adminNotes s
       = (s, inl (Error "Withdrawal request not found")))
  ∧ (∀ w, withdrawals s !! withdrawalId = Some w →
       Withdrawal.status_ w ≠ pending →
       withdrawalDb.reject now withdrawalId adminNotes s
         = (s, inl (Error "Can only reject pending withdrawals")))
  ∧ (∀ w, withdrawals s !! withdrawalId = Some w →
       Withdrawal.status_ w = pending →
       ∃ s' w',
         withdrawalDb.reject now withdrawalId adminNotes s = (s', inr tt)
         ∧ withdrawals s' = <[withdrawalId := w']> (withdrawals s)
         ∧ Withdrawal.status_ w' = rejected
         ∧ Withdrawal.process_date w' = Some now
         ∧ Withdrawal.admin_notes w'
             = (if nonempty adminNotes then adminNotes else "Rejected by admin")
         ∧ Withdrawal.user_id w' = Withdrawal.user_id w
         ∧ Withdrawal.amount w' = Withdrawal.amount w
         ∧ users s' = users s
         ∧ transactions s' = transactions s).
Proof.
  split; [apply reject_not_found|]. split; [apply reject_processed|].
  intros w E Hst. rewrite (reject_pending _ _ _ _ w) by done.
  eexists _, _. split; [reflexivity|]. by db_simpl.
Qed.

Lemma withdrawal_reject_spec_witness :
  withdrawalDb.reject 5000 2 "" sample_db
    = (sample_db, inl (Error "Can only reject pending withdrawals"))
  ∧ ∃ s' w',
      withdrawalDb.reject 5000 3 "No KYC" sample_db = (s', inr tt)
      ∧ withdrawals s' = <[3 := w']> (withdrawals sample_db)
      ∧ Withdrawal.status_ w' = rejected
      ∧ Withdrawal.process_date w' = Some 5000
      ∧ Withdrawal.admin_notes w' = "No KYC"
      ∧ Withdrawal.user_id w' = 3
      ∧ Withdrawal.amount w' = 50
      ∧ users s' = users sample_db
      ∧ transactions s' = transactions sample_db.
Proof.
  destruct (withdrawal_reject_spec sample_db 5000 2 "") as (_ & Hdone & _).
  destruct (withdrawal_reject_spec sample_db 5000 3 "No KYC") as (_ & _ & Hpend).
  split.
  - apply (Hdone (Withdrawal.mk 1 50 "upi" "old@upi" approved 1500 (Some 1600)
                                "Approved by admin")); [reflexivity|discriminate].
  - apply (Hpend (Withdrawal.mk 3 50 "upi" "meena@upi" pending 3100 None ""));
      reflexivity.
Defined.

(** A call of approve or reject that returns found the row pending and left
    it with the new status. *)
Lemma approve_returns_inv (s s' : Db) (now withdrawalId : Z) (adminNotes : string) :
  withdrawalDb.approve now withdrawalId adminNotes s = (s', inr tt) →
  ∃ w', withdrawals s' !! withdrawalId = Some w'
        ∧ Withdrawal.status_ w' = approved.
Proof.
  intros H.
  destruct (withdrawals s !! withdrawalId) as [w|] eqn:E;
    [|by rewrite approve_not_found in H].
  destruct (decide (Withdrawal.status_ w = pending)) as [Hst|Hst];
    [|by rewrite (approve_processed _ _ _ _ w) in H].
  destruct (users s !! Withdrawal.user_id w) as [u|] eqn:Hu.
  - rewrite (approve_pending _ _ _ _ w u) in H by done.
    injection H as <-.
    exists (withdrawalDb.process approved now
              (or_default adminNotes "Approved by admin") w).
    split; [|reflexivity].
    unfold approved_state. destruct (truthy _); db_simpl; apply lookup_insert_eq.
  - exfalso. revert H.
    unfold withdrawalDb.approve, bind, query. rewrite E.
    rewrite bool_decide_eq_true_2 by done. cbn [negb]. cbv beta iota.
    unfold withdrawalDb.update_pending. rewrite E.
    rewrite bool_decide_eq_true_2 by done.
    change (1 =? 0) with false. cbv beta iota.
    rewrite updateBalance_eq.
    rewrite (user_exists_frame _ s) by done.
    by rewrite (user_exists_false _ _ Hu).
Qed.

Lemma reject_returns_inv (s s' : Db) (now withdrawalId : Z) (adminNotes : string) :
  withdrawalDb.reject now withdrawalId adminNotes s = (s', inr tt) →
  ∃ w', withdrawals s' !! withdrawalId = Some w'
        ∧ Withdrawal.status_ w' = rejected.
Proof.
  intros H.
  destruct (withdrawals s !! withdrawalId) as [w|] eqn:E;
    [|by rewrite reject_not_found in H].
  destruct (decide (Withdrawal.status_ w = pending)) as [Hst|Hst];
    [|by rewrite (reject_processed _ _ _ _ w) in H].
  rewrite (reject_pending _ _ _ _ w) in H by done. injection H as <-.
  eexists. split; [apply lookup_insert_eq|done].
Qed.

(** ** Pending totals *)









(** ** The ban sweep *)

Lemma lift_balance (now : Z) (u : User.t) :
  User.balance (if userDb.ban_expired now u
                then User.set_ban 0 "" "permanent" None u else u)
    = User.balance u.
Proof. by destruct (userDb.ban_expired now u). Qed.

Lemma sweep_balance_of (now k : Z) (s : Db) :
  balance_of k (userDb.checkAndLiftExpiredBans now s).1 = balance_of k s.
Proof.
  unfold balance_of, userDb.checkAndLiftExpiredBans, exec. cbn [fst]. db_simpl.
  rewrite lookup_fmap. destruct (users s !! k) as [u|]; [|done].
  cbn. by rewrite lift_balance.
Qed.


(** ** Withdrawal requests never earmark more than the balance *)






Lemma lift_not_expired (now : Z) (u : User.t) :
  userDb.ban_expired now
    (if userDb.ban_expired now u then User.set_ban 0 "" "permanent" None u else u)
    = false.
Proof. by destruct (userDb.ban_expired now u) eqn:E. Qed.

Lemma lift_absorb (now now' : Z) (u : User.t) :
  now ≤ now' →
  (let u1 := if userDb.ban_expired now u
             then User.set_ban 0 "" "permanent" None u else u in
   if userDb.ban_expired now' u1
   then User.set_ban 0 "" "permanent" None u1 else u1)
  = (if userDb.ban_expired now' u
     then User.set_ban 0 "" "permanent" None u else u).
Proof.
  intros Hle. cbv zeta.
  destruct (userDb.ban_expired now u) eqn:E; [|done].
  assert (userDb.ban_expired now' u = true) as ->.
  { unfold userDb.ban_expired in *.
    destruct (User.banned u =? 1); [|done].
    destruct (String.eqb (User.ban_type u) "temporary"); [|done].
    destruct (User.ban_expiry_date u) as [d|]; [|done].
    cbn [andb] in *. apply Z.leb_le in E. apply Z.leb_le. lia. }
  done.
Qed.

(** X5. The ban sweep leaves no expired temporary ban behind, changes no row
    other than those, and moves no balance; running it again, at the same or
    a later clock reading, gives what a single run at the later reading
    gives. *)
Theorem sweep_lifts_expired_bans (now : Z) (s : Db) :
  let s' := (userDb.checkAndLiftExpiredBans now s).1 in
  (∀ k u', users s' !! k = Some u' → userDb.ban_expired now u' = false)
  ∧ (∀ k u, users s !! k = Some u → userDb.ban_expired now u = false →
            users s' !! k = Some u)
  ∧ (∀ k u, users s !! k = Some u → userDb.ban_expired now u = true →
            ∃ u', users s' !! k = Some u' ∧ User.banned u' = 0
                  ∧ User.ban_expiry_date u' = None)
  ∧ (∀ k, balance_of k s' = balance_of k s)
  ∧ (∀ now', now ≤ now' →
       (userDb.checkAndLiftExpiredBans now' s').1
         = (userDb.checkAndLiftExpiredBans now' s).1).
Proof.
  cbv zeta. unfold userDb.checkAndLiftExpiredBans, exec. cbn [fst]. db_simpl.
  split; [|split; [|split; [|split]]].
  - intros k u' Hk. rewrite lookup_fmap in Hk.
    destruct (users s !! k) as [u|]; [|done].
    injection Hk as <-. apply lift_not_expired.
  - intros k u Hk Hno. by rewrite lookup_fmap, Hk; cbn; rewrite Hno.
  - intros k u Hk Hyes. rewrite lookup_fmap, Hk. cbn. rewrite Hyes.
    by eexists.
  - intros k. apply (sweep_balance_of now k s).
  - intros now' Hle. unfold with_users. db_simpl. f_equal.
    rewrite <- map_fmap_compose. apply map_fmap_ext.
    intros k u _. by apply lift_absorb.
Qed.

Lemma sweep_lifts_expired_bans_witness :
  (∃ u', users (userDb.checkAndLiftExpiredBans 604800000 sample_db_banned).1 !! 2
           = Some u'
         ∧ User.banned u' = 0 ∧ User.ban_expiry_date u' = None)
  ∧ users (userDb.checkAndLiftExpiredBans 604800000 sample_db_banned).1 !! 3
    = users sample_db_banned !! 3
  ∧ (userDb.checkAndLiftExpiredBans 700000000
       (userDb.checkAndLiftExpiredBans 604800000 sample_db_banned).1).1
    = (userDb.checkAndLiftExpiredBans 700000000 sample_db_banned).1.
Proof.
  destruct (sweep_lifts_expired_bans 604800000 sample_db_banned)
    as (_ & Hkeep & Hlift & _ & Habsorb).
  split; [|split].
  - apply (Hlift 2 (User.set_ban 1 "spam" "temporary" (Some 604800000)
                      (sample_referred "ravi" 1))); reflexivity.
  - rewrite (Hkeep 3 (User.set_ban 1 "fraud" "permanent" None
                        (sample_user "meena" 80))); reflexivity.
  - apply Habsorb. lia.
Defined.

(** ** The Telegram reward *)

(** X6. Verifying the Telegram join of a user who has not been rewarded credits
    5 with one telegram_join record and marks the reward claimed; verifying
    the same user again is refused and changes nothing. *)
Theorem telegram_reward_once (s : Db) (userId : Z) (u : User.t) :
  users s !! userId = Some u →
  User.telegram_reward_claimed u = 0 →
  ∃ s' u',
    admin_verify_telegram userId s = (s', Ok "Telegram join verified and ₹5 added!")
    ∧ users s' !! userId = Some u'
    ∧ User.balance u' = User.balance u + 5
    ∧ User.telegram_joined u' = 1
    ∧ User.telegram_reward_claimed u' = 1
    ∧ (∀ k, k ≠ userId → users s' !! k = users s !! k)
    ∧ transactions s'
        = transactions s
          ++ [Transaction.mk userId telegram_join 5 "Telegram join reward"]
    ∧ admin_verify_telegram userId s' = (s', Fail "Reward already claimed").
Proof.
  intros Hu Hclaimed.
  unfold admin_verify_telegram at 1. unfold userDb.findById. rewrite Hu.
  unfold truthy. rewrite Hclaimed. cbn [Z.eqb negb].
  unfold try_catch, bind at 1.
  rewrite (updateBalance_ok _ _ _ _ _ u Hu).
  unfold userDb.setTelegramJoined, exec.
  eexists _, _. split; [reflexivity|]. db_simpl.
  rewrite !lookup_alter_eq, Hu.
  split; [reflexivity|]. repeat split; try done.
  - intros k Hk. by rewrite !lookup_alter_ne.
  - unfold admin_verify_telegram, userDb.findById. db_simpl.
    by rewrite !lookup_alter_eq, Hu.
Qed.

Lemma telegram_reward_once_witness :
  ∃ s' u',
    admin_verify_telegram 2 sample_db = (s', Ok "Telegram join verified and ₹5 added!")
    ∧ users s' !! 2 = Some u'
    ∧ User.balance u' = 0 + 5
    ∧ User.telegram_joined u' = 1
    ∧ User.telegram_reward_claimed u' = 1
    ∧ (∀ k, k ≠ 2 → users s' !! k = users sample_db !! k)
    ∧ transactions s'
        = transactions sample_db
          ++ [Transaction.mk 2 telegram_join 5 "Telegram join reward"]
    ∧ admin_verify_telegram 2 s' = (s', Fail "Reward already claimed").
Proof.
  apply (telegram_reward_once sample_db 2 (sample_referred "ravi" 1)); reflexivity.
Defined.

(** ** userDb.addBulkBonus *)

Lemma insert_id_perm (k : Z) (l : list Z) : userDb.insert_id k l ≡ₚ k :: l.
Proof.
  induction l as [|x l IH]; [done|]. cbn [userDb.insert_id].
  destruct (k <=? x); [done|]. rewrite IH. apply Permutation_swap.
Qed.

Lemma by_rowid_perm (l : list Z) : userDb.by_rowid l ≡ₚ l.
Proof.
  induction l as [|x l IH]; [done|]. cbn [userDb.by_rowid foldr].
  rewrite insert_id_perm. by apply Permutation_skip.
Qed.

Lemma unbanned_ids_spec (s : Db) :
  NoDup (userDb.unbanned_ids s)
  ∧ ∀ k, k ∈ userDb.unbanned_ids s ↔
         ∃ u, users s !! k = Some u ∧ User.banned u = 0.
Proof.
  unfold userDb.unbanned_ids. split.
  - rewrite by_rowid_perm. apply NoDup_fmap_fst.
    + intros k u1 u2 [_ H1]%list_elem_of_filter [_ H2]%list_elem_of_filter.
      rewrite elem_of_map_to_list in H1, H2. congruence.
    + apply NoDup_filter, NoDup_map_to_list.
  - intros k. rewrite by_rowid_perm, list_elem_of_fmap. split.
    + intros ([k' u] & -> & Hin). apply list_elem_of_filter in Hin as [Hb Hin].
      apply elem_of_map_to_list in Hin. by exists u.
    + intros (u & Hu & Hb). exists (k, u). split; [done|].
      apply list_elem_of_filter. split; [done|]. by apply elem_of_map_to_list.
Qed.

Lemma bulk_loop_spec (amount : Z) (reason : string) (ids : list Z) :
  ∀ s : Db,
    NoDup ids →
    (∀ id, id ∈ ids → is_Some (users s !! id)) →
    ∃ s', userDb.bulk_loop ids amount reason s = (s', inr tt)
          ∧ (∀ k, users s' !! k
                  = if decide (k ∈ ids)
                    then User.add_balance amount <$> users s !! k
                    else users s !! k)
          ∧ transactions s'
              = transactions s
                ++ ((λ id, Transaction.mk id admin_credit (Z.abs amount) reason)
                      <$> ids).
Proof.
  induction ids as [|id ids IH]; intros s Hnd Hex.
  - exists s. split; [done|]. split; [|by rewrite app_nil_r].
    intros k. rewrite decide_False; [done|]. by intros ?%elem_of_nil.
  - apply NoDup_cons in Hnd as [Hnotin Hnd].
    cbn [userDb.bulk_loop]. unfold bind at 1. unfold exec at 1.
    unfold bind at 1. unfold userDb.insert_transaction at 1.
    cbn [Transaction.user_id]. rewrite user_exists_alter.
    destruct (Hex id) as [u Hu]; [by left|].
    rewrite (user_exists_true _ _ _ Hu).
    destruct (IH (with_transactions
                    (λ l, l ++ [Transaction.mk id admin_credit (Z.abs amount) reason])
                    (with_users (alter (User.add_balance amount) id) s)) Hnd)
      as (s' & Hrun & Husers & Htxns).
    { intros id' Hin. db_simpl. apply lookup_alter_is_Some, Hex. by right. }
    exists s'. split; [exact Hrun|]. split.
    + intros k. rewrite Husers. db_simpl.
      destruct (decide (k = id)) as [->|Hne].
      * rewrite (decide_False (P := id ∈ ids)) by done.
        rewrite decide_True by by left. apply lookup_alter_eq.
      * rewrite lookup_alter_ne by done.
        destruct (decide (k ∈ ids)) as [Hin|Hin].
        -- by rewrite decide_True by by right.
        -- rewrite decide_False; [done|].
           intros [?|?]%elem_of_cons; done.
    + rewrite Htxns. db_simpl. by rewrite <- app_assoc.
Qed.

(** X7. A bulk bonus adds the amount to the balance of every user who is not
    banned and to nobody else, appends one admin_credit record of the
    magnitude for each of them, and returns their number. *)
Theorem bulk_bonus_spec (s : Db) (amount : Z) (reason : string) :
  ∃ s' ids,
    userDb.addBulkBonus amount reason s = (s', inr (length ids))
    ∧ NoDup ids
    ∧ (∀ k, k ∈ ids ↔ ∃ u, users s !! k = Some u ∧ User.banned u = 0)
    ∧ (∀ k u, users s !! k = Some u →
              users s' !! k
                = Some (if decide (User.banned u = 0)
                        then User.add_balance amount u else u))
    ∧ transactions s'
        = transactions s
          ++ ((λ id, Transaction.mk id admin_credit (Z.abs amount) reason) <$> ids).
Proof.
  destruct (unbanned_ids_spec s) as [Hnd Hids].
  destruct (bulk_loop_spec amount reason (userDb.unbanned_ids s) s Hnd)
    as (s' & Hrun & Husers & Htxns).
  { intros id Hin. apply Hids in Hin as (u & -> & _). by eexists. }
  exists s', (userDb.unbanned_ids s).
  split; [|split; [done|split; [done|split; [|done]]]].
  - unfold userDb.addBulkBonus, bind. by rewrite Hrun.
  - intros k u Hu. rewrite Husers, Hu.
    destruct (decide (User.banned u = 0)) as [Hb|Hb].
    + rewrite decide_True; [done|]. apply Hids. by exists u.
    + rewrite decide_False; [done|].
      intros (u' & Hu' & Hb')%Hids. congruence.
Qed.

(** ** POST /api/tasks/submit *)




(** ** Completed tasks and the available list *)

Lemma after_complete_completed (a : task_approval) (s : Db) (p : Z * Z) :
  p ∈ completed_tasks s → p ∈ completed_tasks (after_complete a s).
Proof.
  intros Hp. unfold after_complete.
  destruct (bool_decide _); [done|]. destruct (_ && _); [|done].
  db_simpl. apply elem_of_app. by left.
Qed.

Lemma after_complete_done (a : task_approval) (s : Db) :
  completes a s = true →
  (ta_userId a, ta_taskId a) ∈ completed_tasks (after_complete a s).
Proof.
  unfold completes, after_complete. intros Hc.
  destruct (bool_decide _) eqn:Hin; [by apply bool_decide_eq_true in Hin|].
  cbn [orb] in Hc. rewrite Hc. db_simpl.
  apply elem_of_app. right. by left.
Qed.

Lemma approve_task_completed (a : task_approval) (s : Db) :
  completed_tasks (approve_task a s) = completed_tasks (after_complete a s).
Proof.
  rewrite approve_task_eq.
  destruct (completes a s); cbn [negb]; [|done].
  destruct (user_exists (ta_userId a) s); cbn [negb]; [|done].
  destruct (pendingTaskDb.first_task_referrer _ _) as [r|]; [|done].
  by destruct (user_exists r s).
Qed.

(** An approval that reports success got past the completed_tasks insert. *)
Lemma approve_ok_completes (a : task_approval) (s : Db) (m : string) :
  (admin_pending_approve (ta_now a) (ta_pendingId a) (ta_userId a)
                         (ta_taskId a) (ta_price a) s).2 = Ok m →
  completes a s = true.
Proof.
  unfold admin_pending_approve, try_catch, pendingTaskDb.approve.
  unfold bind at 1. unfold exec at 1.
  unfold bind at 1. unfold pendingTaskDb.insert_completed, completes.
  rewrite !(user_exists_frame _ s (with_pending_tasks _ s)) by done.
  unfold task_exists. db_simpl.
  destruct (bool_decide ((ta_userId a, ta_taskId a) ∈ completed_tasks s));
    [done|].
  by destruct (user_exists (ta_userId a) s && _).
Qed.

Lemma task_admin_step_completed (s : Db) (c : task_admin_call) (p : Z * Z) :
  p ∈ completed_tasks s → p ∈ completed_tasks (task_admin_step s c).
Proof.
  intros Hp. destruct c as [a|taskId enabled]; cbn [task_admin_step]; [|done].
  rewrite approve_task_completed. by apply after_complete_completed.
Qed.

(** X9. Once an approval for (user, task) has reported success, the task is off
    the user's available list, and it stays off through any later approvals
    and any enabling or disabling of tasks. *)
Theorem approved_task_never_available (a : task_approval) (s : Db) (m : string)
    (calls : list task_admin_call) :
  (admin_pending_approve (ta_now a) (ta_pendingId a) (ta_userId a)
                         (ta_taskId a) (ta_price a) s).2 = Ok m →
  taskDb.getAvailableForUser (ta_userId a)
    (foldl task_admin_step (approve_task a s) calls) !! ta_taskId a = None.
Proof.
  intros Hok. apply approve_ok_completes in Hok.
  assert ((ta_userId a, ta_taskId a) ∈ completed_tasks (approve_task a s)) as Hin
    by (rewrite approve_task_completed; by apply after_complete_done).
  revert Hin. generalize (approve_task a s). clear Hok s.
  induction calls as [|c calls IH]; intros s Hin; cbn [foldl].
  - unfold taskDb.getAvailableForUser. apply map_lookup_filter_None.
    right. intros t _ [_ Hnot]. by apply Hnot.
  - apply IH. by apply task_admin_step_completed.
Qed.

Lemma approved_task_never_available_witness :
  taskDb.getAvailableForUser 2 sample_db !! 1 = Some (Task.mk "Install app" 20 1)
  ∧ taskDb.getAvailableForUser 2
      (foldl task_admin_step (approve_task sample_approval sample_db)
             [Toggle 1 false; Toggle 1 true; Approve sample_approval]) !! 1
    = None.
Proof.
  split; [vm_compute; reflexivity|].
  apply (approved_task_never_available sample_approval sample_db
           "Task approved and payment credited!").
  vm_compute. reflexivity.
Defined.

(** ** Check-in status, cooldown and cycle *)

(** The claim route for an existing user, by its two outcomes. *)
Lemma checkin_claim_eq (s : Db) (now tzOffset : Z) (random : Q) (userId : Z)
    (user : User.t) :
  users s !! userId = Some user →
  checkin_claim now tzOffset random userId user s =
    let st := checkin_status_route now tzOffset userId s in
    let amount := Qfloor (double_mul random 10) + 1 in
    if canClaim st
    then (with_transactions
            (λ l, l ++ [Transaction.mk userId daily_checkin (Z.abs amount)
                          ("Day " +:+ pretty (nextDay st) +:+ " daily check-in")])
            (with_users (alter (User.add_balance amount) userId)
               (with_checkins
                  (λ l, l ++ [Checkin.mk userId (nextDay st) amount (now / 1000)])
                  s)),
          OkCheckin ("Congratulations! You earned ₹" +:+ pretty amount +:+ " 🎉")
                    amount (nextDay st))
    else (s, Fail "You can claim again after 24 hours!").
Proof.
  intros Hu. unfold checkin_claim, checkin_status_route. cbv zeta.
  destruct (checkinDb.getLastCheckin userId s) as [c|]; cbn [canClaim nextDay].
  - destruct (Qle_bool 24 (hoursDiff now _)); cbn [negb]; [|done].
    unfold try_catch, checkinDb.claim, bind, checkinDb.insert_checkin.
    cbn [Checkin.user_id]. rewrite (user_exists_true _ _ _ Hu).
    by rewrite (updateBalance_ok _ _ _ _ _ user) by done.
  - unfold try_catch, checkinDb.claim, bind, checkinDb.insert_checkin.
    cbn [Checkin.user_id]. rewrite (user_exists_true _ _ _ Hu).
    by rewrite (updateBalance_ok _ _ _ _ _ user) by done.
Qed.

(** X10. The status route and the claim route agree: at the same clock
    reading, and in the same zone, a claim goes through exactly when the
    status says canClaim, and it records the day the status announces as
    nextDay. *)
Theorem checkin_status_agrees_with_claim (s : Db) (now tzOffset : Z) (random : Q)
    (userId : Z) (user : User.t) :
  users s !! userId = Some user →
  let st := checkin_status_route now tzOffset userId s in
  (canClaim st = true →
     ∃ s' message amount,
       checkin_claim now tzOffset random userId user s
         = (s', OkCheckin message amount (nextDay st))
       ∧ checkinDb.getLastCheckin userId s = lastCheckin st
       ∧ checkins s'
           = checkins s ++ [Checkin.mk userId (nextDay st) amount (now / 1000)])
  ∧ (canClaim st = false →
       checkin_claim now tzOffset random userId user s
         = (s, Fail "You can claim again after 24 hours!")).
Proof.
  intros Hu st. rewrite (checkin_claim_eq _ _ _ _ _ _ Hu). cbv zeta. fold st.
  split; intros ->; [|done].
  eexists _, _, _. split; [reflexivity|]. split; [|done].
  subst st. unfold checkin_status_route.
  by destruct (checkinDb.getLastCheckin userId s).
Qed.

Lemma checkin_status_agrees_with_claim_witness :
  (∃ s' message amount,
     checkin_claim 87401000 0 (1 # 2) 3 (sample_user "meena" 80) sample_db_day7
       = (s', OkCheckin message amount 1)
     ∧ checkins s' = checkins sample_db_day7 ++ [Checkin.mk 3 1 amount 87401])
  ∧ checkin_claim 5000000 0 (1 # 2) 3 (sample_user "meena" 80) sample_db_day7
    = (sample_db_day7, Fail "You can claim again after 24 hours!").
Proof.
  split.
  - destruct (checkin_status_agrees_with_claim sample_db_day7 87401000 0 (1 # 2) 3
                (sample_user "meena" 80)) as [Hcan _]; [reflexivity|].
    destruct Hcan as (s' & message & amount & Hrun & _ & Hrows);
      [vm_compute; reflexivity|].
    exists s', message, amount. split; [exact Hrun|exact Hrows].
  - destruct (checkin_status_agrees_with_claim sample_db_day7 5000000 0 (1 # 2) 3
                (sample_user "meena" 80)) as [_ Hcannot]; [reflexivity|].
    apply Hcannot. vm_compute. reflexivity.
Defined.


Lemma canClaim_spec (now tzOffset userId : Z) (s : Db) :
  canClaim (checkin_status_route now tzOffset userId s) = true ↔
  match checkinDb.getLastCheckin userId s with
  | Some c => 86400000 ≤ now - parse_local tzOffset (Checkin.claimed_at c)
  | None => True
  end.
Proof.
  unfold checkin_status_route.
  destruct (checkinDb.getLastCheckin userId s) as [c|]; cbn [canClaim]; [|done].
  apply hoursDiff_24.
Qed.



(** X20. For a check-in claim of an existing user, with Math.random() a
    Number in [0, 1): the last check-in is a row of the user with the latest
    stored time (none when the user has no row).  With no last check-in the
    claim succeeds with day 1.  Otherwise the stored time of the last
    check-in is read back as local time: when the clock is at least 24 hours
    past it the claim succeeds, with day lastDay + 1 when lastDay < 7 and
    day 1 otherwise; when the clock is less than 24 hours past it the claim
    fails with the too-soon message and changes nothing.  A successful claim
    grants Math.floor(random * 10) + 1, the product rounded as binary64
    rounds it, which lies in 1..10; it appends one check-in record holding
    the clock reading in whole seconds, credits the amount and appends one
    ledger record of category daily_checkin. *)
Theorem checkin_claim_spec (s : Db) (now tzOffset : Z) (random : Q) (userId : Z)
    (user : User.t) :
  users s !! userId = Some user →
  is_double random → (0 <= random)%Q → (random < 1)%Q →
  let last := checkinDb.getLastCheckin userId s in
  let amount := Qfloor (double_mul random 10) + 1 in
  let nextDay :=
    match last with
    | None => 1
    | Some c => if Checkin.day c <? 7 then Checkin.day c + 1 else 1
    end in
  let result := checkin_claim now tzOffset random userId user s in
  1 ≤ amount ≤ 10
  ∧ match last with
    | None => ∀ c, c ∈ checkins s → Checkin.user_id c ≠ userId
    | Some c =>
        c ∈ checkins s ∧ Checkin.user_id c = userId
        ∧ ∀ c', c' ∈ checkins s → Checkin.user_id c' = userId →
                Checkin.claimed_at c' ≤ Checkin.claimed_at c
    end
  ∧ (∀ c, last = Some c →
       now - (Checkin.claimed_at c * 1000 - tzOffset) < 86400000 →
       result = (s, Fail "You can claim again after 24 hours!"))
  ∧ ((last = None
      ∨ ∃ c, last = Some c
             ∧ 86400000 ≤ now - (Checkin.claimed_at c * 1000 - tzOffset)) →
       ∃ s' message,
         result = (s', OkCheckin message amount nextDay)
         ∧ checkins s'
             = checkins s ++ [Checkin.mk userId nextDay amount (now / 1000)]
         ∧ balance_of userId s' = Some (User.balance user + amount)
         ∧ (∀ k, k ≠ userId → users s' !! k = users s !! k)
         ∧ transactions s'
             = transactions s
               ++ [Transaction.mk userId daily_checkin amount
                     ("Day " +:+ pretty nextDay +:+ " daily check-in")]).
Proof.
  intros Hu Hd H0 H1 last amount day' result.
  pose proof (checkin_amount_range random Hd H0 H1) as Hamount.
  fold amount in Hamount.
  split; [exact Hamount|].
  split; [apply getLastCheckin_spec|].
  subst result. rewrite (checkin_claim_eq _ _ _ _ _ _ Hu). cbv zeta.
  fold amount.
  split.
  - intros c Hc Hsoon.
    destruct (canClaim (checkin_status_route now tzOffset userId s)) eqn:Hcan;
      [|done].
    apply canClaim_spec in Hcan. fold last in Hcan. rewrite Hc in Hcan.
    unfold parse_local in Hcan. lia.
  - intros Hok.
    assert (canClaim (checkin_status_route now tzOffset userId s) = true) as ->.
    { apply canClaim_spec. fold last.
      destruct Hok as [->|(c & -> & Hold)]; [done|]. exact Hold. }
    assert (nextDay (checkin_status_route now tzOffset userId s) = day') as ->.
    { unfold checkin_status_route. fold last. subst day'.
      destruct last as [c|]; cbn [nextDay]; [|done].
      destruct (Z.leb_spec 7 (Checkin.day c)), (Z.ltb_spec (Checkin.day c) 7);
        done || lia. }
    eexists _, _. split; [reflexivity|]. unfold balance_of. db_simpl.
    rewrite lookup_alter_eq, Hu.
    assert (Z.abs amount = amount) as -> by lia.
    split; [done|]. split; [done|]. split; [|done].
    intros k Hk. by rewrite lookup_alter_ne.
Qed.

Lemma checkin_claim_spec_witness :
  (∃ s' message,
     checkin_claim 5000 0 (3 # 4) 3 (sample_user "meena" 80) sample_db
       = (s', OkCheckin message 8 1)
     ∧ checkins s' = [Checkin.mk 3 1 8 5]
     ∧ balance_of 3 s' = Some 88)
  ∧ (∃ s' message,
       checkin_claim 67600000 19800000 (1 # 4) 3 (sample_user "meena" 80)
                     sample_db_day7
         = (s', OkCheckin message 3 1))
  ∧ checkin_claim 67599999 19800000 (1 # 4) 3 (sample_user "meena" 80)
                  sample_db_day7
    = (sample_db_day7, Fail "You can claim again after 24 hours!").
Proof.
  split; [|split].
  - destruct (checkin_claim_spec sample_db 5000 0 (3 # 4) 3 (sample_user "meena" 80))
      as (_ & _ & _ & Hok);
      [reflexivity|vm_compute; reflexivity|discriminate|reflexivity|].
    destruct Hok as (s' & message & Hrun & Hrows & Hbal & _ & _);
      [left; reflexivity|].
    exists s', message. split; [exact Hrun|]. split; [exact Hrows|exact Hbal].
  - destruct (checkin_claim_spec sample_db_day7 67600000 19800000 (1 # 4) 3
                (sample_user "meena" 80))
      as (_ & _ & _ & Hok);
      [reflexivity|vm_compute; reflexivity|discriminate|reflexivity|].
    destruct Hok as (s' & message & Hrun & _);
      [right; exists (Checkin.mk 3 7 9 1000); split; [reflexivity|simpl; lia]|].
    exists s', message. exact Hrun.
  - destruct (checkin_claim_spec sample_db_day7 67599999 19800000 (1 # 4) 3
                (sample_user "meena" 80))
      as (_ & _ & Hsoon & _);
      [reflexivity|vm_compute; reflexivity|discriminate|reflexivity|].
    apply (Hsoon (Checkin.mk 3 7 9 1000)); [reflexivity|simpl; lia].
Defined.

(** ** generateReferralCode *)

Lemma toUpperCase_app (a b : string) :
  toUpperCase (a +:+ b) = toUpperCase a +:+ toUpperCase b.
Proof. induction a as [|c a IH]; [done|]. simpl. rewrite IH. reflexivity. Qed.

Lemma length_string_app (a b : string) :
  String.length (a +:+ b) = (String.length a + String.length b)%nat.
Proof. induction a as [|c a IH]; [done|]. simpl. rewrite IH. reflexivity. Qed.

Lemma over_chars_app (a b : string) :
  over_chars a → over_chars b → over_chars (a +:+ b).
Proof.
  induction a as [|c a IH]; [done|]. intros [? ?] ?.
  change (over_chars (String c (a +:+ b))). simpl. auto.
Qed.

Lemma charAt_chars (i : Z) :
  0 ≤ i < 32 →
  String.length (charAt chars i) = 1%nat
  ∧ toUpperCase (charAt chars i) = charAt chars i
  ∧ over_chars (charAt chars i).
Proof.
  intros Hi. unfold charAt. rewrite (proj2 (Z.ltb_ge _ _)) by lia.
  assert (Z.to_nat i < 32)%nat as Hn by lia.
  destruct (Z.to_nat i) as [|n]; [vm_compute; tauto|].
  do 31 (destruct n as [|n]; [vm_compute; tauto|]). lia.
Qed.

Lemma random_index (r : Q) :
  (0 <= r)%Q → (r < 1)%Q →
  0 ≤ Qfloor (r * inject_Z (Z.of_nat (String.length chars))) < 32.
Proof.
  intros H0 H1. change (inject_Z (Z.of_nat (String.length chars))) with (32 # 1)%Q.
  assert (0 <= r * (32 # 1))%Q as Ha
    by (apply Qmult_le_0_compat; [done|discriminate]).
  assert (r * (32 # 1) < 1 * (32 # 1))%Q as Hb
    by (apply Qmult_lt_compat_r; [reflexivity|done]).
  apply Qfloor_resp_le in Ha. change (Qfloor 0) with 0 in Ha.
  pose proof (Qfloor_le (r * (32 # 1))) as Hc.
  assert (inject_Z (Qfloor (r * (32 # 1))) < inject_Z 32)%Q as Hd
    by (eapply Qle_lt_trans; [exact Hc|exact Hb]).
  rewrite <- Zlt_Qlt in Hd. lia.
Qed.

Lemma generate_loop_spec (rand : nat → Q) (n : nat) :
  (∀ j, (0 <= rand j)%Q ∧ (rand j < 1)%Q) →
  ∀ j code,
    toUpperCase code = code → over_chars code →
    String.length (generate_loop rand j n code) = (String.length code + n)%nat
    ∧ toUpperCase (generate_loop rand j n code) = generate_loop rand j n code
    ∧ over_chars (generate_loop rand j n code).
Proof.
  intros Hrand. induction n as [|n IH]; intros j code Hup Hover;
    cbn [generate_loop].
  - split; [lia|done].
  - destruct (Hrand j) as [H0 H1].
    destruct (charAt_chars _ (random_index _ H0 H1)) as (Hlen & Hupc & Hoverc).
    destruct (IH (S j) (code +:+ charAt chars
                (Qfloor (rand j * inject_Z (Z.of_nat (String.length chars))))))
      as (IHlen & IHup & IHover).
    + by rewrite toUpperCase_app, Hup, Hupc.
    + by apply over_chars_app.
    + rewrite IHlen, length_string_app, Hlen. split; [lia|done].
Qed.

(** X13. With Math.random() in [0, 1), a generated referral code has 8
    characters, all of them from the 32-character alphabet, and is left as
    it is by toUpperCase, so that the upper-cased lookup of the signup route
    finds it. *)
Theorem generateReferralCode_spec (rand : nat → Q) :
  (∀ j, (0 <= rand j)%Q ∧ (rand j < 1)%Q) →
  String.length (generateReferralCode rand) = 8%nat
  ∧ over_chars (generateReferralCode rand)
  ∧ toUpperCase (generateReferralCode rand) = generateReferralCode rand.
Proof.
  intros Hrand.
  destruct (generate_loop_spec rand 8 Hrand 0%nat "" eq_refl I) as (H1 & H2 & H3).
  done.
Qed.

Lemma sample_random_range (j : nat) :
  (0 <= sample_random j)%Q ∧ (sample_random j < 1)%Q.
Proof.
  unfold sample_random, Qle, Qlt. cbn [Qnum Qden].
  pose proof (Nat.mod_upper_bound j 8). lia.
Defined.

Lemma generateReferralCode_spec_witness :
  String.length (generateReferralCode sample_random) = 8%nat
  ∧ over_chars (generateReferralCode sample_random)
  ∧ toUpperCase (generateReferralCode sample_random)
    = generateReferralCode sample_random.
Proof. apply generateReferralCode_spec, sample_random_range. Defined.

(** ** cleanupOldNotifications *)

(** X14. After the cleanup every user still has a list, of at most 50 entries:
    the last 50 of the old list when that was longer, the old list itself
    otherwise.  Cleaning up again changes nothing. *)
Theorem cleanupOldNotifications_spec {N} (store : gmap Z (list N)) :
  (∀ k, store !! k = None → cleanupOldNotifications store !! k = None)
  ∧ (∀ k l, store !! k = Some l →
       ∃ l', cleanupOldNotifications store !! k = Some l'
             ∧ length l' = (length l `min` 50)%nat
             ∧ l' `suffix_of` l
             ∧ ((length l ≤ 50)%nat → l' = l))
  ∧ cleanupOldNotifications (cleanupOldNotifications store)
    = cleanupOldNotifications store.
Proof.
  unfold cleanupOldNotifications. split; [|split].
  - intros k Hk. by rewrite lookup_fmap, Hk.
  - intros k l Hk. rewrite lookup_fmap, Hk. cbn [fmap option_fmap option_map].
    eexists. split; [reflexivity|]. cbv beta.
    destruct (Nat.ltb_spec 50 (length l)) as [Hlong|Hshort].
    + split; [rewrite length_drop; lia|]. split; [apply suffix_drop|lia].
    + split; [lia|]. split; [done|done].
  - rewrite <- map_fmap_compose. apply map_fmap_ext. intros k l _.
    unfold compose.
    destruct (Nat.ltb_spec 50 (length l)) as [Hlong|Hshort].
    + rewrite length_drop.
      destruct (Nat.ltb_spec 50 (length l - (length l - 50))); [lia|done].
    + destruct (Nat.ltb_spec 50 (length l)); [lia|done].
Qed.

Lemma cleanupOldNotifications_spec_witness :
  ∃ l', cleanupOldNotifications ({[ 1 := seq 0 60; 2 := [7; 8]%nat ]} : gmap Z (list nat)) !! 1
          = Some l'
        ∧ length l' = (length (seq 0 60) `min` 50)%nat
        ∧ l' `suffix_of` seq 0 60
        ∧ ((length (seq 0 60) ≤ 50)%nat → l' = seq 0 60).
Proof.
  destruct (cleanupOldNotifications_spec
              ({[ 1 := seq 0 60; 2 := [7; 8]%nat ]} : gmap Z (list nat)))
    as (_ & Hsome & _).
  apply Hsome. reflexivity.
Defined.

(** ** What the task approval route answers *)

Lemma approve_rest_reply (a : task_approval) (s1 : Db) :
  ((userDb.updateBalance (ta_userId a) (ta_price a) task_reward
      "Task completed and approved" ;;;
    let* referrer := query (pendingTaskDb.first_task_referrer (ta_userId a)) in
    match referrer with
    | Some referrer_id =>
        exec (with_users (alter (User.set_first_task_completed 1) (ta_userId a))) ;;;
        userDb.updateBalance referrer_id 15 referral
          "Referral bonus (first task completed by referred user)" ;;;
        exec (with_referrals
                (map (pendingTaskDb.add_reward 15 referrer_id (ta_userId a))))
    | None => ret tt
    end) s1).2 =
  if user_exists (ta_userId a) s1
     && match pendingTaskDb.first_task_referrer (ta_userId a) s1 with
        | Some r => user_exists r s1
        | None => true
        end
  then inr tt else inl (SqliteError FOREIGN_KEY).
Proof.
  unfold bind at 1. rewrite updateBalance_eq.
  destruct (user_exists (ta_userId a) s1) eqn:Hex; cbn [andb]; [|done].
  unfold bind at 1. unfold query.
  assert (pendingTaskDb.first_task_referrer (ta_userId a)
            (with_transactions
               (λ l, l ++ [Transaction.mk (ta_userId a) task_reward
                             (Z.abs (ta_price a)) "Task completed and approved"])
               (with_users (alter (User.add_balance (ta_price a)) (ta_userId a)) s1))
          = pendingTaskDb.first_task_referrer (ta_userId a) s1) as ->.
  { unfold pendingTaskDb.first_task_referrer. db_simpl.
    rewrite lookup_alter_eq. by destruct (users s1 !! ta_userId a). }
  destruct (pendingTaskDb.first_task_referrer _ s1) as [r|]; [|done].
  unfold bind at 1. unfold exec at 1.
  unfold bind at 1. rewrite updateBalance_eq.
  rewrite user_exists_alter.
  rewrite (user_exists_frame r (with_users (alter (User.add_balance (ta_price a))
                                             (ta_userId a)) s1)) by done.
  rewrite user_exists_alter.
  by destruct (user_exists r s1).
Qed.

(** The answer of the approval route: success when the completed_tasks
    insert, the reward and (if due) the referrer's bonus all go through, the
    foreign-key failure otherwise. *)
Lemma admin_pending_approve_reply (a : task_approval) (s : Db) :
  (admin_pending_approve (ta_now a) (ta_pendingId a) (ta_userId a)
                         (ta_taskId a) (ta_price a) s).2 =
  if completes a s && user_exists (ta_userId a) s
     && match pendingTaskDb.first_task_referrer (ta_userId a) s with
        | Some r => user_exists r s
        | None => true
        end
  then Ok "Task approved and payment credited!"
  else Fail "Approval failed: FOREIGN KEY constraint failed".
Proof.
  unfold admin_pending_approve, try_catch, pendingTaskDb.approve.
  unfold bind at 1. unfold exec at 1.
  unfold bind at 1. unfold pendingTaskDb.insert_completed.
  unfold completes.
  rewrite !(user_exists_frame _ s (with_pending_tasks _ s)) by done.
  unfold task_exists at 1 2. db_simpl. fold (task_exists (ta_taskId a) s).
  set (s0 := with_pending_tasks _ s).
  assert (∀ (m : M unit) (s1 : Db),
            (let (s', r) := m s1 in
             match r with
             | inl e => (s', Fail ("Approval failed: " +:+ error_message e))
             | inr _ => (s', Ok "Task approved and payment credited!")
             end).2
            = match (m s1).2 with
              | inl e => Fail ("Approval failed: " +:+ error_message e)
              | inr _ => Ok "Task approved and payment credited!"
              end) as Hsnd
    by (intros m s1; by destruct (m s1) as [? [?|?]]).
  assert (∀ s1, users s1 = users s →
            pendingTaskDb.first_task_referrer (ta_userId a) s1
            = pendingTaskDb.first_task_referrer (ta_userId a) s) as Hftr
    by (intros s1 E; unfold pendingTaskDb.first_task_referrer; by rewrite E).
  destruct (bool_decide ((ta_userId a, ta_taskId a) ∈ completed_tasks s)) eqn:Hdone;
    cbn [orb andb].
  - rewrite Hsnd, approve_rest_reply.
    rewrite (Hftr s0) by done.
    destruct (pendingTaskDb.first_task_referrer _ s) as [r|];
      rewrite !(user_exists_frame _ s s0) by done;
      by destruct (_ && _).
  - destruct (user_exists (ta_userId a) s && task_exists (ta_taskId a) s) eqn:Hfk;
      cbn [andb]; [|done].
    rewrite Hsnd, approve_rest_reply.
    rewrite (Hftr (with_completed_tasks _ s0)) by done.
    apply andb_true_iff in Hfk as [Hex _].
    destruct (pendingTaskDb.first_task_referrer _ s) as [r|];
      rewrite !(user_exists_frame _ s
                  (with_completed_tasks (λ l, l ++ [(ta_userId a, ta_taskId a)]) s0))
        by done;
      rewrite Hex; cbn [andb]; [by destruct (user_exists r s)|done].
Qed.

(** X15. An approval that names an unknown user or an unknown task, for a pair
    not completed yet, reports the foreign-key failure and pays nothing,
    but the submission is left marked approved with the review date: the
    status update is not undone. *)
Theorem failed_approval_marks_approved (s : Db) (a : task_approval)
    (p : PendingTask.t) :
  pending_tasks s !! ta_pendingId a = Some p →
  (ta_userId a, ta_taskId a) ∉ completed_tasks s →
  users s !! ta_userId a = None ∨ tasks s !! ta_taskId a = None →
  ∃ s' p',
    admin_pending_approve (ta_now a) (ta_pendingId a) (ta_userId a)
                          (ta_taskId a) (ta_price a) s
      = (s', Fail "Approval failed: FOREIGN KEY constraint failed")
    ∧ pending_tasks s' !! ta_pendingId a = Some p'
    ∧ PendingTask.status_ p' = approved
    ∧ PendingTask.reviewed_at p' = Some (ta_now a)
    ∧ users s' = users s
    ∧ transactions s' = transactions s
    ∧ completed_tasks s' = completed_tasks s
    ∧ referrals s' = referrals s.
Proof.
  intros Hp Hnew Hmissing.
  assert (completes a s = false) as Hc.
  { unfold completes. rewrite bool_decide_eq_false_2 by done. cbn [orb].
    destruct Hmissing as [Hu|Ht].
    - by rewrite (user_exists_false _ _ Hu).
    - unfold task_exists.
      rewrite (bool_decide_eq_false_2 (is_Some _)) by (rewrite Ht; by intros [? ?]).
      apply andb_false_r. }
  pose proof (admin_pending_approve_reply a s) as Hreply.
  pose proof (approve_task_eq a s) as Hstate.
  rewrite Hc in Hreply, Hstate. cbn [andb negb] in Hreply, Hstate.
  unfold approve_task in Hstate.
  destruct (admin_pending_approve _ _ _ _ _ s) as [s' r].
  cbn [fst snd] in Hreply, Hstate. subst s' r.
  eexists _, (pendingTaskDb.set_approved (ta_now a) p). split; [reflexivity|].
  unfold after_complete. rewrite bool_decide_eq_false_2 by done.
  assert (user_exists (ta_userId a) s && task_exists (ta_taskId a) s = false) as ->.
  { unfold completes in Hc. by rewrite bool_decide_eq_false_2 in Hc by done. }
  db_simpl. rewrite lookup_alter_eq, Hp. done.
Qed.

Lemma failed_approval_marks_approved_witness :
  ∃ s' p',
    admin_pending_approve 9000 1 2 5 20 sample_db
      = (s', Fail "Approval failed: FOREIGN KEY constraint failed")
    ∧ pending_tasks s' !! 1 = Some p'
    ∧ PendingTask.status_ p' = approved
    ∧ PendingTask.reviewed_at p' = Some 9000
    ∧ users s' = users sample_db
    ∧ transactions s' = transactions sample_db
    ∧ completed_tasks s' = completed_tasks sample_db
    ∧ referrals s' = referrals sample_db.
Proof.
  apply (failed_approval_marks_approved sample_db
           {| ta_now := 9000; ta_pendingId := 1; ta_userId := 2; ta_taskId := 5;
              ta_price := 20 |}
           (PendingTask.mk 2 1 pending "" 1000 None)).
  - reflexivity.
  - intros Hin. apply list_elem_of_singleton in Hin. discriminate.
  - right. reflexivity.
Defined.

(** X16. The approval route credits the user and the price that the request
    names: for a user without referrer and an existing task the call
    succeeds and adds exactly the requested price to that user's balance,
    with one task_reward record, whichever submission id it carries (even
    none that exists) and whatever the task's own price is. *)
Theorem approval_pays_requested_price (s : Db) (a : task_approval) (u : User.t) :
  users s !! ta_userId a = Some u →
  User.referrer_id u = None →
  is_Some (tasks s !! ta_taskId a) →
  ∃ s',
    admin_pending_approve (ta_now a) (ta_pendingId a) (ta_userId a)
                          (ta_taskId a) (ta_price a) s
      = (s', Ok "Task approved and payment credited!")
    ∧ balance_of (ta_userId a) s' = Some (User.balance u + ta_price a)
    ∧ (∀ k, k ≠ ta_userId a → users s' !! k = users s !! k)
    ∧ transactions s'
        = transactions s
          ++ [Transaction.mk (ta_userId a) task_reward (Z.abs (ta_price a))
                "Task completed and approved"]
    ∧ (ta_userId a, ta_taskId a) ∈ completed_tasks s'.
Proof.
  intros Hu Hnoref Htask.
  assert (user_exists (ta_userId a) s = true) as Hex by by eapply user_exists_true.
  assert (completes a s = true) as Hc.
  { unfold completes, task_exists. rewrite Hex.
    rewrite (bool_decide_eq_true_2 (is_Some _)) by done. apply orb_true_r. }
  assert (pendingTaskDb.first_task_referrer (ta_userId a) s = None) as Hnone
    by (unfold pendingTaskDb.first_task_referrer; by rewrite Hu, Hnoref).
  pose proof (admin_pending_approve_reply a s) as Hreply.
  pose proof (approve_task_eq a s) as Hstate.
  rewrite first_task_referrer_after_reward in Hstate.
  rewrite Hc, Hex, Hnone in Hreply, Hstate. cbn [andb negb] in Hreply, Hstate.
  unfold approve_task in Hstate.
  destruct (admin_pending_approve _ _ _ _ _ s) as [s' r].
  cbn [fst snd] in Hreply, Hstate. subst s' r.
  eexists. split; [reflexivity|].
  unfold balance_of, after_reward. db_simpl.
  rewrite after_complete_users, after_complete_transactions.
  rewrite lookup_alter_eq, Hu. split; [done|]. split; [|split; [done|]].
  - intros k Hk. by rewrite lookup_alter_ne.
  - by apply after_complete_done.
Qed.

Lemma approval_pays_requested_price_witness :
  ∃ s',
    admin_pending_approve 9000 77 3 1 5000 sample_db
      = (s', Ok "Task approved and payment credited!")
    ∧ balance_of 3 s' = Some (80 + 5000)
    ∧ (∀ k, k ≠ 3 → users s' !! k = users sample_db !! k)
    ∧ transactions s'
        = transactions sample_db
          ++ [Transaction.mk 3 task_reward (Z.abs 5000)
                "Task completed and approved"]
    ∧ (3, 1) ∈ completed_tasks s'.
Proof.
  apply (approval_pays_requested_price sample_db
           {| ta_now := 9000; ta_pendingId := 77; ta_userId := 3; ta_taskId := 1;
              ta_price := 5000 |}
           (sample_user "meena" 80)); [reflexivity|reflexivity|by eexists].
Defined.

(** ** Signup keeps emails and phone numbers unique *)

Lemma select_first_is_Some {V} (p : V → bool) (m : gmap Z V) (k : Z) (v : V) :
  m !! k = Some v → p v = true → is_Some (select_first p m).
Proof.
  intros Hk Hp. unfold select_first. apply head_is_Some.
  intros Hnil.
  assert ((k, v) ∈ filter (λ kv : Z * V, p kv.2 = true) (map_to_list m)) as Hin
    by (apply list_elem_of_filter; split; [done|by apply elem_of_map_to_list]).
  rewrite Hnil in Hin. by apply elem_of_nil in Hin.
Qed.

(** The referral block changes no email and no phone number. *)
Lemma apply_invite_identity (inviteCode : string) (newUserId : Z) (s : Db)
    (k : Z) (u : User.t) :
  users s !! k = Some u →
  ∃ u', users (apply_invite inviteCode newUserId s).1 !! k = Some u'
        ∧ User.email u' = User.email u
        ∧ User.phone u' = User.phone u.
Proof.
  intros Hk. unfold apply_invite.
  destruct (nonempty inviteCode); [|by exists u].
  unfold bind at 1. unfold query.
  destruct (userDb.findByReferralCode _ s) as [[rid referrer]|]; [|by exists u].
  destruct (_ && _); [|by exists u].
  unfold referralDb.create, bind at 1, referralDb.insert_referral.
  destruct (_ && _); [|by exists u].
  unfold bind at 1. unfold exec at 1. change (0 <? 5) with true. cbv iota.
  rewrite updateBalance_users. db_simpl.
  destruct (decide (rid = k)) as [->|Hr];
    [rewrite lookup_alter_eq|rewrite lookup_alter_ne by done];
    (destruct (decide (newUserId = k)) as [->|Hn];
     [rewrite lookup_alter_eq|rewrite lookup_alter_ne by done]);
    rewrite Hk; cbn; by eexists.
Qed.

(** A signup that succeeded created the user with the email and the phone
    number of the body. *)
Lemma signup_stores_identity (hashSync : string → string) (gen : nat → string)
    (rnd : nat → Z) (b : signup_body) (s s1 : Db) (m : string) (id : Z)
    (rc : option string) :
  signup hashSync gen rnd b s = (s1, OkSignup m id rc) →
  ∃ u, users s1 !! id = Some u
       ∧ User.email u = sb_email b
       ∧ User.phone u = sb_phone b.
Proof.
  unfold signup.
  destruct (negb (nonempty (sb_name b)) || _ || _ || _); [done|].
  destruct (String.length (sb_phone b) <? 8)%nat; [done|].
  destruct (if nonempty (sb_username b) then _ else _) as [username attempt].
  destruct (100 <=? attempt)%nat; [done|].
  destruct (bool_decide (is_Some (userDb.findByEmail (sb_email b) s))); [done|].
  destruct (bool_decide (is_Some (userDb.findByPhone (sb_phone b) s))); [done|].
  unfold try_catch, signup_try. unfold bind at 1.
  destruct (userDb.create hashSync gen username (sb_name b) (sb_email b)
              (sb_phone b) (or_default (sb_upi b) "pending") (sb_password b) s)
    as [s0 [e|id0]] eqn:Hcreate; [done|].
  unfold bind at 1.
  pose proof (apply_invite_identity (sb_inviteCode b) id0 s0 id0) as Hid.
  destruct (apply_invite (sb_inviteCode b) id0 s0) as [s2 [e|[]]]; [done|].
  unfold bind, query, ret. intros [= <- _ <- _].
  unfold userDb.create, userDb.insert in Hcreate.
  destruct (userDb.unique_clash _ s); [done|].
  injection Hcreate as <- <-.
  cbn [fst] in Hid. db_simpl.
  destruct (Hid _ (lookup_insert_eq _ _ _)) as (u' & Hu' & He & Hp).
  exists u'. done.
Qed.

(** In a state that holds a user row with the email or the phone number of
    the body, signup is refused and leaves the database as it is. *)
Lemma signup_refuses_known (hashSync : string → string) (gen : nat → string)
    (rnd : nat → Z) (b : signup_body) (s : Db) (k : Z) (u : User.t) :
  users s !! k = Some u →
  sb_email b = User.email u ∨ sb_phone b = User.phone u →
  ∃ message, signup hashSync gen rnd b s = (s, Fail message).
Proof.
  intros Hu Hsame. unfold signup.
  destruct (negb (nonempty (sb_name b)) || _ || _ || _); [by eexists|].
  destruct (String.length (sb_phone b) <? 8)%nat; [by eexists|].
  destruct (if nonempty (sb_username b) then _ else _) as [username attempt].
  destruct (100 <=? attempt)%nat; [by eexists|].
  destruct (bool_decide (is_Some (userDb.findByEmail (sb_email b) s))) eqn:Hemail;
    [by eexists|].
  destruct (bool_decide (is_Some (userDb.findByPhone (sb_phone b) s))) eqn:Hphone;
    [by eexists|].
  exfalso. apply bool_decide_eq_false in Hemail, Hphone.
  destruct Hsame as [Hs|Hs].
  - apply Hemail. unfold userDb.findByEmail.
    apply (select_first_is_Some _ _ k u Hu).
    rewrite Hs. apply String.eqb_refl.
  - apply Hphone. unfold userDb.findByPhone.
    apply (select_first_is_Some _ _ k u Hu).
    rewrite Hs. apply String.eqb_refl.
Qed.

(** ** Integers as Numbers *)

Lemma nearest_even_comp (x y : Q) : (x == y)%Q → nearest_even x = nearest_even y.
Proof.
  intros H. unfold nearest_even. rewrite (Qfloor_comp x y H).
  assert ((x - inject_Z (Qfloor y) ?= 1 # 2)%Q = (y - inject_Z (Qfloor y) ?= 1 # 2)%Q)
    as -> by (apply Qcompare_comp; [by rewrite H|reflexivity]).
  reflexivity.
Qed.

Lemma nearest_even_Z (k : Z) : nearest_even (inject_Z k) = k.
Proof.
  unfold nearest_even. rewrite Qfloor_Z.
  assert ((inject_Z k - inject_Z k ?= 1 # 2)%Q = Lt) as ->; [|done].
  apply Qlt_alt. assert (inject_Z k - inject_Z k == 0)%Q as -> by ring. reflexivity.
Qed.

(** Integers up to 2^53 in magnitude are Numbers, so that the sum of two
    Numbers with integer values is exact when it is in that range. *)
Lemma integer_is_double (n : Z) : Z.abs n ≤ 2 ^ 53 → is_double (inject_Z n).
Proof.
  intros Hn. unfold is_double, round64.
  set (p := ulp_exponent (inject_Z n)).
  assert (-1074 ≤ p) as Hlo by (subst p; unfold ulp_exponent; lia).
  assert (p ≤ 0 ∨ (p = 1 ∧ Z.abs n = 2 ^ 53)) as Hp.
  { subst p. unfold ulp_exponent in *.
    assert (Qabs (inject_Z n) * pow2 1074 == inject_Z (Z.abs n * 2 ^ 1074))%Q as Hm.
    { rewrite inject_Z_mult, <- pow2_Z by lia. reflexivity. }
    rewrite Hm, Qfloor_Z.
    destruct (decide (n = 0)) as [->|Hn0]; [left; vm_compute; discriminate|].
    rewrite Z.log2_mul_pow2 by lia.
    destruct (decide (Z.abs n = 2 ^ 53)) as [Heq|Hne].
    - right. rewrite Heq. rewrite Z.log2_pow2 by lia. lia.
    - left. assert (Z.log2 (Z.abs n) < 53) by (apply Z.log2_lt_pow2; lia). lia. }
  destruct Hp as [Hp|[Hp Heq]].
  - assert (inject_Z n / pow2 p == inject_Z (n * 2 ^ (- p)))%Q as Hy.
    { rewrite pow2_inv, inject_Z_mult, <- pow2_Z by lia. reflexivity. }
    rewrite (nearest_even_comp _ _ Hy), nearest_even_Z.
    rewrite inject_Z_mult, <- pow2_Z by lia.
    rewrite <- Qmult_assoc, <- pow2_plus. replace (- p + p) with 0 by lia.
    change (pow2 0) with 1%Q. lra.
  - rewrite Hp.
    destruct (Z.abs_spec n) as [[_ Ha]|[_ Ha]]; rewrite Ha in Heq.
    + subst n. vm_compute. reflexivity.
    + replace n with (- 2 ^ 53) by lia. vm_compute. reflexivity.
Qed.

Lemma round64_comp (x y : Q) : (x == y)%Q → (round64 x == round64 y)%Q.
Proof.
  intros H. unfold round64.
  assert (ulp_exponent x = ulp_exponent y) as ->.
  { unfold ulp_exponent.
    rewrite (Qfloor_comp (Qabs x * pow2 1074) (Qabs y * pow2 1074)); [done|].
    by rewrite H. }
  rewrite (nearest_even_comp (x / pow2 (ulp_exponent y)) (y / pow2 (ulp_exponent y)));
    [reflexivity|by rewrite H].
Qed.

(** The sum of two Numbers with integer values is exact when it is within
    2^53 in magnitude. *)
Lemma double_add_exact (a b : Z) :
  Z.abs (a + b) ≤ 2 ^ 53 →
  (double_add (inject_Z a) (inject_Z b) == inject_Z (a + b))%Q.
Proof.
  intros H. unfold double_add.
  rewrite (round64_comp _ (inject_Z (a + b))) by (by rewrite inject_Z_plus).
  by apply integer_is_double.
Qed.

Lemma balances_exact_decide (s : Db) :
  bool_decide (map_Forall (λ _ u, Z.abs (User.balance u) ≤ 2 ^ 53) (users s)) = true →
  balances_exact s.
Proof. intros H%bool_decide_eq_true. exact H. Qed.

(** ** The ledger audit holds along well-signed runs *)

Lemma audit_step_refl (s : Db) : audit_step s s.
Proof. by split. Qed.

Lemma audit_step_trans (s1 s2 s3 : Db) :
  audit_step s1 s2 → audit_step s2 s3 → audit_step s1 s3.
Proof.
  intros [H1 P1] [H2 P2]. split; [|auto].
  intros k. by rewrite H2, H1.
Qed.

(** A statement that leaves balances, ledger and withdrawals alone. *)
Lemma audit_step_frame (s s' : Db) :
  (∀ k, default 0 (balance_of k s') = default 0 (balance_of k s)) →
  transactions s' = transactions s →
  withdrawals s' = withdrawals s →
  audit_step s s'.
Proof.
  intros Hb Ht Hw. split.
  - intros k. unfold audit_diff, ledger_sum. by rewrite Hb, Ht.
  - unfold positive_withdrawals. by rewrite Hw.
Qed.

(** An UPDATE users that does not write the balance column. *)
Lemma audit_step_alter (f : User.t → User.t) (i : Z) (s : Db) :
  (∀ u, User.balance (f u) = User.balance u) →
  audit_step s (with_users (alter f i) s).
Proof.
  intros Hf. apply audit_step_frame; [|done|done].
  intros k. unfold balance_of. db_simpl.
  destruct (decide (i = k)) as [->|Hne];
    [rewrite lookup_alter_eq|by rewrite lookup_alter_ne].
  destruct (users s !! k); [|done]. cbn. by rewrite Hf.
Qed.

Lemma audit_step_bind {A B} (m : M A) (f : A → M B) (s : Db) :
  audit_step s (m s).1 →
  (∀ a s', m s = (s', inr a) → audit_step s' (f a s').1) →
  audit_step s (bind m f s).1.
Proof.
  intros Hm Hf. unfold bind.
  destruct (m s) as [s' [e|a]] eqn:E; [done|].
  eapply audit_step_trans; [exact Hm|]. by apply Hf.
Qed.

Lemma audit_step_updateBalance (s : Db) (userId amount : Z) (type : txn_type)
    (reason : string) :
  (if is_credit type then 0 ≤ amount else amount ≤ 0) →
  audit_step s (userDb.updateBalance userId amount type reason s).1.
Proof.
  intros Hsign. split.
  - intros k. unfold audit_diff. by apply updateBalance_audit.
  - rewrite updateBalance_eq. by destruct (user_exists userId s).
Qed.

Lemma try_catch_state {A} (m : M A) (ok : A → reply) (failed : string) (s : Db) :
  (try_catch m ok failed s).1 = (m s).1.
Proof. unfold try_catch. by destruct (m s) as [? [?|?]]. Qed.

Lemma audit_step_sweep (now : Z) (s : Db) :
  audit_step s (userDb.checkAndLiftExpiredBans now s).1.
Proof.
  apply audit_step_frame; [|done|done]. intros k. by rewrite sweep_balance_of.
Qed.

Lemma audit_step_apply_invite (inviteCode : string) (newUserId : Z) (s : Db) :
  audit_step s (apply_invite inviteCode newUserId s).1.
Proof.
  unfold apply_invite.
  destruct (nonempty inviteCode); [|apply audit_step_refl].
  apply audit_step_bind; [apply audit_step_refl|].
  intros [[rid referrer]|] s' [= <- _]; [|apply audit_step_refl].
  destruct (_ && _); [|apply audit_step_refl].
  unfold referralDb.create.
  apply audit_step_bind.
  { unfold referralDb.insert_referral.
    destruct (_ && _); [|apply audit_step_refl]. by apply audit_step_frame. }
  intros _ s1 _.
  apply audit_step_bind; [by apply audit_step_alter|].
  intros _ s2 _. change (0 <? 5) with true. cbv iota.
  by apply audit_step_updateBalance.
Qed.

Lemma audit_step_insert_user (u : User.t) (s : Db) :
  User.balance u = 0 →
  audit_step s (userDb.insert u s).1.
Proof.
  intros Hu. unfold userDb.insert.
  destruct (userDb.unique_clash u s); [apply audit_step_refl|].
  apply audit_step_frame; [|done|done].
  intros k. unfold balance_of. cbn [fst]. db_simpl.
  pose proof (next_id_fresh (users s) (users_seq s)) as Hfresh.
  destruct (decide (next_id (users s) (users_seq s) = k)) as [Heq|Hne].
  - rewrite <- Heq, lookup_insert_eq, Hfresh. cbn. by rewrite Hu.
  - by rewrite lookup_insert_ne.
Qed.

Lemma audit_step_signup (hashSync : string → string) (gen : nat → string)
    (rnd : nat → Z) (b : signup_body) (s : Db) :
  audit_step s (signup hashSync gen rnd b s).1.
Proof.
  unfold signup.
  destruct (negb (nonempty (sb_name b)) || _ || _ || _); [apply audit_step_refl|].
  destruct (String.length (sb_phone b) <? 8)%nat; [apply audit_step_refl|].
  destruct (if nonempty (sb_username b) then _ else _) as [username attempt].
  destruct (100 <=? attempt)%nat; [apply audit_step_refl|].
  destruct (bool_decide (is_Some (userDb.findByEmail (sb_email b) s)));
    [apply audit_step_refl|].
  destruct (bool_decide (is_Some (userDb.findByPhone (sb_phone b) s)));
    [apply audit_step_refl|].
  rewrite try_catch_state. unfold signup_try.
  apply audit_step_bind; [by apply audit_step_insert_user|].
  intros id s0 _.
  apply audit_step_bind; [apply audit_step_apply_invite|].
  intros _ s1 _. apply audit_step_refl.
Qed.

Lemma audit_step_requireAuth (session : option Z)
    (next : Z → User.t → Db → Db * reply) (s : Db) :
  (∀ userId user, audit_step s (next userId user s).1) →
  audit_step s (requireAuth session next s).1.
Proof.
  intros Hnext. unfold requireAuth.
  destruct session as [userId|]; [|apply audit_step_refl].
  destruct (negb (truthy userId)); [apply audit_step_refl|].
  destruct (userDb.findById userId s) as [user|]; [|apply audit_step_refl].
  destruct (truthy (User.banned user)); [apply audit_step_refl|apply Hnext].
Qed.

Lemma audit_step_tasks_submit (now taskId userId : Z) (user : User.t) (s : Db) :
  audit_step s (tasks_submit now taskId userId user s).1.
Proof.
  unfold tasks_submit.
  destruct (negb (truthy taskId)); [apply audit_step_refl|].
  rewrite try_catch_state. unfold pendingTaskDb.create.
  destruct (_ && _); [|apply audit_step_refl]. by apply audit_step_frame.
Qed.

Lemma audit_step_checkin_claim (now tzOffset : Z) (random : Q) (userId : Z)
    (user : User.t) (s : Db) :
  (0 <= random)%Q →
  audit_step s (checkin_claim now tzOffset random userId user s).1.
Proof.
  intros Hrandom. unfold checkin_claim.
  destruct (match checkinDb.getLastCheckin userId s with
            | Some c => _ | None => false end); [apply audit_step_refl|].
  rewrite try_catch_state. unfold checkinDb.claim.
  apply audit_step_bind.
  { unfold checkinDb.insert_checkin.
    destruct (user_exists _ s); [|apply audit_step_refl]. by apply audit_step_frame. }
  intros _ s1 _. apply audit_step_updateBalance. cbn [is_credit].
  assert (0 <= double_mul random 10)%Q as Ha
    by (apply round64_nonneg, Qmult_le_0_compat; [done|discriminate]).
  apply Qfloor_resp_le in Ha. change (Qfloor 0) with 0 in Ha. lia.
Qed.

Lemma audit_step_wallet_withdraw (now amount : Z)
    (paymentMethod paymentDetails : string) (userId : Z) (user : User.t) (s : Db) :
  audit_step s
    (wallet_withdraw now amount paymentMethod paymentDetails userId user s).1.
Proof.
  unfold wallet_withdraw.
  destruct (_ || _); [apply audit_step_refl|].
  destruct (amount <? 50); [apply audit_step_refl|].
  destruct (_ <? amount); [apply audit_step_refl|].
  rewrite try_catch_state. unfold withdrawalDb.create.
  destruct (Z.ltb_spec 0 amount) as [Hpos|]; cbn [negb]; [|apply audit_step_refl].
  destruct (negb (user_exists userId s)); [apply audit_step_refl|].
  cbn [fst]. split; [done|].
  intros Hp id w. db_simpl.
  destruct (decide (next_id (withdrawals s) (withdrawals_seq s) = id)) as [Heq|Hne].
  - rewrite <- Heq, lookup_insert_eq. by intros [= <-].
  - rewrite lookup_insert_ne by done. apply Hp.
Qed.

Lemma audit_step_admin_user_balance (userId amount : Z) (reason : string) (s : Db) :
  audit_step s (admin_user_balance userId amount reason s).1.
Proof.
  unfold admin_user_balance.
  destruct (negb (truthy userId)); [apply audit_step_refl|].
  rewrite try_catch_state. apply audit_step_updateBalance.
  destruct (Z.ltb_spec 0 amount); cbn [is_credit]; lia.
Qed.

Lemma audit_step_bulk_loop (amount : Z) (reason : string) (ids : list Z) :
  0 ≤ amount →
  ∀ s, audit_step s (userDb.bulk_loop ids amount reason s).1.
Proof.
  intros Hpos. induction ids as [|id ids IH]; intros s; [apply audit_step_refl|].
  cbn [userDb.bulk_loop].
  pose proof (audit_step_updateBalance s id amount admin_credit reason Hpos) as Hstep.
  unfold userDb.updateBalance in Hstep.
  unfold bind at 1 in Hstep. unfold bind at 1. unfold exec at 1 in Hstep.
  unfold exec at 1.
  unfold bind at 1.
  destruct (userDb.insert_transaction _ _) as [s1 [e|[]]]; [exact Hstep|].
  eapply audit_step_trans; [exact Hstep|apply IH].
Qed.

Lemma audit_step_admin_bulk_bonus (amount : Z) (reason : string) (s : Db) :
  0 ≤ amount →
  audit_step s (admin_bulk_bonus amount reason s).1.
Proof.
  intros Hpos. unfold admin_bulk_bonus.
  destruct (_ || _); [apply audit_step_refl|].
  rewrite try_catch_state. unfold userDb.addBulkBonus.
  apply audit_step_bind; [by apply audit_step_bulk_loop|].
  intros _ s1 _. apply audit_step_refl.
Qed.

Lemma audit_step_admin_verify_telegram (userId : Z) (s : Db) :
  audit_step s (admin_verify_telegram userId s).1.
Proof.
  unfold admin_verify_telegram.
  destruct (userDb.findById userId s) as [user|]; [|apply audit_step_refl].
  destruct (truthy _); [apply audit_step_refl|].
  rewrite try_catch_state.
  apply audit_step_bind; [by apply audit_step_updateBalance|].
  intros _ s1 _. by apply audit_step_alter.
Qed.

Lemma audit_step_admin_pending_approve (now pendingId userId taskId price : Z)
    (s : Db) :
  0 ≤ price →
  audit_step s (admin_pending_approve now pendingId userId taskId price s).1.
Proof.
  intros Hprice. unfold admin_pending_approve.
  rewrite try_catch_state. unfold pendingTaskDb.approve.
  apply audit_step_bind; [by apply audit_step_frame|].
  intros _ s1 _. apply audit_step_bind.
  { unfold pendingTaskDb.insert_completed.
    destruct (bool_decide _); [apply audit_step_refl|].
    destruct (_ && _); [|apply audit_step_refl]. by apply audit_step_frame. }
  intros _ s2 _. apply audit_step_bind; [by apply audit_step_updateBalance|].
  intros _ s3 _. apply audit_step_bind; [apply audit_step_refl|].
  intros [r|] s4 _; [|apply audit_step_refl].
  apply audit_step_bind; [by apply audit_step_alter|].
  intros _ s5 _. apply audit_step_bind; [by apply audit_step_updateBalance|].
  intros _ s6 _. by apply audit_step_frame.
Qed.

Lemma audit_step_admin_pending_reject (now pendingId : Z) (reason : string)
    (s : Db) :
  audit_step s (admin_pending_reject now pendingId reason s).1.
Proof.
  unfold admin_pending_reject. rewrite try_catch_state.
  by apply audit_step_frame.
Qed.

Lemma audit_step_update_pending (st : status) (now : Z) (notes : string)
    (withdrawalId : Z) (s : Db) :
  audit_step s (withdrawalDb.update_pending st now notes withdrawalId s).1.
Proof.
  unfold withdrawalDb.update_pending.
  destruct (withdrawals s !! withdrawalId) as [w|] eqn:E; [|apply audit_step_refl].
  destruct (bool_decide _); [|apply audit_step_refl].
  cbn [fst]. split; [done|].
  intros Hp id w'. db_simpl.
  destruct (decide (withdrawalId = id)) as [<-|Hne].
  - rewrite lookup_insert_eq. intros [= <-]. apply (Hp withdrawalId w E).
  - rewrite lookup_insert_ne by done. apply Hp.
Qed.

Lemma audit_step_withdrawals_approve (now withdrawalId : Z) (adminNotes : string)
    (s : Db) :
  positive_withdrawals s →
  audit_step s (admin_withdrawals_approve now withdrawalId adminNotes s).1.
Proof.
  intros Hpos. unfold admin_withdrawals_approve.
  destruct (negb (truthy withdrawalId)); [apply audit_step_refl|].
  rewrite try_catch_state. unfold withdrawalDb.approve.
  apply audit_step_bind; [apply audit_step_refl|].
  intros [w|] s' [= <- Hw]; [|apply audit_step_refl].
  destruct (negb _); [apply audit_step_refl|].
  apply audit_step_bind; [apply audit_step_update_pending|].
  intros changes s1 _.
  destruct (changes =? 0); [apply audit_step_refl|].
  apply audit_step_bind.
  { apply audit_step_updateBalance. cbn [is_credit].
    pose proof (Hpos withdrawalId w Hw). lia. }
  intros _ s2 _. apply audit_step_bind; [apply audit_step_refl|].
  intros [u|] s3 _; [|apply audit_step_refl].
  destruct (negb _); [|apply audit_step_refl].
  by apply audit_step_alter.
Qed.

Lemma audit_step_withdrawals_reject (now withdrawalId : Z) (adminNotes : string)
    (s : Db) :
  audit_step s (admin_withdrawals_reject now withdrawalId adminNotes s).1.
Proof.
  unfold admin_withdrawals_reject. rewrite try_catch_state.
  unfold withdrawalDb.reject.
  apply audit_step_bind; [apply audit_step_refl|].
  intros [w|] s' _; [|apply audit_step_refl].
  destruct (negb _); [apply audit_step_refl|].
  apply audit_step_bind; [apply audit_step_update_pending|].
  intros changes s1 _.
  destruct (changes =? 0); apply audit_step_refl.
Qed.

Lemma audit_step_handle (now : Z) (r : request) (s : Db) :
  well_signed r →
  positive_withdrawals s →
  audit_step s (handle now r s).1.
Proof.
  intros Hr Hpos. unfold handle.
  pose proof (audit_step_sweep now s) as Hsweep.
  eapply audit_step_trans; [exact Hsweep|].
  set (s0 := (userDb.checkAndLiftExpiredBans now s).1).
  assert (positive_withdrawals s0) as Hpos0 by by apply Hsweep.
  destruct r; cbn [well_signed] in Hr.
  - apply audit_step_signup.
  - apply audit_step_requireAuth. intros. apply audit_step_tasks_submit.
  - apply audit_step_requireAuth. intros.
    apply audit_step_checkin_claim. apply Hr.
  - apply audit_step_requireAuth. intros. apply audit_step_wallet_withdraw.
  - apply audit_step_admin_user_balance.
  - apply audit_step_admin_bulk_bonus. apply Hr.
  - apply audit_step_admin_verify_telegram.
  - apply audit_step_admin_pending_approve. apply Hr.
  - apply audit_step_admin_pending_reject.
  - by apply audit_step_withdrawals_approve.
  - apply audit_step_withdrawals_reject.
Qed.

Lemma audit_ok_empty : audit_ok empty_db.
Proof.
  intros k. unfold audit_diff, balance_of, ledger_sum. cbn.
  by rewrite lookup_empty.
Qed.

Lemma positive_withdrawals_empty : positive_withdrawals empty_db.
Proof. intros id w. cbn. by rewrite lookup_empty. Qed.

(** X18. The ledger audit of the money flows.  Take requests in which
    Math.random() is a Number in [0, 1), every amount is an integer of
    magnitude at most 2^53, and the admin gives no negative bulk bonus and
    no negative task price; and let every balance stay within 2^53 in
    magnitude after each request, the range in which the additions on the
    REAL column are exact.  Then every request (ban sweep included) leaves
    each user's balance equal to the signed sum of that user's transaction
    rows, every withdrawal row keeps a positive amount, and every balance is
    a Number. *)
Theorem ledger_audit_invariant (reqs : list (Z * request)) (s : Db) :
  Forall (λ r, well_signed r.2) reqs →
  (∀ n, balances_exact (run (take n reqs) s)) →
  audit_ok s →
  positive_withdrawals s →
  audit_ok (run reqs s) ∧ positive_withdrawals (run reqs s)
  ∧ ∀ k b, balance_of k (run reqs s) = Some b → is_double (inject_Z b).
Proof.
  intros Hall Hexact Hok Hpos.
  assert (audit_ok (run reqs s) ∧ positive_withdrawals (run reqs s)) as [Ha Hp].
  { clear Hexact. unfold run. revert s Hok Hpos.
    induction reqs as [|[now r] reqs IH]; intros s Hok Hpos; [done|].
    apply Forall_cons in Hall as [Hr Hall]. cbn [foldl fst snd] in *.
    destruct (audit_step_handle now r s Hr Hpos) as [Hdiff Hkeep].
    apply IH; [done| |by apply Hkeep].
    intros k. by rewrite Hdiff. }
  split; [done|]. split; [done|].
  intros k b Hb. apply integer_is_double.
  specialize (Hexact (length reqs)). rewrite take_ge in Hexact by done.
  unfold balance_of in Hb.
  destruct (users (run reqs s) !! k) as [u|] eqn:Hu; [|done].
  injection Hb as <-. by apply (Hexact k u).
Qed.

Lemma ledger_audit_invariant_witness :
  audit_ok (run audited_requests empty_db)
  ∧ positive_withdrawals (run audited_requests empty_db)
  ∧ ∀ k b, balance_of k (run audited_requests empty_db) = Some b →
           is_double (inject_Z b).
Proof.
  apply (ledger_audit_invariant audited_requests empty_db).
  - unfold audited_requests.
    repeat (apply Forall_cons; split;
            [cbn; try done; try lia;
             try (split; [vm_compute; reflexivity|split; [discriminate|reflexivity]])|]).
    constructor.
  - intros n. apply balances_exact_decide.
    do 7 (destruct n as [|n]; [vm_compute; reflexivity|]).
    vm_compute. reflexivity.
  - apply audit_ok_empty.
  - apply positive_withdrawals_empty.
Defined.

(** X19. The ban gate.  For a logged-in user whose row is banned, the ban
    sweep followed by requireAuth either answers 403 with the ban reason
    (or "Account banned") and runs no route, or, exactly when the ban is a
    temporary one whose expiry date has passed, hands the request to the
    route with the ban lifted from the user's row. *)
Theorem ban_gate (now userId : Z) (u : User.t)
    (next : Z → User.t → Db → Db * reply) (s : Db) :
  userId ≠ 0 →
  users s !! userId = Some u →
  User.banned u ≠ 0 →
  let s0 := (userDb.checkAndLiftExpiredBans now s).1 in
  requireAuth (Some userId) next s0 =
    if userDb.ban_expired now u
    then next userId (User.set_ban 0 "" "permanent" None u) s0
    else (s0, Status 403 (or_default (User.banned_reason u) "Account banned")).
Proof.
  intros Hid Hu Hbanned s0. unfold requireAuth, truthy.
  destruct (Z.eqb_spec userId 0) as [|_]; [done|]. cbn [negb].
  unfold userDb.findById. subst s0.
  unfold userDb.checkAndLiftExpiredBans, exec. cbn [fst]. db_simpl.
  rewrite lookup_fmap, Hu. cbn [fmap option_fmap option_map].
  destruct (userDb.ban_expired now u); cbn [User.banned User.set_ban].
  - done.
  - by destruct (Z.eqb_spec (User.banned u) 0).
Qed.

Lemma ban_gate_witness :
  requireAuth (Some 2) (tasks_submit 1000 1)
    (userDb.checkAndLiftExpiredBans 1000 sample_db_banned).1
  = ((userDb.checkAndLiftExpiredBans 1000 sample_db_banned).1, Status 403 "spam").
Proof.
  refine (ban_gate 1000 2
            (User.set_ban 1 "spam" "temporary" (Some 604800000)
               (default (User.fresh "" "" "" "" "" "" "") (users sample_db !! 2)))
            (tasks_submit 1000 1) sample_db_banned _ _ _).
  - lia.
  - vm_compute. reflexivity.
  - vm_compute. discriminate.
Defined.

(** ** What no request undoes *)

Lemma persists_refl (s : Db) : persists s s.
Proof. split; [intros k u Hu; by exists u|done]. Qed.

Lemma persists_trans (s1 s2 s3 : Db) :
  persists s1 s2 → persists s2 s3 → persists s1 s3.
Proof.
  intros [U1 W1] [U2 W2]. split.
  - intros k u Hu. destruct (U1 k u Hu) as (u1 & Hu1 & He1 & Hp1).
    destruct (U2 k u1 Hu1) as (u2 & Hu2 & He2 & Hp2).
    exists u2. split; [done|]. split; congruence.
  - intros id w Hw Hst. apply W2; [|done]. by apply W1.
Qed.

(** A statement that leaves users and withdrawals alone. *)
Lemma persists_frame (s s' : Db) :
  users s' = users s → withdrawals s' = withdrawals s → persists s s'.
Proof.
  intros Hu Hw. unfold persists. rewrite Hu, Hw.
  split; [intros k u Hk; by exists u|done].
Qed.

(** An UPDATE users that writes neither email nor phone. *)
Lemma persists_alter (f : User.t → User.t) (i : Z) (s : Db) :
  (∀ u, User.email (f u) = User.email u ∧ User.phone (f u) = User.phone u) →
  persists s (with_users (alter f i) s).
Proof.
  intros Hf. split; [|done]. intros k u Hk. db_simpl.
  destruct (decide (i = k)) as [->|Hne].
  - rewrite lookup_alter_eq, Hk. cbn. exists (f u). split; [done|apply Hf].
  - rewrite lookup_alter_ne by done. by exists u.
Qed.

Lemma persists_bind {A B} (m : M A) (f : A → M B) (s : Db) :
  persists s (m s).1 →
  (∀ a s', m s = (s', inr a) → persists s' (f a s').1) →
  persists s (bind m f s).1.
Proof.
  intros Hm Hf. unfold bind.
  destruct (m s) as [s' [e|a]] eqn:E; [done|].
  eapply persists_trans; [exact Hm|]. by apply Hf.
Qed.

Lemma persists_updateBalance (s : Db) (userId amount : Z) (type : txn_type)
    (reason : string) :
  persists s (userDb.updateBalance userId amount type reason s).1.
Proof.
  rewrite updateBalance_eq.
  destruct (user_exists userId s); cbn [fst].
  - eapply persists_trans; [by apply (persists_alter (User.add_balance amount) userId)|].
    by apply persists_frame.
  - by apply persists_alter.
Qed.

Lemma persists_sweep (now : Z) (s : Db) :
  persists s (userDb.checkAndLiftExpiredBans now s).1.
Proof.
  unfold userDb.checkAndLiftExpiredBans, exec. cbn [fst].
  split; [|done]. intros k u Hk. db_simpl. rewrite lookup_fmap, Hk. cbn.
  eexists. split; [reflexivity|]. by destruct (userDb.ban_expired now u).
Qed.

Lemma persists_apply_invite (inviteCode : string) (newUserId : Z) (s : Db) :
  persists s (apply_invite inviteCode newUserId s).1.
Proof.
  unfold apply_invite.
  destruct (nonempty inviteCode); [|apply persists_refl].
  apply persists_bind; [apply persists_refl|].
  intros [[rid referrer]|] s' [= <- _]; [|apply persists_refl].
  destruct (_ && _); [|apply persists_refl].
  unfold referralDb.create.
  apply persists_bind.
  { unfold referralDb.insert_referral.
    destruct (_ && _); [|apply persists_refl]. by apply persists_frame. }
  intros _ s1 _.
  apply persists_bind; [by apply persists_alter|].
  intros _ s2 _. change (0 <? 5) with true. cbv iota.
  apply persists_updateBalance.
Qed.

Lemma persists_insert_user (u : User.t) (s : Db) :
  persists s (userDb.insert u s).1.
Proof.
  unfold userDb.insert.
  destruct (userDb.unique_clash u s); [apply persists_refl|].
  cbn [fst]. split; [|done]. intros k v Hk. db_simpl.
  pose proof (next_id_fresh (users s) (users_seq s)) as Hfresh.
  destruct (decide (next_id (users s) (users_seq s) = k)) as [Heq|Hne].
  - rewrite Heq in Hfresh. congruence.
  - rewrite lookup_insert_ne by done. by exists v.
Qed.

Lemma persists_signup (hashSync : string → string) (gen : nat → string)
    (rnd : nat → Z) (b : signup_body) (s : Db) :
  persists s (signup hashSync gen rnd b s).1.
Proof.
  unfold signup.
  destruct (negb (nonempty (sb_name b)) || _ || _ || _); [apply persists_refl|].
  destruct (String.length (sb_phone b) <? 8)%nat; [apply persists_refl|].
  destruct (if nonempty (sb_username b) then _ else _) as [username attempt].
  destruct (100 <=? attempt)%nat; [apply persists_refl|].
  destruct (bool_decide (is_Some (userDb.findByEmail (sb_email b) s)));
    [apply persists_refl|].
  destruct (bool_decide (is_Some (userDb.findByPhone (sb_phone b) s)));
    [apply persists_refl|].
  rewrite try_catch_state. unfold signup_try.
  apply persists_bind; [apply persists_insert_user|].
  intros id s0 _.
  apply persists_bind; [apply persists_apply_invite|].
  intros _ s1 _. apply persists_refl.
Qed.

Lemma persists_requireAuth (session : option Z)
    (next : Z → User.t → Db → Db * reply) (s : Db) :
  (∀ userId user, persists s (next userId user s).1) →
  persists s (requireAuth session next s).1.
Proof.
  intros Hnext. unfold requireAuth.
  destruct session as [userId|]; [|apply persists_refl].
  destruct (negb (truthy userId)); [apply persists_refl|].
  destruct (userDb.findById userId s) as [user|]; [|apply persists_refl].
  destruct (truthy (User.banned user)); [apply persists_refl|apply Hnext].
Qed.

Lemma persists_tasks_submit (now taskId userId : Z) (user : User.t) (s : Db) :
  persists s (tasks_submit now taskId userId user s).1.
Proof.
  unfold tasks_submit.
  destruct (negb (truthy taskId)); [apply persists_refl|].
  rewrite try_catch_state. unfold pendingTaskDb.create.
  destruct (_ && _); [|apply persists_refl]. by apply persists_frame.
Qed.

Lemma persists_checkin_claim (now tzOffset : Z) (random : Q) (userId : Z)
    (user : User.t) (s : Db) :
  persists s (checkin_claim now tzOffset random userId user s).1.
Proof.
  unfold checkin_claim.
  destruct (match checkinDb.getLastCheckin userId s with
            | Some c => _ | None => false end); [apply persists_refl|].
  rewrite try_catch_state. unfold checkinDb.claim.
  apply persists_bind.
  { unfold checkinDb.insert_checkin.
    destruct (user_exists _ s); [|apply persists_refl]. by apply persists_frame. }
  intros _ s1 _. apply persists_updateBalance.
Qed.

(** INSERT INTO withdrawals takes a new id. *)
Lemma persists_wallet_withdraw (now amount : Z)
    (paymentMethod paymentDetails : string) (userId : Z) (user : User.t) (s : Db) :
  persists s
    (wallet_withdraw now amount paymentMethod paymentDetails userId user s).1.
Proof.
  unfold wallet_withdraw.
  destruct (_ || _); [apply persists_refl|].
  destruct (amount <? 50); [apply persists_refl|].
  destruct (_ <? amount); [apply persists_refl|].
  rewrite try_catch_state. unfold withdrawalDb.create.
  destruct (negb (0 <? amount)); [apply persists_refl|].
  destruct (negb (user_exists userId s)); [apply persists_refl|].
  cbn [fst]. split; [intros k u Hk; by exists u|].
  intros id w Hw _. db_simpl.
  pose proof (next_id_fresh (withdrawals s) (withdrawals_seq s)) as Hfresh.
  destruct (decide (next_id (withdrawals s) (withdrawals_seq s) = id)) as [Heq|Hne].
  - rewrite Heq in Hfresh. congruence.
  - by rewrite lookup_insert_ne.
Qed.

Lemma persists_admin_user_balance (userId amount : Z) (reason : string) (s : Db) :
  persists s (admin_user_balance userId amount reason s).1.
Proof.
  unfold admin_user_balance.
  destruct (negb (truthy userId)); [apply persists_refl|].
  rewrite try_catch_state. apply persists_updateBalance.
Qed.

Lemma persists_bulk_loop (amount : Z) (reason : string) (ids : list Z) (s : Db) :
  persists s (userDb.bulk_loop ids amount reason s).1.
Proof.
  revert s. induction ids as [|id ids IH]; intros s; [apply persists_refl|].
  cbn [userDb.bulk_loop].
  pose proof (persists_updateBalance s id amount admin_credit reason) as Hstep.
  unfold userDb.updateBalance in Hstep.
  unfold bind at 1 in Hstep. unfold bind at 1. unfold exec at 1 in Hstep.
  unfold exec at 1.
  unfold bind at 1.
  destruct (userDb.insert_transaction _ _) as [s1 [e|[]]]; [exact Hstep|].
  eapply persists_trans; [exact Hstep|apply IH].
Qed.

Lemma persists_admin_bulk_bonus (amount : Z) (reason : string) (s : Db) :
  persists s (admin_bulk_bonus amount reason s).1.
Proof.
  unfold admin_bulk_bonus.
  destruct (_ || _); [apply persists_refl|].
  rewrite try_catch_state. unfold userDb.addBulkBonus.
  apply persists_bind; [apply persists_bulk_loop|].
  intros _ s1 _. apply persists_refl.
Qed.

Lemma persists_admin_verify_telegram (userId : Z) (s : Db) :
  persists s (admin_verify_telegram userId s).1.
Proof.
  unfold admin_verify_telegram.
  destruct (userDb.findById userId s) as [user|]; [|apply persists_refl].
  destruct (truthy _); [apply persists_refl|].
  rewrite try_catch_state.
  apply persists_bind; [apply persists_updateBalance|].
  intros _ s1 _. by apply persists_alter.
Qed.

Lemma persists_admin_pending_approve (now pendingId userId taskId price : Z)
    (s : Db) :
  persists s (admin_pending_approve now pendingId userId taskId price s).1.
Proof.
  unfold admin_pending_approve.
  rewrite try_catch_state. unfold pendingTaskDb.approve.
  apply persists_bind; [by apply persists_frame|].
  intros _ s1 _. apply persists_bind.
  { unfold pendingTaskDb.insert_completed.
    destruct (bool_decide _); [apply persists_refl|].
    destruct (_ && _); [|apply persists_refl]. by apply persists_frame. }
  intros _ s2 _. apply persists_bind; [apply persists_updateBalance|].
  intros _ s3 _. apply persists_bind; [apply persists_refl|].
  intros [r|] s4 _; [|apply persists_refl].
  apply persists_bind; [by apply persists_alter|].
  intros _ s5 _. apply persists_bind; [apply persists_updateBalance|].
  intros _ s6 _. by apply persists_frame.
Qed.

Lemma persists_admin_pending_reject (now pendingId : Z) (reason : string)
    (s : Db) :
  persists s (admin_pending_reject now pendingId reason s).1.
Proof.
  unfold admin_pending_reject. rewrite try_catch_state.
  by apply persists_frame.
Qed.

(** UPDATE withdrawals ... WHERE id = ? AND status = 'pending' writes no row
    that was processed. *)
Lemma persists_update_pending (st : status) (now : Z) (notes : string)
    (withdrawalId : Z) (s : Db) :
  persists s (withdrawalDb.update_pending st now notes withdrawalId s).1.
Proof.
  unfold withdrawalDb.update_pending.
  destruct (withdrawals s !! withdrawalId) as [w|] eqn:E; [|apply persists_refl].
  destruct (bool_decide _) eqn:Hst; [|apply persists_refl].
  apply bool_decide_eq_true in Hst.
  cbn [fst]. split; [intros k u Hk; by exists u|].
  intros id w' Hw' Hst'. db_simpl.
  destruct (decide (withdrawalId = id)) as [Heq|Hne].
  - rewrite Heq in E. congruence.
  - by rewrite lookup_insert_ne.
Qed.

Lemma persists_withdrawals_approve (now withdrawalId : Z) (adminNotes : string)
    (s : Db) :
  persists s (admin_withdrawals_approve now withdrawalId adminNotes s).1.
Proof.
  unfold admin_withdrawals_approve.
  destruct (negb (truthy withdrawalId)); [apply persists_refl|].
  rewrite try_catch_state. unfold withdrawalDb.approve.
  apply persists_bind; [apply persists_refl|].
  intros [w|] s' _; [|apply persists_refl].
  destruct (negb _); [apply persists_refl|].
  apply persists_bind; [apply persists_update_pending|].
  intros changes s1 _.
  destruct (changes =? 0); [apply persists_refl|].
  apply persists_bind; [apply persists_updateBalance|].
  intros _ s2 _. apply persists_bind; [apply persists_refl|].
  intros [u|] s3 _; [|apply persists_refl].
  destruct (negb _); [|apply persists_refl].
  by apply persists_alter.
Qed.

Lemma persists_withdrawals_reject (now withdrawalId : Z) (adminNotes : string)
    (s : Db) :
  persists s (admin_withdrawals_reject now withdrawalId adminNotes s).1.
Proof.
  unfold admin_withdrawals_reject. rewrite try_catch_state.
  unfold withdrawalDb.reject.
  apply persists_bind; [apply persists_refl|].
  intros [w|] s' _; [|apply persists_refl].
  destruct (negb _); [apply persists_refl|].
  apply persists_bind; [apply persists_update_pending|].
  intros changes s1 _.
  destruct (changes =? 0); apply persists_refl.
Qed.

Lemma persists_handle (now : Z) (r : request) (s : Db) :
  persists s (handle now r s).1.
Proof.
  unfold handle.
  eapply persists_trans; [apply (persists_sweep now)|].
  destruct r.
  - apply persists_signup.
  - apply persists_requireAuth. intros. apply persists_tasks_submit.
  - apply persists_requireAuth. intros. apply persists_checkin_claim.
  - apply persists_requireAuth. intros. apply persists_wallet_withdraw.
  - apply persists_admin_user_balance.
  - apply persists_admin_bulk_bonus.
  - apply persists_admin_verify_telegram.
  - apply persists_admin_pending_approve.
  - apply persists_admin_pending_reject.
  - apply persists_withdrawals_approve.
  - apply persists_withdrawals_reject.
Qed.

Lemma persists_run (reqs : list (Z * request)) (s : Db) :
  persists s (run reqs s).
Proof.
  unfold run. revert s.
  induction reqs as [|[now r] reqs IH]; intros s; [apply persists_refl|].
  cbn [foldl fst snd].
  eapply persists_trans; [apply (persists_handle now r)|apply IH].
Qed.

(** X2. Once approve or reject has gone through for a withdrawal, the row
    stays processed through any further requests to the routes of [handle]:
    after any such sequence, approve and reject of that withdrawal throw and
    leave the database as it is, and so do the two admin routes.  A
    withdrawal is debited at most once. *)
Theorem withdrawal_processed_once (s s' : Db) (now withdrawalId : Z)
    (adminNotes : string) :
  withdrawalDb.approve now withdrawalId adminNotes s = (s', inr tt)
  ∨ withdrawalDb.reject now withdrawalId adminNotes s = (s', inr tt) →
  ∀ reqs now' adminNotes',
    let s2 := run reqs s' in
    withdrawalDb.approve now' withdrawalId adminNotes' s2
      = (s2, inl (Error "Withdrawal already processed"))
    ∧ withdrawalDb.reject now' withdrawalId adminNotes' s2
      = (s2, inl (Error "Can only reject pending withdrawals"))
    ∧ (admin_withdrawals_approve now' withdrawalId adminNotes' s2).1 = s2
    ∧ (admin_withdrawals_reject now' withdrawalId adminNotes' s2).1 = s2.
Proof.
  intros H reqs now' adminNotes' s2.
  assert (∃ w', withdrawals s' !! withdrawalId = Some w'
                ∧ Withdrawal.status_ w' ≠ pending) as (w' & Hw' & Hst).
  { destruct H as [H|H].
    - apply approve_returns_inv in H as (w' & Hw' & Hst).
      exists w'. split; [done|]. by rewrite Hst.
    - apply reject_returns_inv in H as (w' & Hw' & Hst).
      exists w'. split; [done|]. by rewrite Hst. }
  destruct (persists_run reqs s') as [_ Hkeep].
  specialize (Hkeep withdrawalId w' Hw' Hst). fold s2 in Hkeep.
  pose proof (approve_processed s2 now' withdrawalId adminNotes' w' Hkeep Hst)
    as Happrove.
  pose proof (reject_processed s2 now' withdrawalId adminNotes' w' Hkeep Hst)
    as Hreject.
  split; [done|]. split; [done|]. split.
  - unfold admin_withdrawals_approve.
    destruct (negb (truthy withdrawalId)); [done|].
    by rewrite try_catch_state, Happrove.
  - unfold admin_withdrawals_reject. by rewrite try_catch_state, Hreject.
Qed.

Lemma withdrawal_processed_once_witness :
  let s2 := run sample_withdraw_requests
                (withdrawalDb.approve 5000 3 "" sample_db).1 in
  withdrawalDb.approve 8000 3 "again" s2
    = (s2, inl (Error "Withdrawal already processed"))
  ∧ withdrawalDb.reject 8000 3 "again" s2
    = (s2, inl (Error "Can only reject pending withdrawals"))
  ∧ (admin_withdrawals_approve 8000 3 "again" s2).1 = s2
  ∧ (admin_withdrawals_reject 8000 3 "again" s2).1 = s2.
Proof.
  apply (withdrawal_processed_once sample_db _ 5000 3 "").
  left. vm_compute. reflexivity.
Defined.

(** X17. A successful signup stores the email and the phone number of the
    body on the new row, and no request to the routes of [handle] removes
    the row or changes them: after any sequence of such requests a signup
    with the same email or the same phone number is refused and leaves the
    database as it is.  The same holds in any state whatever that holds a
    user row with that email or that phone number. *)
Theorem signup_refuses_duplicates (hashSync : string → string)
    (gen : nat → string) (rnd : nat → Z) (b : signup_body)
    (s s1 : Db) (m : string) (id : Z) (rc : option string) :
  signup hashSync gen rnd b s = (s1, OkSignup m id rc) →
  (∀ reqs, ∃ u, users (run reqs s1) !! id = Some u
                ∧ User.email u = sb_email b ∧ User.phone u = sb_phone b)
  ∧ (∀ reqs hashSync' gen' rnd' b',
       sb_email b' = sb_email b ∨ sb_phone b' = sb_phone b →
       ∃ message,
         signup hashSync' gen' rnd' b' (run reqs s1) = (run reqs s1, Fail message))
  ∧ (∀ s2 k u hashSync' gen' rnd' b',
       users s2 !! k = Some u →
       sb_email b' = User.email u ∨ sb_phone b' = User.phone u →
       ∃ message, signup hashSync' gen' rnd' b' s2 = (s2, Fail message)).
Proof.
  intros Hok.
  destruct (signup_stores_identity _ _ _ _ _ _ _ _ _ Hok) as (u & Hu & He & Hp).
  assert (∀ reqs, ∃ u, users (run reqs s1) !! id = Some u
                       ∧ User.email u = sb_email b ∧ User.phone u = sb_phone b)
    as Hkept.
  { intros reqs. destruct (persists_run reqs s1) as [Hkeep _].
    destruct (Hkeep id u Hu) as (u' & Hu' & He' & Hp').
    exists u'. split; [done|]. split; congruence. }
  split; [done|]. split.
  - intros reqs hashSync' gen' rnd' b' Hsame.
    destruct (Hkept reqs) as (u' & Hu' & He' & Hp').
    apply (signup_refuses_known _ _ _ _ _ id u' Hu').
    destruct Hsame as [Hs|Hs]; [left|right]; congruence.
  - intros s2 k u2 hashSync' gen' rnd' b' Hu2 Hsame.
    by apply (signup_refuses_known _ _ _ _ _ k u2).
Qed.

Lemma signup_refuses_duplicates_witness :
  let s1 := (signup sample_hash sample_gen sample_rnd (sample_body "kiran" "")
                    sample_db).1 in
  ∃ message,
    signup sample_hash sample_gen sample_rnd (sample_body "kiran" "ASHA")
      (run sample_withdraw_requests s1)
    = (run sample_withdraw_requests s1, Fail message).
Proof.
  destruct (signup_refuses_duplicates sample_hash sample_gen sample_rnd
              (sample_body "kiran" "") sample_db
              (signup sample_hash sample_gen sample_rnd (sample_body "kiran" "")
                      sample_db).1
              "Account created successfully! Welcome to CashByKing 🎉"
              4 (Some "CODE0")) as (_ & Hrefused & _);
    [vm_compute; reflexivity|].
  apply (Hrefused sample_withdraw_requests sample_hash sample_gen sample_rnd
                  (sample_body "kiran" "ASHA")).
  left. reflexivity.
Defined.
